(** * Username spam filter of the Discord bot

    A shallow embedding of [SpamFilter.ts] (the decision engine and the
    name normalizer), of [addRolesToUsernameSpamFilter] in
    [ConfigSpamFilter.ts] and of the [userUpdate] handler in
    [UserUpdate.ts], followed by the properties the specification states
    about them.

    Conventions of the embedding:
    - a JavaScript string is the list of its UTF-16 code units;
    - the regular expressions of the source are kept as data and run by a
      small matcher for one-character classes;
    - what the JavaScript runtime takes from the Unicode Character
      Database (NFKC, lower-casing, the general categories) is a record
      [Unicode]; the table [utils/Confusables] is an argument as well;
    - an [async] function is a computation that appends the external
      calls it makes to a trace and either returns or rejects. *)

From Stdlib Require Import List NArith Bool String Lia Permutation.
Import ListNotations.
Local Open Scope N_scope.

(* ================================================================== *)
(** * JavaScript strings and regular expressions *)

Module JS.

(** A string value: a sequence of 16-bit code units. *)
Definition jsstring := list N.

Fixpoint str_eqb (a b : jsstring) : bool :=
  match a, b with
  | [], [] => true
  | x :: a', y :: b' => (x =? y) && str_eqb a' b'
  | _, _ => false
  end.

(** [Array.prototype.includes] on an array of strings. *)
Definition includes (xs : list jsstring) (x : jsstring) : bool :=
  existsb (str_eqb x) xs.

Definition isHighSurrogate (u : N) : bool := (0xD800 <=? u) && (u <=? 0xDBFF).
Definition isLowSurrogate (u : N) : bool := (0xDC00 <=? u) && (u <=? 0xDFFF).

(** A code point as a [u]-flag regular expression or [normalize] reads it
    from a string: a surrogate pair, or one code unit (which may be an
    unpaired surrogate). *)
Inductive CodePoint :=
| Unit (u : N)
| Pair (hi lo : N).

Definition value (c : CodePoint) : N :=
  match c with
  | Unit u => u
  | Pair hi lo => 0x10000 + (hi - 0xD800) * 0x400 + (lo - 0xDC00)
  end.

Definition units (c : CodePoint) : jsstring :=
  match c with
  | Unit u => [u]
  | Pair hi lo => [hi; lo]
  end.

Fixpoint codePoints (s : jsstring) : list CodePoint :=
  match s with
  | [] => []
  | hi :: t =>
      match t with
      | lo :: t' =>
          if isHighSurrogate hi && isLowSurrogate lo
          then Pair hi lo :: codePoints t'
          else Unit hi :: codePoints t
      | [] => [Unit hi]
      end
  end.

Definition fromCodePoints (l : list CodePoint) : jsstring := flat_map units l.

(** Unicode property escapes used by the source: [\p{P}], [\p{S}], [\p{So}]. *)
Inductive PropertyName := gc_P | gc_S | gc_So.

(** What the runtime takes from the Unicode Character Database. *)
Record Unicode := {
  NFKC : jsstring -> jsstring;            (* String.prototype.normalize('NFKC') *)
  toLowerCase : jsstring -> jsstring;     (* String.prototype.toLowerCase *)
  hasProperty : PropertyName -> N -> bool (* general category of a code point *)
}.

(** [\w] without the [i] flag: [A-Za-z0-9_]. *)
Definition isWordChar (c : N) : bool :=
  ((0x30 <=? c) && (c <=? 0x39)) || ((0x41 <=? c) && (c <=? 0x5A))
  || (c =? 0x5F) || ((0x61 <=? c) && (c <=? 0x7A)).

(** [\s]: the WhiteSpace and LineTerminator code points of ECMAScript. *)
Definition isWhiteSpace (c : N) : bool :=
  ((0x09 <=? c) && (c <=? 0x0D)) || (c =? 0x20) || (c =? 0xA0) || (c =? 0x1680)
  || ((0x2000 <=? c) && (c <=? 0x200A)) || (c =? 0x2028) || (c =? 0x2029)
  || (c =? 0x202F) || (c =? 0x205F) || (c =? 0x3000) || (c =? 0xFEFF).

(** The members of a character class. *)
Inductive ClassAtom :=
| esc_w
| esc_s
| esc_p (p : PropertyName)
| lit (c : N).

(** A global regular expression that is one character class:
    [/[...]/g], [/[^...]/g] or a lone escape such as [/\p{So}/g],
    with or without the [u] flag. *)
Record RegExp := {
  negated : bool;
  atoms : list ClassAtom;
  unicode : bool
}.

Definition atomMatches (U : Unicode) (a : ClassAtom) (c : N) : bool :=
  match a with
  | esc_w => isWordChar c
  | esc_s => isWhiteSpace c
  | esc_p p => hasProperty U p c
  | lit l => c =? l
  end.

Definition test (U : Unicode) (re : RegExp) (c : N) : bool :=
  xorb (negated re) (existsb (fun a => atomMatches U a c) (atoms re)).

(** [s.replace(re, replacer)] for a global one-character [re]: with the
    [u] flag the string is read code point by code point, without it code
    unit by code unit; the replacer receives the matched substring. *)
Definition replace (U : Unicode) (re : RegExp)
    (replacer : jsstring -> jsstring) (s : jsstring) : jsstring :=
  if unicode re
  then flat_map (fun c => if test U re (value c) then replacer (units c) else units c)
                (codePoints s)
  else flat_map (fun u => if test U re u then replacer [u] else [u]) s.

(** [v || d] where [v] is the result of [Map.prototype.get] on a map of
    strings: [undefined] and the empty string are both falsy. *)
Definition orElse (v : option jsstring) (d : jsstring) : jsstring :=
  match v with
  | Some (u :: r) => u :: r
  | _ => d
  end.

(** Truthiness of a value of type [string | null]. *)
Definition truthy (v : option jsstring) : bool :=
  match v with
  | Some (_ :: _) => true
  | _ => false
  end.

End JS.

(* ================================================================== *)
(** * Promises: traces of external calls, resolution and rejection *)

Module Async.

Inductive Outcome (A : Type) :=
| Returned (a : A)
| Rejected (e : string).
Arguments Returned {A} a.
Arguments Rejected {A} e.

Section WithEvent.
Variable Event : Type.

Definition t (A : Type) : Type := list Event * Outcome A.

Definition ret {A} (a : A) : t A := ([], Returned a).
Definition reject {A} (e : string) : t A := ([], Rejected e).
Definition emit (ev : Event) : t unit := ([ev], Returned tt).

(** [await m] followed by the rest of the function body. *)
Definition bind {A B} (m : t A) (f : A -> t B) : t B :=
  match snd m with
  | Returned a => (fst m ++ fst (f a), snd (f a))
  | Rejected e => (fst m, Rejected e)
  end.

(** [m.catch(handler)] and [try { m } catch (e) { handler }]. *)
Definition catch {A} (m : t A) (handler : string -> t A) : t A :=
  match snd m with
  | Returned a => m
  | Rejected e => (fst m ++ fst (handler e), snd (handler e))
  end.

Definition trace {A} (m : t A) : list Event := fst m.
Definition outcome {A} (m : t A) : Outcome A := snd m.
End WithEvent.

Arguments ret {Event A} a.
Arguments reject {Event A} e.
Arguments emit {Event} ev.
Arguments bind {Event A B} m f.
Arguments catch {Event A} m handler.
Arguments trace {Event A} m.
Arguments outcome {Event A} m.

End Async.

Import Async.

Declare Scope async_scope.
Delimit Scope async_scope with async.
Notation "x <- m ;; k" := (Async.bind m (fun x => k))
  (at level 61, m at next level, right associativity) : async_scope.
Notation "m ;; k" := (Async.bind m (fun _ => k))
  (at level 61, right associativity) : async_scope.

(* ================================================================== *)
(** * Data model *)

(** The members of the enum [SpamFilterConfigType] that the sources
    mention ([types/spam-filter/SpamFilterConfigType] itself is not among
    the sources). *)
Inductive SpamFilterConfigType := PROTECTED_ROLE | ALLOWLIST_ROLE | ALLOWLIST_USER.

Definition SpamFilterConfigType_eqb (a b : SpamFilterConfigType) : bool :=
  match a, b with
  | PROTECTED_ROLE, PROTECTED_ROLE
  | ALLOWLIST_ROLE, ALLOWLIST_ROLE
  | ALLOWLIST_USER, ALLOWLIST_USER => true
  | _, _ => false
  end.

(** [types/spam-filter/SpamFilterConfig.ts]; the [_id] that the driver
    assigns to every inserted document is left out. *)
Record SpamFilterConfig := {
  objectType : SpamFilterConfigType;
  discordObjectId : string;
  discordObjectName : string;
  discordServerId : string;
  discordServerName : string
}.

Module Discord.

Record User := {
  id : string;
  username : JS.jsstring
}.

Record Role := {
  role_id : string;
  role_name : string
}.

Record GuildMember := {
  user : User;
  nickname : option JS.jsstring;   (* string | null *)
  roles : list string;             (* ids of the roles the member holds *)
  bannable : bool                  (* may the bot ban this member *)
}.

(** A guild with its member directory and how the two side effects of
    the engine end when they are attempted on one of its members. *)
Record Guild := {
  guild_id : string;
  guild_name : string;
  members : list GuildMember;
  sendRejects : GuildMember -> option string;  (* member.send(...) rejects with *)
  banRejects : GuildMember -> option string    (* member.ban(...) rejects with *)
}.

End Discord.

(** A filter of [find], [findOne] and [deleteOne] on the collection. *)
Record Query := {
  q_objectType : SpamFilterConfigType;
  q_discordObjectId : option string;
  q_discordServerId : string
}.

Inductive LogMessage :=
| SkipNotBannable (m : Discord.GuildMember)
| SkipOnAllowlist (m : Discord.GuildMember)
| SkipRoleOnAllowlist (m : Discord.GuildMember)
| UnableToMessage (m : Discord.GuildMember) (e : string)
| AutoBanned (m : Discord.GuildMember)
| UnableToAutoBan (m : Discord.GuildMember) (e : string)
| DupKeyFound (e : string)
| FailedToStoreRoles (e : string)
| FailedToProcessUserUpdate (e : string).

(** The calls that leave the process. *)
Inductive Event :=
| DbFindOne (q : Query)
| DbFind (q : Query)
| DbInsertMany (docs : list SpamFilterConfig)
| GetMembersWithRoles (roleIds : list string)
| MembersFetch (userId : string)
| UsersFetch (userId : string)
| MemberSend (m : Discord.GuildMember) (contact1 contact2 : string)
| MemberBan (m : Discord.GuildMember)
| Log (msg : LogMessage).

Definition Promise := Async.t Event.

(** The state an evaluation reads: the guild of the member and the
    collection [usernameSpamFilter]. *)
Record World := {
  guild : Discord.Guild;
  usernameSpamFilterDb : list SpamFilterConfig
}.

Local Open Scope async_scope.

(* ================================================================== *)
(** * The collection [usernameSpamFilter] *)

Module Mongo.

Definition matchesQuery (q : Query) (c : SpamFilterConfig) : bool :=
  SpamFilterConfigType_eqb (objectType c) (q_objectType q)
  && match q_discordObjectId q with
     | Some i => String.eqb (discordObjectId c) i
     | None => true
     end
  && String.eqb (discordServerId c) (q_discordServerId q).

Definition findOne (db : list SpamFilterConfig) (q : Query)
  : Promise (option SpamFilterConfig) :=
  emit (DbFindOne q) ;; ret (List.find (matchesQuery q) db).

(** [find] followed by [cursor.forEach(c => list.push(c))]. *)
Definition find (db : list SpamFilterConfig) (q : Query)
  : Promise (list SpamFilterConfig) :=
  emit (DbFind q) ;; ret (List.filter (matchesQuery q) db).

(** Modelled from the spec: the unique index of the collection is created
    outside the sources; the spec gives its key, "the tuple (objectType,
    discordObjectId, discordServerId) is unique". *)
Definition sameKey (a b : SpamFilterConfig) : bool :=
  SpamFilterConfigType_eqb (objectType a) (objectType b)
  && String.eqb (discordObjectId a) (discordObjectId b)
  && String.eqb (discordServerId a) (discordServerId b).

Inductive WriteError := DuplicateKey (doc : SpamFilterConfig).

(** The server side of [insertMany(docs, { ordered: false })]: every
    document is tried; one that collides with a stored document, or with
    one inserted earlier in the same batch, is rejected with code 11000
    and the others are still inserted. *)
Fixpoint insertUnordered (db : list SpamFilterConfig) (docs : list SpamFilterConfig)
  : list SpamFilterConfig * list WriteError :=
  match docs with
  | [] => (db, [])
  | d :: rest =>
      if existsb (sameKey d) db
      then let r := insertUnordered db rest in (fst r, DuplicateKey d :: snd r)
      else insertUnordered (db ++ [d]) rest
  end.

Inductive InsertError :=
| BulkWriteError (code : N) (writeErrors : list WriteError)
| MongoError (message : string).

Record InsertWriteOpResult := { insertedCount : N }.

(** An empty batch is refused by the driver; a batch with write errors
    is reported as one [BulkWriteError] after all documents were tried. *)
Definition insertMany (db : list SpamFilterConfig) (docs : list SpamFilterConfig)
  : list SpamFilterConfig * (option InsertWriteOpResult + InsertError) :=
  match docs with
  | [] => (db, inr (MongoError "Invalid Operation, no operations specified"))
  | _ =>
      let r := insertUnordered db docs in
      match snd r with
      | [] => (fst r, inl (Some {| insertedCount := N.of_nat (List.length docs) |}))
      | errs => (fst r, inr (BulkWriteError 11000 errs))
      end
  end.

End Mongo.

(* ================================================================== *)
(** * [utils/ServiceUtils] *)

Module ServiceUtils.

(** Modelled from the spec: [ServiceUtils.hasSomeRole] is not among the
    sources; "candidate currently holds any role present as an
    AllowlistRole record". *)
Definition hasSomeRole (member : Discord.GuildMember) (roleIds : list string) : bool :=
  existsb (fun r => existsb (String.eqb r) roleIds) (Discord.roles member).

(** Modelled from the spec: [ServiceUtils.getMembersWithRoles] is not among
    the sources; "given a guild and a set of role identifiers, returns
    the current members holding any of those roles". *)
Definition getMembersWithRoles (g : Discord.Guild) (roleIds : list string)
  : Promise (list Discord.GuildMember) :=
  emit (GetMembersWithRoles roleIds) ;;
  ret (List.filter (fun m => hasSomeRole m roleIds) (Discord.members g)).

(** [guild.members.fetch(id)] of discord.js: the member with that user
    id, rejected with "Unknown Member" when the guild has none. *)
Definition membersFetch (g : Discord.Guild) (userId : string)
  : Promise Discord.GuildMember :=
  emit (MembersFetch userId) ;;
  match List.find (fun m => String.eqb (Discord.id (Discord.user m)) userId)
                  (Discord.members g) with
  | Some m => ret m
  | None => reject "DiscordAPIError: Unknown Member"
  end.

(** Modelled from the spec: [ServiceUtils.getGuildMemberFromUser] is not
    among the sources; the handler "invokes the engine" on the guild
    member of the configured server that the user is. *)
Definition getGuildMemberFromUser (g : Discord.Guild) (u : Discord.User)
  : Promise Discord.GuildMember :=
  membersFetch g (Discord.id u).

End ServiceUtils.

(* ================================================================== *)
(** * [service/spam-filter/SpamFilter.ts] *)

Module SpamFilter.

(** [/[^\w\s\p{P}\p{S}..]/gu]: the class ends with the two literal
    characters U+00CE and U+017E. *)
Definition nonStandardCharsRegex : JS.RegExp :=
  {| JS.negated := true;
     JS.atoms := [JS.esc_w; JS.esc_s; JS.esc_p JS.gc_P; JS.esc_p JS.gc_S;
                  JS.lit 0xCE; JS.lit 0x17E];
     JS.unicode := true |}.

(** [/\p{So}/gu] *)
Definition emojiRegex : JS.RegExp :=
  {| JS.negated := false; JS.atoms := [JS.esc_p JS.gc_So]; JS.unicode := true |}.

(** [/[\s]/g] *)
Definition whitespaceRegex : JS.RegExp :=
  {| JS.negated := false; JS.atoms := [JS.esc_s]; JS.unicode := false |}.

(** The administrator contacts named in the warning message. *)
Definition aboveAverageJoeId : string := "198981821147381760".
Definition frogmonkeeId : string := "197852493537869824".

Section Engine.
Variable U : JS.Unicode.
(** [Confusables.get], keyed by the matched character as a string. *)
Variable Confusables : JS.jsstring -> option JS.jsstring.

Definition sanitizeUsername (name : JS.jsstring) : JS.jsstring :=
  JS.toLowerCase U
    (JS.replace U nonStandardCharsRegex
       (fun char => JS.orElse (Confusables char) char)
       (JS.replace U whitespaceRegex (fun _ => [])
          (JS.replace U emojiRegex (fun _ => [])
             (JS.NFKC U name)))).

Variable w : World.

Definition memberOnAllowlist (member : Discord.GuildMember) : Promise bool :=
  allowlist <- Mongo.findOne (usernameSpamFilterDb w)
                 {| q_objectType := ALLOWLIST_USER;
                    q_discordObjectId := Some (Discord.id (Discord.user member));
                    q_discordServerId := Discord.guild_id (guild w) |} ;;
  match allowlist with
  | Some _ => ret true
  | None => ret false
  end.

Definition roleOnAllowlist (member : Discord.GuildMember) : Promise bool :=
  allowlistRoleList <- Mongo.find (usernameSpamFilterDb w)
                         {| q_objectType := ALLOWLIST_ROLE;
                            q_discordObjectId := None;
                            q_discordServerId := Discord.guild_id (guild w) |} ;;
  let allowlistRoles := List.map discordObjectId allowlistRoleList in
  if ServiceUtils.hasSomeRole member allowlistRoles then ret true else ret false.

Definition skipUsernameSpamFilter (member : Discord.GuildMember) : Promise bool :=
  if negb (Discord.bannable member)
  then emit (Log (SkipNotBannable member)) ;; ret true
  else
    onAllowlist <- memberOnAllowlist member ;;
    if onAllowlist
    then emit (Log (SkipOnAllowlist member)) ;; ret true
    else
      hasRole <- roleOnAllowlist member ;;
      if hasRole
      then emit (Log (SkipRoleOnAllowlist member)) ;; ret true
      else ret false.

Definition getProtectedRolesForServer : Promise (list string) :=
  protectedRolesList <- Mongo.find (usernameSpamFilterDb w)
                          {| q_objectType := PROTECTED_ROLE;
                             q_discordObjectId := None;
                             q_discordServerId := Discord.guild_id (guild w) |} ;;
  ret (List.map discordObjectId protectedRolesList).

(** [member.send(...).catch(e => Log.log(...))] *)
Definition sendWarning (member aboveAverageJoe frogmonkee : Discord.GuildMember)
  : Promise unit :=
  catch
    (emit (MemberSend member (Discord.id (Discord.user aboveAverageJoe))
                             (Discord.id (Discord.user frogmonkee))) ;;
     match Discord.sendRejects (guild w) member with
     | Some e => reject e
     | None => ret tt
     end)
    (fun e => emit (Log (UnableToMessage member e))).

(** [member.ban(...).then(() => Log.log(...)).catch(e => Log.log(...))] *)
Definition banMember (member : Discord.GuildMember) : Promise unit :=
  catch
    ((emit (MemberBan member) ;;
      match Discord.banRejects (guild w) member with
      | Some e => reject e
      | None => ret tt
      end) ;;
     emit (Log (AutoBanned member)))
    (fun e => emit (Log (UnableToAutoBan member e))).

(** The callback of [protectedMembers.map]. *)
Definition protectedName (protectedMember : Discord.GuildMember) : JS.jsstring :=
  match Discord.nickname protectedMember with
  | Some (u :: r) => sanitizeUsername (u :: r)
  | _ => sanitizeUsername (Discord.username (Discord.user protectedMember))
  end.

Definition runUsernameSpamFilter (member : Discord.GuildMember) : Promise bool :=
  skip <- skipUsernameSpamFilter member ;;
  if skip then ret false
  else
    protectedRoles <- getProtectedRolesForServer ;;
    if (N.of_nat (List.length protectedRoles) =? 0)%N then ret false
    else
      protectedMembers <- ServiceUtils.getMembersWithRoles (guild w) protectedRoles ;;
      let protectedNames := List.map protectedName protectedMembers in
      let nickname :=
        match Discord.nickname member with
        | Some (u :: r) => Some (sanitizeUsername (u :: r))
        | _ => None
        end in
      let username := sanitizeUsername (Discord.username (Discord.user member)) in
      if match nickname with
         | Some (u :: r) => JS.includes protectedNames (u :: r)
         | _ => false
         end
         || JS.includes protectedNames username
      then
        aboveAverageJoe <- ServiceUtils.membersFetch (guild w) aboveAverageJoeId ;;
        frogmonkee <- ServiceUtils.membersFetch (guild w) frogmonkeeId ;;
        sendWarning member aboveAverageJoe frogmonkee ;;
        banMember member ;;
        ret true
      else ret false.

End Engine.

End SpamFilter.

(* ================================================================== *)
(** * [service/spam-filter/ConfigSpamFilter.ts] *)

Module ConfigSpamFilter.

Definition isDupKey (e : Mongo.InsertError) : bool :=
  match e with
  | Mongo.BulkWriteError code _ => (code =? 11000)%N
  | Mongo.MongoError _ => false
  end.

Definition errorText (e : Mongo.InsertError) : string :=
  match e with
  | Mongo.BulkWriteError _ _ => "BulkWriteError"
  | Mongo.MongoError m => m
  end.

(** The function also stands in [service/bounty/create/PublishBounty.ts],
    with the same body.  It returns the collection after the call next to
    the promise. *)
Definition addRolesToUsernameSpamFilter (g : Discord.Guild)
    (db : list SpamFilterConfig) (roles : list Discord.Role)
    (objectType : SpamFilterConfigType)
  : list SpamFilterConfig * Promise unit :=
  let usernameSpamFilterList :=
    List.map (fun role =>
                {| objectType := objectType;
                   discordObjectId := Discord.role_id role;
                   discordObjectName := Discord.role_name role;
                   discordServerId := Discord.guild_id g;
                   discordServerName := Discord.guild_name g |}) roles in
  let r := Mongo.insertMany db usernameSpamFilterList in
  (fst r,
   emit (DbInsertMany usernameSpamFilterList) ;;
   match snd r with
   | inr e =>
       (if isDupKey e then emit (Log (DupKeyFound (errorText e))) else ret tt) ;;
       emit (Log (FailedToStoreRoles (errorText e))) ;;
       ret tt
   | inl result =>
       match result with
       | None => reject "MongoError: failed to insert usernameSpamFilter"
       | Some _ => ret tt
       end
   end).

End ConfigSpamFilter.

(* ================================================================== *)
(** * [events/UserUpdate.ts] *)

Module UserUpdate.

(** [User | PartialUser]: a partial user carries its id only. *)
Inductive UserOrPartial :=
| FullUser (u : Discord.User)
| PartialUser (userId : string).

(** What the handler reads besides the world of the engine: the users the
    client can fetch, and [ServiceUtils.isBanklessDAO], which is not among
    the sources. *)
Record Client := {
  world : World;
  users : list Discord.User;
  isBanklessDAO : Discord.Guild -> bool
}.

Section Handler.
Variable U : JS.Unicode.
Variable Confusables : JS.jsstring -> option JS.jsstring.
Variable c : Client.

(** [if (user.partial) user = await user.fetch();] *)
Definition fetchIfPartial (u : UserOrPartial) : Promise Discord.User :=
  match u with
  | FullUser u => ret u
  | PartialUser userId =>
      emit (UsersFetch userId) ;;
      match List.find (fun u => String.eqb (Discord.id u) userId) (users c) with
      | Some u => ret u
      | None => reject "DiscordAPIError: Unknown User"
      end
  end.

Definition execute (oldUser newUser : UserOrPartial) : Promise unit :=
  catch
    (oldUser <- fetchIfPartial oldUser ;;
     newUser <- fetchIfPartial newUser ;;
     if negb (JS.str_eqb (Discord.username oldUser) (Discord.username newUser))
     then
       guildMember <- ServiceUtils.getGuildMemberFromUser (guild (world c)) newUser ;;
       if isBanklessDAO c (guild (world c))
       then
         banned <- SpamFilter.runUsernameSpamFilter U Confusables (world c) guildMember ;;
         if banned then ret tt else ret tt
       else ret tt
     else ret tt)
    (fun e => emit (Log (FailedToProcessUserUpdate e))).

End Handler.

End UserUpdate.

(* ================================================================== *)
(** * The administrator's side: tasks over the collection

    The functions of [ConfigSpamFilter.ts] besides
    [addRolesToUsernameSpamFilter], and the command that calls them, read
    and change the collection and tell error classes apart; they are
    computations over the collection that append their external calls to
    a trace and either resolve or throw. *)

Module Task.

(** What a rejected promise carries, by the classes the command tests
    with [instanceof]. *)
Inductive Thrown :=
| ValidationError (message : string)
| EarlyTermination (message : string)
| Failure (text : string).

Record MessageEmbedOptions := {
  title : string;
  description : string
}.

(** What [guildMember.send] is given: the two embeds that open the
    dialogue (one field per role), one embed, or plain content. *)
Inductive DirectMessage :=
| Question (roles : list Discord.Role)
| Embed (embed : MessageEmbedOptions)
| Content (text : string).

(** What [ctx.send] is given. *)
Inductive Reply :=
| HeyISentYouADM
| ReplyText (text : string).

Inductive Call :=
| Engine (ev : Event)
| DbDeleteOne (q : Query)
| DbFindServer (serverId : string)
| CtxSend (reply : Reply)
| MemberDM (to : Discord.GuildMember) (msg : DirectMessage)
| MessageReact (emoji : string)
| AwaitReactions (time : N)
| LogError (text : string) (e : Thrown)
| LogCommandStart
| UnhandledRejection (e : Thrown).

Inductive Result (A : Type) :=
| Resolved (a : A)
| Threw (e : Thrown).
Arguments Resolved {A} a.
Arguments Threw {A} e.

Definition Store := list SpamFilterConfig.

Definition t (A : Type) : Type := Store -> Store * (list Call * Result A).

Definition ret {A} (a : A) : t A := fun db => (db, ([], Resolved a)).
Definition throw {A} (e : Thrown) : t A := fun db => (db, ([], Threw e)).
Definition emit (c : Call) : t unit := fun db => (db, ([c], Resolved tt)).
Definition read : t Store := fun db => (db, ([], Resolved db)).
Definition update (f : Store -> Store) : t unit := fun db => (f db, ([], Resolved tt)).

Definition bind {A B} (m : t A) (f : A -> t B) : t B :=
  fun db =>
    let r := m db in
    match snd (snd r) with
    | Resolved a =>
        let r' := f a (fst r) in
        (fst r', (fst (snd r) ++ fst (snd r'), snd (snd r')))
    | Threw e => (fst r, (fst (snd r), Threw e))
    end.

(** [m.catch(handler)] and [try { m } catch (e) { handler }]: what [m]
    changed before it threw stays changed. *)
Definition catch {A} (m : t A) (handler : Thrown -> t A) : t A :=
  fun db =>
    let r := m db in
    match snd (snd r) with
    | Resolved _ => r
    | Threw e =>
        let r' := handler e (fst r) in
        (fst r', (fst (snd r) ++ fst (snd r'), snd (snd r')))
    end.

(** A function of the engine's kind, called from a task: its calls are
    kept, a rejection is a [Failure]. *)
Definition call {A} (f : Store -> Store * Promise A) : t A :=
  fun db =>
    let r := f db in
    (fst r,
     (List.map Engine (Async.trace (snd r)),
      match Async.outcome (snd r) with
      | Returned a => Resolved a
      | Rejected e => Threw (Failure e)
      end)).

Definition store {A} (r : Store * (list Call * Result A)) : Store := fst r.
Definition calls {A} (r : Store * (list Call * Result A)) : list Call := fst (snd r).
Definition result {A} (r : Store * (list Call * Result A)) : Result A := snd (snd r).

End Task.

Declare Scope task_scope.
Delimit Scope task_scope with task.
Notation "x <- m ;; k" := (Task.bind m (fun x => k))
  (at level 61, m at next level, right associativity) : task_scope.
Notation "m ;; k" := (Task.bind m (fun _ => k))
  (at level 61, right associativity) : task_scope.

(** What the administrator's side reads of Discord and of the driver:
    the functions of [utils/ServiceUtils] that are not among the sources,
    and how the calls that can fail end.  [dbUtils.dbConnect],
    [ServiceUtils.retrieveRoles] and the [find] of the driver are taken
    to resolve, as they are for the engine. *)
Record Admin := {
  isDiscordAdmin : Discord.GuildMember -> bool;
  isDiscordServerManager : Discord.GuildMember -> bool;
  retrieveRoles : Discord.Guild -> list (option string) -> list Discord.Role;
  ctxSendRejects : Task.Reply -> option string; (* ctx.send(text) rejects with *)
  dmRejects : option string;                   (* guildMember.send(...) rejects with *)
  reactRejects : string -> option string;      (* message.react(emoji) rejects with *)
  deleteRejects : Query -> option string       (* deleteOne(filter) rejects with *)
}.

(** A reaction that arrives on the question while the dialogue waits. *)
Record IncomingReaction := {
  emoji_name : string;
  by_bot : bool
}.

(* ================================================================== *)
(** * [service/spam-filter/ConfigSpamFilter.ts], the dialogue *)

Module ConfigWizard.
Import Task.
Local Open Scope task_scope.

Definition protectRoles : string := "✅".
Definition unprotectRoles : string := "❌".
Definition addToAllowlist : string := "🆗".
Definition removeFromAllowlist : string := "🛑".
Definition edit : string := "📝".

Definition NL : string := String (Ascii.ascii_of_nat 10) EmptyString.

(** [deleteOne(filter)] of the driver: the first document that matches
    is removed, none when nothing matches. *)
Fixpoint deleteOne (db : Store) (q : Query) : Store :=
  match db with
  | [] => []
  | c :: rest => if Mongo.matchesQuery q c then rest else c :: deleteOne rest q
  end.

Section Dialogue.
Variable A : Admin.
Variable g : Discord.Guild.

Definition addRolesToUsernameSpamFilter (roles : list Discord.Role)
    (objectType : SpamFilterConfigType) : Task.t unit :=
  call (fun db => ConfigSpamFilter.addRolesToUsernameSpamFilter g db roles objectType).

Definition roleFilter (objectType : SpamFilterConfigType) (role : Discord.Role) : Query :=
  {| q_objectType := objectType;
     q_discordObjectId := Some (Discord.role_id role);
     q_discordServerId := Discord.guild_id g |}.

(** The loop [for (const role of roles) await deleteOne(...)]. *)
Fixpoint deleteEach (roles : list Discord.Role) (objectType : SpamFilterConfigType)
  : Task.t unit :=
  match roles with
  | [] => ret tt
  | role :: rest =>
      emit (DbDeleteOne (roleFilter objectType role)) ;;
      match deleteRejects A (roleFilter objectType role) with
      | Some e => throw (Failure e)
      | None =>
          update (fun db => deleteOne db (roleFilter objectType role)) ;;
          deleteEach rest objectType
      end
  end.

Definition removeRolesFromUsernameSpamFilter (roles : list Discord.Role)
    (objectType : SpamFilterConfigType) : Task.t unit :=
  catch (deleteEach roles objectType)
        (fun e => emit (LogError "failed to remove username spam filter roles from db" e)).

(** The body of [rolesCursor.forEach]. *)
Definition collect (acc : list string * list string) (config : SpamFilterConfig)
  : list string * list string :=
  if SpamFilterConfigType_eqb (objectType config) PROTECTED_ROLE
  then (fst acc ++ [discordObjectName config], snd acc)
  else if SpamFilterConfigType_eqb (objectType config) ALLOWLIST_ROLE
  then (fst acc, snd acc ++ [discordObjectName config])
  else acc.

(** ['None'] for an empty list, else every name followed by a line feed. *)
Definition rolesString (names : list string) : string :=
  if (N.of_nat (List.length names) =? 0)%N then "None"%string
  else List.fold_left (fun s role => (s ++ role ++ NL)%string) names ""%string.

Definition getRolesFromUsernameSpamFilter : Task.t MessageEmbedOptions :=
  emit (DbFindServer (Discord.guild_id g)) ;;
  db <- read ;;
  let found := List.filter
                 (fun c => String.eqb (discordServerId c) (Discord.guild_id g)) db in
  let lists := List.fold_left collect found ([], []) in
  let protectedRolesString := rolesString (fst lists) in
  let allowlistRolesString := rolesString (snd lists) in
  ret {| title := "Username Spam Filter Configuration";
         description :=
           ("**Roles protected by filter:**" ++ NL ++ protectedRolesString ++ NL
            ++ "**Roles on allowlist:**" ++ NL ++ allowlistRolesString)%string |}.

(** [ctx.send(...).catch(e => LogUtils.logError(...))] *)
Definition tellAboutDM : Task.t unit :=
  catch (emit (CtxSend HeyISentYouADM) ;;
         match ctxSendRejects A HeyISentYouADM with
         | Some e => throw (Failure e)
         | None => ret tt
         end)
        (fun e => emit (LogError "failed to send dm to user" e)).

Definition send (guildMember : Discord.GuildMember) (msg : DirectMessage) : Task.t unit :=
  emit (MemberDM guildMember msg) ;;
  match dmRejects A with
  | Some e => throw (Failure e)
  | None => ret tt
  end.

Definition react (emoji : string) : Task.t unit :=
  emit (MessageReact emoji) ;;
  match reactRejects A emoji with
  | Some e => throw (Failure e)
  | None => ret tt
  end.

(** The [filter] of [awaitReactions]. *)
Definition passesFilter (r : IncomingReaction) : bool :=
  existsb (String.eqb (emoji_name r))
          [protectRoles; unprotectRoles; addToAllowlist; removeFromAllowlist; edit]
  && negb (by_bot r).

(** [message.awaitReactions({ max: 1, time: 6000 * 60, errors: ['time'],
    filter })] followed by [collected.first()]: the first of the
    reactions that arrive in time and pass the filter; the promise is
    rejected when there is none. *)
Definition awaitReactions (arriving : list IncomingReaction) : Task.t IncomingReaction :=
  emit (AwaitReactions (6000 * 60)) ;;
  match List.find passesFilter arriving with
  | Some r => ret r
  | None => throw (Failure "time")
  end.

(** The default export; [arriving] are the reactions the question gets
    while the dialogue waits. *)
Definition configure (guildMember : Discord.GuildMember) (roles : list (option string))
    (arriving : list IncomingReaction) : Task.t unit :=
  if negb (isDiscordAdmin A guildMember || isDiscordServerManager A guildMember)
  then throw (ValidationError
                "Sorry, only discord admins and managers can configure spam filter settings.")
  else
    let protectedRoles := retrieveRoles A g roles in
    if (N.of_nat (List.length protectedRoles) =? 0)%N
    then
      tellAboutDM ;;
      embed <- getRolesFromUsernameSpamFilter ;;
      send guildMember (Embed embed)
    else
      send guildMember (Question protectedRoles) ;;
      tellAboutDM ;;
      react protectRoles ;;
      react unprotectRoles ;;
      react addToAllowlist ;;
      react removeFromAllowlist ;;
      react edit ;;
      reaction <- awaitReactions arriving ;;
      confirmationMsg <-
        (if String.eqb (emoji_name reaction) protectRoles
         then
           addRolesToUsernameSpamFilter protectedRoles PROTECTED_ROLE ;;
           ret {| title := "Configuration Added";
                  description :=
                    "The roles are now protected by the username spam filter." |}
         else if String.eqb (emoji_name reaction) unprotectRoles
         then
           removeRolesFromUsernameSpamFilter protectedRoles PROTECTED_ROLE ;;
           ret {| title := "Configuration Removed";
                  description :=
                    "The roles are no longer protected by the username spam filter." |}
         else if String.eqb (emoji_name reaction) addToAllowlist
         then
           addRolesToUsernameSpamFilter protectedRoles ALLOWLIST_ROLE ;;
           ret {| title := "Configuration Added";
                  description := "The roles are now on the allowlist." |}
         else if String.eqb (emoji_name reaction) removeFromAllowlist
         then
           removeRolesFromUsernameSpamFilter protectedRoles ALLOWLIST_ROLE ;;
           ret {| title := "Configuration Removed";
                  description := "The roles are no longer on the allowlist." |}
         else if String.eqb (emoji_name reaction) edit
         then
           send guildMember (Content "Configuration setup ended.") ;;
           throw (ValidationError "Please re-initiate spam-filter configuration.")
         else throw (ValidationError "Please approve or deny access.")) ;;
      send guildMember (Embed confirmationMsg).

End Dialogue.

End ConfigWizard.

(* ================================================================== *)
(** * [commands/admin/SpamFilter.ts] *)

Module SpamFilterCommand.
Import Task.
Local Open Scope task_scope.

(** What [run] reads of the command context: the invoking user, the
    guild, the three role options, and the guild member that
    [ServiceUtils.getGuildAndMember] resolves (none when it rejects). *)
Record CommandContext := {
  user_bot : bool;
  guildID : option string;
  role_1 : option string;
  role_2 : option string;
  role_3 : option string;
  guildAndMember : option Discord.GuildMember
}.

Section Command.
Variable A : Admin.
Variable g : Discord.Guild.

(** A [ctx.send] whose promise is returned from a handler. *)
Definition reply (text : string) : Task.t unit :=
  emit (CtxSend (ReplyText text)) ;;
  match ctxSendRejects A (ReplyText text) with
  | Some e => throw (Failure e)
  | None => ret tt
  end.

(** [command.then(...).catch(...)]; the chain is not returned, so what
    it rejects with is an unhandled rejection. *)
Definition handleCommandError (command : Task.t unit) : Task.t unit :=
  catch
    (catch
       (command ;; reply "Successfully configured username spam filter.")
       (fun e =>
          match e with
          | ValidationError message => reply message
          | EarlyTermination message => reply message
          | Failure _ =>
              emit (LogError "failed to handle spam-filter command" e) ;;
              reply "Sorry something is not working and our devs are looking into it."
          end))
    (fun e => emit (UnhandledRejection e)).

Definition run (ctx : CommandContext) (arriving : list IncomingReaction)
  : Task.t (option string) :=
  emit LogCommandStart ;;
  if user_bot ctx || match guildID ctx with None => true | Some _ => false end
  then ret (Some "Please try /spam-filter within discord channel."%string)
  else
    guildMember <- match guildAndMember ctx with
                   | Some m => ret m
                   | None => throw (Failure "getGuildAndMember")
                   end ;;
    let highRankingRoles := [role_1 ctx; role_2 ctx; role_3 ctx] in
    let command := ConfigWizard.configure A g guildMember highRankingRoles arriving in
    handleCommandError command ;;
    ret None.

End Command.

End SpamFilterCommand.

(* ================================================================== *)
(** * A fragment of the Unicode Character Database

    The concrete runtime used to evaluate the engine on inputs.  It
    agrees with the Unicode data on strings made of: ASCII; the letters
    U+00CE, U+00E9, U+017E and U+039E; the combining acute accent U+0301
    directly after [e] or after a character it does not combine with; the
    symbols U+2605, U+1F525 and U+1F600..U+1F64F; unpaired surrogates. *)

Module UCD.

Definition isAscii (u : N) : bool := u <? 0x80.

Definition asciiLower (u : N) : N :=
  if (0x41 <=? u) && (u <=? 0x5A) then u + 0x20 else u.

Definition lowerUnit (u : N) : N :=
  if u =? 0xCE then 0xEE          (* LATIN CAPITAL LETTER I WITH CIRCUMFLEX *)
  else if u =? 0x39E then 0x3BE   (* GREEK CAPITAL LETTER XI *)
  else asciiLower u.

Definition toLowerCase (s : JS.jsstring) : JS.jsstring := List.map lowerUnit s.

(** Canonical composition of [e] with U+0301 into U+00E9; nothing else
    in the fragment decomposes or composes. *)
Fixpoint NFKC (s : JS.jsstring) : JS.jsstring :=
  match s with
  | [] => []
  | u :: t =>
      match t with
      | m :: t' => if (u =? 0x65) && (m =? 0x301) then 0xE9 :: NFKC t' else u :: NFKC t
      | [] => [u]
      end
  end.

Definition memN (c : N) (l : list N) : bool := existsb (N.eqb c) l.

Definition asciiPunctuation : list N :=
  [0x21; 0x22; 0x23; 0x25; 0x26; 0x27; 0x28; 0x29; 0x2A; 0x2C; 0x2D; 0x2E; 0x2F;
   0x3A; 0x3B; 0x3F; 0x40; 0x5B; 0x5C; 0x5D; 0x5F; 0x7B; 0x7D].

Definition asciiSymbols : list N :=
  [0x24; 0x2B; 0x3C; 0x3D; 0x3E; 0x5E; 0x60; 0x7C; 0x7E].

Definition isOtherSymbol (c : N) : bool :=
  (c =? 0x2605) || (c =? 0x1F525) || ((0x1F600 <=? c) && (c <=? 0x1F64F)).

Definition hasProperty (p : JS.PropertyName) (c : N) : bool :=
  match p with
  | JS.gc_P => memN c asciiPunctuation
  | JS.gc_S => memN c asciiSymbols || isOtherSymbol c
  | JS.gc_So => isOtherSymbol c
  end.

Definition unicode : JS.Unicode :=
  {| JS.NFKC := NFKC; JS.toLowerCase := toLowerCase; JS.hasProperty := hasProperty |}.

(** A sample of a confusables table ([utils/Confusables] is not among
    the sources): Cyrillic and accented look-alikes of Latin letters. *)
Definition sampleConfusables (char : JS.jsstring) : option JS.jsstring :=
  match char with
  | [u] =>
      if u =? 0x430 then Some [0x61]        (* CYRILLIC SMALL LETTER A *)
      else if u =? 0x435 then Some [0x65]   (* CYRILLIC SMALL LETTER IE *)
      else if u =? 0x43E then Some [0x6F]   (* CYRILLIC SMALL LETTER O *)
      else if u =? 0xE9 then Some [0x65]    (* LATIN SMALL LETTER E WITH ACUTE *)
      else if u =? 0x17E then Some [0x7A]   (* LATIN SMALL LETTER Z WITH CARON *)
      else None
  | _ => None
  end.

(** A sample with Cyrillic look-alikes and one accented letter, every
    entry a Latin letter. *)
Definition lookalikes (char : JS.jsstring) : option JS.jsstring :=
  match char with
  | [u] =>
      if u =? 0x430 then Some [0x61]        (* CYRILLIC SMALL LETTER A *)
      else if u =? 0x435 then Some [0x65]   (* CYRILLIC SMALL LETTER IE *)
      else if u =? 0x43E then Some [0x6F]   (* CYRILLIC SMALL LETTER O *)
      else if u =? 0xE9 then Some [0x65]    (* LATIN SMALL LETTER E WITH ACUTE *)
      else None
  | _ => None
  end.

End UCD.

(** What the properties below use of the Unicode data on ASCII text. *)
Record UnicodeOnAscii (U : JS.Unicode) : Prop := {
  NFKC_ascii : forall s, forallb UCD.isAscii s = true -> JS.NFKC U s = s;
  toLowerCase_ascii :
    forall s, forallb UCD.isAscii s = true -> JS.toLowerCase U s = List.map UCD.asciiLower s;
  So_ascii : forall c, UCD.isAscii c = true -> JS.hasProperty U JS.gc_So c = false;
  graphic_ascii :
    forall c, 0x21 <= c <= 0x7E -> JS.isWordChar c = false ->
              JS.hasProperty U JS.gc_P c || JS.hasProperty U JS.gc_S c = true
}.

(* ================================================================== *)
(** * The notions of the specification *)

Module Spec.

(** ** The Name Normalizer, step by step *)

Section Normalizer.
Variable U : JS.Unicode.
Variable Confusables : JS.jsstring -> option JS.jsstring.

(** Removal of every code point that satisfies [p]. *)
Definition removeCodePoints (p : N -> bool) (s : JS.jsstring) : JS.jsstring :=
  JS.fromCodePoints (List.filter (fun c => negb (p (JS.value c))) (JS.codePoints s)).

Definition stripOtherSymbols : JS.jsstring -> JS.jsstring :=
  removeCodePoints (JS.hasProperty U JS.gc_So).

Definition stripWhiteSpace : JS.jsstring -> JS.jsstring :=
  removeCodePoints JS.isWhiteSpace.

Definition isPunctuationOrSymbol (c : N) : bool :=
  JS.hasProperty U JS.gc_P c || JS.hasProperty U JS.gc_S c.

(** Step 4 as the specification words it: every code point that is not
    an ASCII word character and not a punctuation or symbol character
    is replaced by its mapping when one exists. *)
Definition substituteConfusables (s : JS.jsstring) : JS.jsstring :=
  List.flat_map
    (fun c =>
       if negb (JS.isWordChar (JS.value c)) && negb (isPunctuationOrSymbol (JS.value c))
       then match Confusables (JS.units c) with
            | Some m => m
            | None => JS.units c
            end
       else JS.units c)
    (JS.codePoints s).

Definition normalize (s : JS.jsstring) : JS.jsstring :=
  JS.toLowerCase U
    (substituteConfusables (stripWhiteSpace (stripOtherSymbols (JS.NFKC U s)))).

(** Step 4 with the two letters the source exempts, and with an empty
    mapping counted as no mapping. *)
Definition isExemptLetter (c : N) : bool := (c =? 0xCE) || (c =? 0x17E).

Definition substituteConfusablesExempting (s : JS.jsstring) : JS.jsstring :=
  List.flat_map
    (fun c =>
       if negb (JS.isWordChar (JS.value c)) && negb (isPunctuationOrSymbol (JS.value c))
          && negb (isExemptLetter (JS.value c))
       then match Confusables (JS.units c) with
            | Some (u :: r) => u :: r
            | _ => JS.units c
            end
       else JS.units c)
    (JS.codePoints s).

Definition normalizeExempting (s : JS.jsstring) : JS.jsstring :=
  JS.toLowerCase U
    (substituteConfusablesExempting
       (stripWhiteSpace (stripOtherSymbols (JS.NFKC U s)))).

End Normalizer.

(** ASCII text: printable ASCII characters and ASCII white space. *)
Definition isAsciiText (u : N) : bool :=
  ((0x20 <=? u) && (u <=? 0x7E)) || ((0x09 <=? u) && (u <=? 0x0D)).

(** ** The Decision Engine *)

Section Engine.
Variable U : JS.Unicode.
Variable Confusables : JS.jsstring -> option JS.jsstring.
Variable w : World.

Definition isRecordOf (t : SpamFilterConfigType) (c : SpamFilterConfig) : bool :=
  SpamFilterConfigType_eqb (objectType c) t
  && String.eqb (discordServerId c) (Discord.guild_id (guild w)).

(** (b): an AllowlistUser record with the member's user id and the
    guild's server id exists. *)
Definition onAllowlistUser (m : Discord.GuildMember) : bool :=
  existsb (fun c => isRecordOf ALLOWLIST_USER c
                    && String.eqb (discordObjectId c) (Discord.id (Discord.user m)))
          (usernameSpamFilterDb w).

Definition holdsRoleOf (t : SpamFilterConfigType) (m : Discord.GuildMember) : bool :=
  existsb (fun c => isRecordOf t c
                    && existsb (String.eqb (discordObjectId c)) (Discord.roles m))
          (usernameSpamFilterDb w).

(** (c): the member holds some role listed as an AllowlistRole record. *)
Definition holdsAllowlistRole : Discord.GuildMember -> bool := holdsRoleOf ALLOWLIST_ROLE.

Definition passesSkipCheck (m : Discord.GuildMember) : bool :=
  Discord.bannable m && negb (onAllowlistUser m) && negb (holdsAllowlistRole m).

Definition protectedRoleRecords : list SpamFilterConfig :=
  List.filter (isRecordOf PROTECTED_ROLE) (usernameSpamFilterDb w).

(** Nickname if set, else username. *)
Definition displayName (m : Discord.GuildMember) : JS.jsstring :=
  match Discord.nickname m with
  | Some n => if JS.truthy (Some n) then n else Discord.username (Discord.user m)
  | None => Discord.username (Discord.user m)
  end.

(** The current members of the protected roles. *)
Definition protectedMembers : list Discord.GuildMember :=
  List.filter (holdsRoleOf PROTECTED_ROLE) (Discord.members (guild w)).

(** The set of sanitized display names of the protected members. *)
Definition protectedNameSet : list JS.jsstring :=
  List.map (fun p => SpamFilter.sanitizeUsername U Confusables (displayName p))
           protectedMembers.

Definition inProtectedNameSet (n : JS.jsstring) : bool :=
  existsb (JS.str_eqb n) protectedNameSet.

Definition sanitizedUsername (m : Discord.GuildMember) : JS.jsstring :=
  SpamFilter.sanitizeUsername U Confusables (Discord.username (Discord.user m)).

(** The sanitized nickname, when a nickname is set. *)
Definition sanitizedNickname (m : Discord.GuildMember) : option JS.jsstring :=
  match Discord.nickname m with
  | Some n => if JS.truthy (Some n)
              then Some (SpamFilter.sanitizeUsername U Confusables n) else None
  | None => None
  end.

(** The match of the claims: either form is in the protected set. *)
Definition eitherFormProtected (m : Discord.GuildMember) : bool :=
  match sanitizedNickname m with
  | Some n => inProtectedNameSet n
  | None => false
  end
  || inProtectedNameSet (sanitizedUsername m).

(** The match of the source: a nickname counts when its sanitized form
    is not empty. *)
Definition matchOccurs (m : Discord.GuildMember) : bool :=
  match sanitizedNickname m with
  | Some n => JS.truthy (Some n) && inProtectedNameSet n
  | None => false
  end
  || inProtectedNameSet (sanitizedUsername m).

Definition isGuildMember (userId : string) : bool :=
  existsb (fun m => String.eqb (Discord.id (Discord.user m)) userId)
          (Discord.members (guild w)).

(** Both administrator contacts are members of the guild. *)
Definition contactsPresent : bool :=
  isGuildMember SpamFilter.aboveAverageJoeId && isGuildMember SpamFilter.frogmonkeeId.

(** The queries of the engine. *)
Definition allowlistUserQuery (m : Discord.GuildMember) : Query :=
  {| q_objectType := ALLOWLIST_USER;
     q_discordObjectId := Some (Discord.id (Discord.user m));
     q_discordServerId := Discord.guild_id (guild w) |}.

Definition roleQuery (t : SpamFilterConfigType) : Query :=
  {| q_objectType := t;
     q_discordObjectId := None;
     q_discordServerId := Discord.guild_id (guild w) |}.

Definition protectedRoleIds : list string :=
  List.map discordObjectId protectedRoleRecords.

Definition findMember (userId : string) : option Discord.GuildMember :=
  List.find (fun m => String.eqb (Discord.id (Discord.user m)) userId)
            (Discord.members (guild w)).

(** What is logged after the warning message and after the ban. *)
Definition sendLog (m : Discord.GuildMember) : list Event :=
  match Discord.sendRejects (guild w) m with
  | Some e => [Log (UnableToMessage m e)]
  | None => []
  end.

Definition banLog (m : Discord.GuildMember) : list Event :=
  match Discord.banRejects (guild w) m with
  | Some e => [Log (UnableToAutoBan m e)]
  | None => [Log (AutoBanned m)]
  end.

(** The calls of an evaluation that passes the skip check, up to the
    comparison of the names. *)
Definition evaluationTrace (m : Discord.GuildMember) : list Event :=
  [DbFindOne (allowlistUserQuery m); DbFind (roleQuery ALLOWLIST_ROLE);
   DbFind (roleQuery PROTECTED_ROLE); GetMembersWithRoles protectedRoleIds].

(** The state machine of the Decision Engine as one function: the
    calls made and the result, from the facts the engine reads. *)
Definition evaluation (m : Discord.GuildMember) : Promise bool :=
  if negb (Discord.bannable m)
  then ([Log (SkipNotBannable m)], Returned false)
  else if onAllowlistUser m
  then ([DbFindOne (allowlistUserQuery m); Log (SkipOnAllowlist m)], Returned false)
  else if holdsAllowlistRole m
  then ([DbFindOne (allowlistUserQuery m); DbFind (roleQuery ALLOWLIST_ROLE);
         Log (SkipRoleOnAllowlist m)], Returned false)
  else
    match protectedRoleRecords with
    | [] => ([DbFindOne (allowlistUserQuery m); DbFind (roleQuery ALLOWLIST_ROLE);
              DbFind (roleQuery PROTECTED_ROLE)], Returned false)
    | _ :: _ =>
        if matchOccurs m
        then
          match findMember SpamFilter.aboveAverageJoeId with
          | None => (evaluationTrace m ++ [MembersFetch SpamFilter.aboveAverageJoeId],
                     Rejected "DiscordAPIError: Unknown Member")
          | Some a =>
              match findMember SpamFilter.frogmonkeeId with
              | None => (evaluationTrace m
                         ++ [MembersFetch SpamFilter.aboveAverageJoeId;
                             MembersFetch SpamFilter.frogmonkeeId],
                         Rejected "DiscordAPIError: Unknown Member")
              | Some f =>
                  (evaluationTrace m
                   ++ [MembersFetch SpamFilter.aboveAverageJoeId;
                       MembersFetch SpamFilter.frogmonkeeId;
                       MemberSend m (Discord.id (Discord.user a))
                                    (Discord.id (Discord.user f))]
                   ++ sendLog m ++ [MemberBan m] ++ banLog m,
                   Returned true)
              end
          end
        else (evaluationTrace m, Returned false)
    end.

(** C1 as the specification states it: the verdict is membership of
    either sanitized form in the protected set. *)
Definition verdictIsEitherForm (m : Discord.GuildMember) : Prop :=
  passesSkipCheck m = true ->
  protectedRoleRecords <> [] ->
  (Async.outcome (SpamFilter.runUsernameSpamFilter U Confusables w m) = Returned true
   <-> eitherFormProtected m = true).

(** C7 as the specification states it: a match always ends in the
    warning, the ban and the verdict [true]. *)
Definition matchAlwaysBans (m : Discord.GuildMember) : Prop :=
  passesSkipCheck m = true ->
  protectedRoleRecords <> [] ->
  matchOccurs m = true ->
  Async.outcome (SpamFilter.runUsernameSpamFilter U Confusables w m) = Returned true.

(** C10 as stated: two empty canonical forms collide and the engine
    returns [true]. *)
Definition emptyFormsCollide (m : Discord.GuildMember) : Prop :=
  passesSkipCheck m = true ->
  (exists p, In p protectedMembers
             /\ SpamFilter.sanitizeUsername U Confusables (displayName p) = []) ->
  sanitizedUsername m = [] ->
  Async.outcome (SpamFilter.runUsernameSpamFilter U Confusables w m) = Returned true.

End Engine.

(** Events that resolve role members or act on the candidate. *)
Definition isDirectoryRead (ev : Event) : bool :=
  match ev with
  | GetMembersWithRoles _ | MembersFetch _ => true
  | _ => false
  end.

Definition isSideEffect (ev : Event) : bool :=
  match ev with
  | MemberSend _ _ _ | MemberBan _ => true
  | _ => false
  end.

(** Events that evaluate protected names: the query for protected roles
    and the resolution of their members. *)
Definition evaluatesProtectedNames (ev : Event) : bool :=
  match ev with
  | DbFind q => SpamFilterConfigType_eqb (q_objectType q) PROTECTED_ROLE
  | GetMembersWithRoles _ => true
  | _ => false
  end.

(** ** The Config Store *)

(** The record of a type for a role and a server. *)
Definition hasKey (t : SpamFilterConfigType) (objectId serverId : string)
    (c : SpamFilterConfig) : bool :=
  SpamFilterConfigType_eqb (objectType c) t
  && String.eqb (discordObjectId c) objectId
  && String.eqb (discordServerId c) serverId.

(** How often the store lists a tuple. *)
Definition timesListed (db : list SpamFilterConfig) (t : SpamFilterConfigType)
    (objectId serverId : string) : nat :=
  List.length (List.filter (hasKey t objectId serverId) db).

(** The invariant of the store: no two records share a key. *)
Fixpoint uniqueKeys (db : list SpamFilterConfig) : bool :=
  match db with
  | [] => true
  | c :: rest => negb (existsb (Mongo.sameKey c) rest) && uniqueKeys rest
  end.

(** ** The event handler *)

Section Handler.
Variable U : JS.Unicode.
Variable Confusables : JS.jsstring -> option JS.jsstring.
Variable c : UserUpdate.Client.

(** The handler ran the engine for [m]: the calls of that evaluation
    are a segment of the calls of the handler. *)
Definition runsFilterFor (oldUser newUser : UserUpdate.UserOrPartial)
    (m : Discord.GuildMember) : Prop :=
  exists before after,
    Async.trace (UserUpdate.execute U Confusables c oldUser newUser)
    = before
      ++ Async.trace (SpamFilter.runUsernameSpamFilter U Confusables
                        (UserUpdate.world c) m)
      ++ after.

(** C9 as the specification states it, for the change of a username. *)
Definition runsOnEveryChange : Prop :=
  forall (oldUser newUser : Discord.User) (m : Discord.GuildMember),
    Discord.username oldUser <> Discord.username newUser ->
    findMember (UserUpdate.world c) (Discord.id newUser) = Some m ->
    runsFilterFor (UserUpdate.FullUser oldUser) (UserUpdate.FullUser newUser) m.

(** What the handler logs when the evaluation rejects. *)
Definition failureLog {A} (r : Promise A) : list Event :=
  match Async.outcome r with
  | Rejected e => [Log (FailedToProcessUserUpdate e)]
  | Returned _ => []
  end.

End Handler.

End Spec.

(* ================================================================== *)
(** * A guild to evaluate the engine in *)

Module Examples.

(** An ASCII literal as a JavaScript string. *)
Definition str (s : string) : JS.jsstring :=
  List.map (fun a => N.of_nat (Ascii.nat_of_ascii a)) (list_ascii_of_string s).

Definition serverId : string := "834499078434979890".

Definition mkMember (userId : string) (username : JS.jsstring)
    (nickname : option JS.jsstring) (roles : list string) (bannable : bool)
  : Discord.GuildMember :=
  {| Discord.user := {| Discord.id := userId; Discord.username := username |};
     Discord.nickname := nickname;
     Discord.roles := roles;
     Discord.bannable := bannable |}.

(** Members of the protected role [core]. *)
Definition frogmonkee : Discord.GuildMember :=
  mkMember SpamFilter.frogmonkeeId (str "frogmonkee") (Some (str "Frogmonkee"))
           ["core"%string] false.
Definition aboveAverageJoe : Discord.GuildMember :=
  mkMember SpamFilter.aboveAverageJoeId (str "AboveAverageJoe") None
           ["core"%string] false.
(** A protected member whose nickname is U+1F525 alone. *)
Definition flame : Discord.GuildMember :=
  mkMember "300" (str "flame") (Some [0xD83D; 0xDD25]) ["core"%string] false.

(** Candidates. *)
(** Nickname U+1F642 alone, username [bob]. *)
Definition smiley : Discord.GuildMember :=
  mkMember "100" (str "bob") (Some [0xD83D; 0xDE42]) [] true.
Definition impostor : Discord.GuildMember :=
  mkMember "101" (str "FROG MONKEE") None [] true.
(** Username U+2605 alone. *)
Definition blank : Discord.GuildMember :=
  mkMember "102" [0x2605] None [] true.
Definition newcomer : Discord.GuildMember :=
  mkMember "103" (str "alice") None [] true.
(** On the allowlist, with the name of a protected member. *)
Definition vip : Discord.GuildMember :=
  mkMember "104" (str "frogmonkee") None [] true.

Definition mkConfig (t : SpamFilterConfigType) (objectId objectName : string)
  : SpamFilterConfig :=
  {| objectType := t;
     discordObjectId := objectId;
     discordObjectName := objectName;
     discordServerId := serverId;
     discordServerName := "Bankless DAO" |}.

Definition configured : list SpamFilterConfig :=
  [mkConfig PROTECTED_ROLE "core" "Core";
   mkConfig ALLOWLIST_ROLE "verified" "Verified";
   mkConfig ALLOWLIST_USER "104" "vip"].

Definition mkGuild (members : list Discord.GuildMember) : Discord.Guild :=
  {| Discord.guild_id := serverId;
     Discord.guild_name := "Bankless DAO";
     Discord.members := members;
     Discord.sendRejects := fun _ => Some "Cannot send messages to this user"%string;
     Discord.banRejects := fun _ => None |}.

Definition candidates : list Discord.GuildMember :=
  [smiley; impostor; blank; newcomer; vip].

(** The guild with both administrator contacts. *)
Definition bankless : World :=
  {| guild := mkGuild ([frogmonkee; aboveAverageJoe; flame] ++ candidates);
     usernameSpamFilterDb := configured |}.

(** The same guild after both contacts left. *)
Definition contactsGone : World :=
  {| guild := mkGuild (flame :: candidates);
     usernameSpamFilterDb := configured |}.

(** The guild before any role was protected. *)
Definition unconfigured : World :=
  {| guild := mkGuild ([frogmonkee; aboveAverageJoe; flame] ++ candidates);
     usernameSpamFilterDb := [] |}.

Definition core : Discord.Role :=
  {| Discord.role_id := "core"; Discord.role_name := "Core" |}.
Definition guest : Discord.Role :=
  {| Discord.role_id := "guest"; Discord.role_name := "Guest" |}.

Definition banklessClient : UserUpdate.Client :=
  {| UserUpdate.world := bankless;
     UserUpdate.users := [];
     UserUpdate.isBanklessDAO := fun g => String.eqb (Discord.guild_id g) serverId |}.

(** The bot deployed for a guild that [isBanklessDAO] does not accept. *)
Definition otherClient : UserUpdate.Client :=
  {| UserUpdate.world := bankless;
     UserUpdate.users := [];
     UserUpdate.isBanklessDAO := fun _ => false |}.

(** A string in which white space separates the two halves of a
    surrogate pair. *)
Definition splitPair : JS.jsstring := [0xD83D; 0x20; 0xDE00].

End Examples.

(* ================================================================== *)
(** * Notions for the further properties *)

Module Derived.

(** The world with the collection restricted to the records of the
    guild's server. *)
Definition inServer (g : Discord.Guild) (c : SpamFilterConfig) : bool :=
  String.eqb (discordServerId c) (Discord.guild_id g).

Definition scoped (w : World) : World :=
  {| guild := guild w;
     usernameSpamFilterDb := List.filter (inServer (guild w)) (usernameSpamFilterDb w) |}.

(** The world with more records in the collection. *)
Definition withRecords (w : World) (more : list SpamFilterConfig) : World :=
  {| guild := guild w; usernameSpamFilterDb := usernameSpamFilterDb w ++ more |}.

(** The world after the collection was changed. *)
Definition withStore (w : World) (db : list SpamFilterConfig) : World :=
  {| guild := guild w; usernameSpamFilterDb := db |}.

(** The guild with its directory listed in another order. *)
Definition withMembers (g : Discord.Guild) (ms : list Discord.GuildMember) : Discord.Guild :=
  {| Discord.guild_id := Discord.guild_id g;
     Discord.guild_name := Discord.guild_name g;
     Discord.members := ms;
     Discord.sendRejects := Discord.sendRejects g;
     Discord.banRejects := Discord.banRejects g |}.

(** An ASCII name without its white space, in lower case. *)
Definition foldAscii (s : JS.jsstring) : JS.jsstring :=
  List.map UCD.asciiLower (List.filter (fun u => negb (JS.isWhiteSpace u)) s).

Definition isDbQuery (ev : Event) : bool :=
  match ev with
  | DbFindOne _ | DbFind _ => true
  | _ => false
  end.

(** The record that configures a role. *)
Definition configOf (g : Discord.Guild) (t : SpamFilterConfigType) (role : Discord.Role)
  : SpamFilterConfig :=
  {| objectType := t;
     discordObjectId := Discord.role_id role;
     discordObjectName := Discord.role_name role;
     discordServerId := Discord.guild_id g;
     discordServerName := Discord.guild_name g |}.

(** A record that configures one of the roles. *)
Definition configuresOneOf (g : Discord.Guild) (t : SpamFilterConfigType)
    (roles : list Discord.Role) (c : SpamFilterConfig) : bool :=
  existsb (fun role => Spec.hasKey t (Discord.role_id role) (Discord.guild_id g) c) roles.

(** A record of the type and the server a call works on. *)
Definition inScope (g : Discord.Guild) (t : SpamFilterConfigType) (c : SpamFilterConfig)
  : bool :=
  SpamFilterConfigType_eqb (objectType c) t && inServer g c.

(** A record the dialogue can add or remove: a protected role or an
    allowlist role of the guild's server. *)
Definition isRoleRecord (g : Discord.Guild) (c : SpamFilterConfig) : bool :=
  inScope g PROTECTED_ROLE c || inScope g ALLOWLIST_ROLE c.

Definition isStoreChange (c : Task.Call) : bool :=
  match c with
  | Task.Engine (DbInsertMany _) | Task.DbDeleteOne _ => true
  | _ => false
  end.

(** A message in the channel of the command: every [ctx.send]. *)
Definition isCtxSend (c : Task.Call) : bool :=
  match c with
  | Task.CtxSend _ => true
  | _ => false
  end.

(** A task that keeps a relation [I] between the store before and the
    store after, makes only calls that [C] accepts, resolves with a
    value in [Q] or throws within [E]. *)
Definition ensures {A} (I : Task.Store -> Task.Store -> Prop) (C : Task.Call -> bool)
    (E : Task.Thrown -> Prop) (Q : A -> Prop) (m : Task.t A) : Prop :=
  forall db,
    I db (Task.store (m db))
    /\ forallb C (Task.calls (m db)) = true
    /\ match Task.result (m db) with
       | Task.Resolved a => Q a
       | Task.Threw e => E e
       end.

(** The calls of the dialogue: the driver, direct messages and
    reactions, the notice in the channel, and the error log. *)
Definition dialogueCall (c : Task.Call) : bool :=
  match c with
  | Task.Engine (DbInsertMany _) | Task.Engine (Log _) => true
  | Task.DbDeleteOne _ | Task.DbFindServer _ => true
  | Task.CtxSend Task.HeyISentYouADM => true
  | Task.MemberDM _ _ | Task.MessageReact _ | Task.AwaitReactions _ => true
  | Task.LogError _ _ => true
  | _ => false
  end.

Definition authorized (A : Admin) (guildMember : Discord.GuildMember) : bool :=
  isDiscordAdmin A guildMember || isDiscordServerManager A guildMember.

(** The administrator chose [emoji]: the member may configure the
    filter, some role was resolved, and the first reaction that passes
    the filter of the dialogue carries the emoji. *)
Definition chosen (A : Admin) (g : Discord.Guild) (guildMember : Discord.GuildMember)
    (roles : list (option string)) (arriving : list IncomingReaction) (emoji : string)
  : Prop :=
  authorized A guildMember = true
  /\ retrieveRoles A g roles <> []
  /\ exists r, List.find ConfigWizard.passesFilter arriving = Some r
               /\ emoji_name r = emoji.

End Derived.

Module MoreExamples.

(** A member of the protected role that the bot can ban. *)
Definition moderator : Discord.GuildMember :=
  Examples.mkMember "400" (Examples.str "Moderator") None ["core"%string] true.

Definition moderated : World :=
  {| guild := Examples.mkGuild
                ([Examples.frogmonkee; Examples.aboveAverageJoe; moderator]
                   ++ Examples.candidates);
     usernameSpamFilterDb := Examples.configured |}.

(** A candidate with the name of [moderator], and the guild after both
    administrator contacts left it. *)
Definition copycat : Discord.GuildMember :=
  Examples.mkMember "401" (Examples.str "M o d e r a t o r") None [] true.

Definition abandoned : World :=
  {| guild := Examples.mkGuild ([moderator; copycat] ++ Examples.candidates);
     usernameSpamFilterDb := Examples.configured |}.

(** Records of another server and of an allowlisted user. *)
Definition elsewhere : SpamFilterConfig :=
  {| objectType := PROTECTED_ROLE;
     discordObjectId := "core";
     discordObjectName := "Core";
     discordServerId := "1";
     discordServerName := "Another server" |}.

Definition allowNewcomer : SpamFilterConfig :=
  Examples.mkConfig ALLOWLIST_USER "103" "newcomer".

(** An administrator, whose calls all succeed. *)
Definition admin : Discord.GuildMember :=
  Examples.mkMember "500" (Examples.str "admin") None ["admins"%string] false.

Definition discord : Admin :=
  {| isDiscordAdmin := fun m => String.eqb (Discord.id (Discord.user m)) "500";
     isDiscordServerManager := fun _ => false;
     retrieveRoles := fun _ ids =>
       List.flat_map (fun i => match i with
                               | Some "core"%string => [Examples.core]
                               | Some "guest"%string => [Examples.guest]
                               | _ => []
                               end) ids;
     ctxSendRejects := fun _ => None;
     dmRejects := None;
     reactRejects := fun _ => None;
     deleteRejects := fun _ => None |}.

(** The same, with a driver that rejects the [deleteOne] of the role
    [guest]. *)
Definition flaky : Admin :=
  {| isDiscordAdmin := isDiscordAdmin discord;
     isDiscordServerManager := isDiscordServerManager discord;
     retrieveRoles := retrieveRoles discord;
     ctxSendRejects := fun _ => None;
     dmRejects := None;
     reactRejects := fun _ => None;
     deleteRejects := fun q =>
       match q_discordObjectId q with
       | Some "guest"%string => Some "MongoNetworkError"%string
       | _ => None
       end |}.

(** The same, in a channel the bot cannot write to. *)
Definition muted : Admin :=
  {| isDiscordAdmin := isDiscordAdmin discord;
     isDiscordServerManager := isDiscordServerManager discord;
     retrieveRoles := retrieveRoles discord;
     ctxSendRejects := fun _ => Some "Missing Access"%string;
     dmRejects := None;
     reactRejects := fun _ => None;
     deleteRejects := fun _ => None |}.

(** The same, where the interaction expires while the dialogue runs:
    the success answer is rejected, what is sent after it is not. *)
Definition expiring : Admin :=
  {| isDiscordAdmin := isDiscordAdmin discord;
     isDiscordServerManager := isDiscordServerManager discord;
     retrieveRoles := retrieveRoles discord;
     ctxSendRejects := fun r =>
       match r with
       | Task.ReplyText "Successfully configured username spam filter." =>
           Some "Unknown interaction"%string
       | _ => None
       end;
     dmRejects := None;
     reactRejects := fun _ => None;
     deleteRejects := fun _ => None |}.

(** A role that no record configures. *)
Definition verified : Discord.Role :=
  {| Discord.role_id := "verified"; Discord.role_name := "Verified" |}.

Definition byUser (emoji : string) : IncomingReaction :=
  {| emoji_name := emoji; by_bot := false |}.
Definition byBot (emoji : string) : IncomingReaction :=
  {| emoji_name := emoji; by_bot := true |}.

Definition ctx (m : Discord.GuildMember) (r1 : option string)
  : SpamFilterCommand.CommandContext :=
  {| SpamFilterCommand.user_bot := false;
     SpamFilterCommand.guildID := Some Examples.serverId;
     SpamFilterCommand.role_1 := r1;
     SpamFilterCommand.role_2 := None;
     SpamFilterCommand.role_3 := None;
     SpamFilterCommand.guildAndMember := Some m |}.

End MoreExamples.

(* ================================================================== *)
(** * Strings, code points and character classes *)

Module JSFacts.
Import JS.

Lemma str_eqb_eq (a b : jsstring) : str_eqb a b = true <-> a = b.
Proof.
  revert b; induction a as [|x a IH]; intros [|y b]; simpl; try (split; congruence).
  rewrite andb_true_iff, N.eqb_eq, IH. split.
  - intros [-> ->]; reflexivity.
  - intros E; inversion E; auto.
Qed.

Lemma str_eqb_refl (a : jsstring) : str_eqb a a = true.
Proof. apply str_eqb_eq; reflexivity. Qed.

Lemma includes_In (xs : list jsstring) (x : jsstring) :
  includes xs x = true <-> In x xs.
Proof.
  unfold includes. rewrite existsb_exists. split.
  - intros (y & Hy & E). apply str_eqb_eq in E. subst; assumption.
  - intros H. exists x. split; [assumption | apply str_eqb_refl].
Qed.

(** Induction along the way [codePoints] reads a string. *)
Lemma codePoints_ind (P : jsstring -> Prop) :
  P [] ->
  (forall u, P [u]) ->
  (forall hi lo t, isHighSurrogate hi && isLowSurrogate lo = true ->
                   P t -> P (hi :: lo :: t)) ->
  (forall hi lo t, isHighSurrogate hi && isLowSurrogate lo = false ->
                   P (lo :: t) -> P (hi :: lo :: t)) ->
  forall s, P s.
Proof.
  intros Hnil Hone Hpair Hunit s.
  assert (H : P s /\ forall x, P (x :: s)).
  { induction s as [|y s [IHs IHc]].
    - split; [exact Hnil | exact Hone].
    - split; [apply IHc |].
      intros x. destruct (isHighSurrogate x && isLowSurrogate y) eqn:E.
      + apply Hpair; assumption.
      + apply Hunit; [assumption | apply IHc]. }
  exact (proj1 H).
Qed.

Lemma codePoints_pair hi lo t :
  isHighSurrogate hi && isLowSurrogate lo = true ->
  codePoints (hi :: lo :: t) = Pair hi lo :: codePoints t.
Proof. intros E. simpl. rewrite E. reflexivity. Qed.

Lemma codePoints_unit hi lo t :
  isHighSurrogate hi && isLowSurrogate lo = false ->
  codePoints (hi :: lo :: t) = Unit hi :: codePoints (lo :: t).
Proof. intros E. cbn [codePoints]. rewrite E. reflexivity. Qed.

(** Reading a string by code points loses nothing. *)
Lemma fromCodePoints_codePoints (s : jsstring) : fromCodePoints (codePoints s) = s.
Proof.
  unfold fromCodePoints.
  induction s as [| u | hi lo t E IH | hi lo t E IH] using codePoints_ind.
  - reflexivity.
  - reflexivity.
  - rewrite codePoints_pair by assumption. simpl. rewrite IH. reflexivity.
  - rewrite codePoints_unit by assumption.
    change (flat_map units (Unit hi :: codePoints (lo :: t)))
      with (hi :: flat_map units (codePoints (lo :: t))).
    rewrite IH. reflexivity.
Qed.

Ltac bool_to_prop :=
  repeat match goal with
         | H : _ && _ = true |- _ => apply andb_true_iff in H; destruct H
         | H : _ || _ = true |- _ => apply orb_true_iff in H; destruct H
         | H : (_ <=? _) = true |- _ => apply N.leb_le in H
         | H : (_ <? _) = true |- _ => apply N.ltb_lt in H
         | H : (_ =? _) = true |- _ => apply N.eqb_eq in H
         | H : (_ <=? _) = false |- _ => apply N.leb_gt in H
         | H : (_ <? _) = false |- _ => apply N.ltb_ge in H
         | H : (_ =? _) = false |- _ => apply N.eqb_neq in H
         end.

(** Every white space character is one code unit and no surrogate. *)
Lemma isWhiteSpace_bmp (c : N) :
  isWhiteSpace c = true -> c < 0xD800 \/ 0xDFFF < c < 0x10000.
Proof. unfold isWhiteSpace. intros H. bool_to_prop; lia. Qed.

Lemma isWhiteSpace_surrogate_hi (u : N) :
  isHighSurrogate u = true -> isWhiteSpace u = false.
Proof.
  intros H. destruct (isWhiteSpace u) eqn:E; [|reflexivity].
  apply isWhiteSpace_bmp in E. unfold isHighSurrogate in H. bool_to_prop; lia.
Qed.

Lemma isWhiteSpace_surrogate_lo (u : N) :
  isLowSurrogate u = true -> isWhiteSpace u = false.
Proof.
  intros H. destruct (isWhiteSpace u) eqn:E; [|reflexivity].
  apply isWhiteSpace_bmp in E. unfold isLowSurrogate in H. bool_to_prop; lia.
Qed.

Lemma isWhiteSpace_pair (hi lo : N) : isWhiteSpace (value (Pair hi lo)) = false.
Proof.
  destruct (isWhiteSpace (value (Pair hi lo))) eqn:E; [|reflexivity].
  apply isWhiteSpace_bmp in E. unfold value in E. lia.
Qed.

Lemma flat_map_filter {A B} (p : A -> bool) (f : A -> list B) (l : list A) :
  flat_map (fun a => if p a then [] else f a) l
  = flat_map f (filter (fun a => negb (p a)) l).
Proof.
  induction l as [|a l IH]; simpl; [reflexivity|].
  destruct (p a); simpl; rewrite IH; reflexivity.
Qed.

Lemma flat_map_ext_Forall {A B} (f g : A -> list B) (l : list A) :
  Forall (fun a => f a = g a) l -> flat_map f l = flat_map g l.
Proof.
  induction 1 as [|a l E _ IH]; simpl; [reflexivity|].
  rewrite E, IH. reflexivity.
Qed.

Lemma flat_map_singleton_filter (p : N -> bool) (s : jsstring) :
  flat_map (fun u => if p u then [] else [u]) s = filter (fun u => negb (p u)) s.
Proof.
  induction s as [|u s IH]; simpl; [reflexivity|].
  destruct (p u); simpl; rewrite IH; reflexivity.
Qed.

(** Removing white space code unit by code unit removes exactly the white
    space code points. *)
Lemma filter_units_codePoints (s : jsstring) :
  filter (fun u => negb (isWhiteSpace u)) s
  = fromCodePoints (filter (fun c => negb (isWhiteSpace (value c))) (codePoints s)).
Proof.
  unfold fromCodePoints.
  induction s as [| u | hi lo t E IH | hi lo t E IH] using codePoints_ind.
  - reflexivity.
  - simpl. destruct (isWhiteSpace u); reflexivity.
  - rewrite codePoints_pair by assumption.
    cbn [filter]. rewrite isWhiteSpace_pair.
    apply andb_true_iff in E. destruct E as [Eh El].
    rewrite (isWhiteSpace_surrogate_hi _ Eh), (isWhiteSpace_surrogate_lo _ El).
    simpl. rewrite IH. reflexivity.
  - rewrite codePoints_unit by assumption.
    cbn [filter] in *. cbn [value].
    destruct (isWhiteSpace hi); cbn [negb]; [exact IH|].
    cbn [flat_map units app]. rewrite <- IH. reflexivity.
Qed.

(** A string without white space units has no white space code point. *)
Lemma codePoints_no_whitespace (s : jsstring) :
  Forall (fun u => isWhiteSpace u = false) s ->
  Forall (fun c => isWhiteSpace (value c) = false) (codePoints s).
Proof.
  induction s as [| u | hi lo t E IH | hi lo t E IH] using codePoints_ind; intros H.
  - constructor.
  - inversion H; subst. repeat constructor. assumption.
  - rewrite codePoints_pair by assumption. constructor.
    + apply isWhiteSpace_pair.
    + apply IH. inversion H as [|? ? _ H']; subst. inversion H'; subst. assumption.
  - rewrite codePoints_unit by assumption. inversion H; subst. constructor.
    + assumption.
    + apply IH. assumption.
Qed.

Lemma filter_no_whitespace (s : jsstring) :
  Forall (fun u => isWhiteSpace u = false) (filter (fun u => negb (isWhiteSpace u)) s).
Proof.
  apply Forall_forall. intros u Hu. apply filter_In in Hu.
  destruct Hu as [_ Hu]. apply negb_true_iff in Hu. assumption.
Qed.

End JSFacts.

(* ================================================================== *)
(** * The name normalizer *)

Module NormalizerFacts.
Import JS JSFacts.

Section Steps.
Variable U : Unicode.
Variable Confusables : jsstring -> option jsstring.

Lemma replace_emojiRegex (s : jsstring) :
  replace U SpamFilter.emojiRegex (fun _ => []) s = Spec.stripOtherSymbols U s.
Proof.
  unfold replace, Spec.stripOtherSymbols, Spec.removeCodePoints, fromCodePoints.
  cbn [unicode SpamFilter.emojiRegex].
  rewrite <- flat_map_filter. apply flat_map_ext_Forall, Forall_forall.
  intros c _. unfold test. cbn. rewrite orb_false_r. reflexivity.
Qed.

Lemma replace_whitespaceRegex_filter (s : jsstring) :
  replace U SpamFilter.whitespaceRegex (fun _ => []) s
  = filter (fun u => negb (isWhiteSpace u)) s.
Proof.
  unfold replace. cbn [unicode SpamFilter.whitespaceRegex].
  rewrite <- flat_map_singleton_filter. apply flat_map_ext_Forall, Forall_forall.
  intros u _. unfold test. cbn. rewrite orb_false_r. reflexivity.
Qed.

Lemma replace_whitespaceRegex (s : jsstring) :
  replace U SpamFilter.whitespaceRegex (fun _ => []) s = Spec.stripWhiteSpace s.
Proof.
  rewrite replace_whitespaceRegex_filter. apply filter_units_codePoints.
Qed.

(** What [nonStandardCharsRegex] matches. *)
Lemma test_nonStandardCharsRegex (c : N) :
  test U SpamFilter.nonStandardCharsRegex c
  = negb (isWordChar c) && negb (isWhiteSpace c)
    && negb (Spec.isPunctuationOrSymbol U c) && negb (Spec.isExemptLetter c).
Proof.
  unfold test, Spec.isPunctuationOrSymbol, Spec.isExemptLetter. cbn.
  destruct (isWordChar c), (isWhiteSpace c), (hasProperty U gc_P c),
    (hasProperty U gc_S c), (c =? 0xCE), (c =? 0x17E); reflexivity.
Qed.

Lemma replace_nonStandardCharsRegex (s : jsstring) :
  Forall (fun u => isWhiteSpace u = false) s ->
  replace U SpamFilter.nonStandardCharsRegex
    (fun char => orElse (Confusables char) char) s
  = Spec.substituteConfusablesExempting U Confusables s.
Proof.
  intros H. unfold replace, Spec.substituteConfusablesExempting.
  cbn [unicode SpamFilter.nonStandardCharsRegex].
  apply flat_map_ext_Forall.
  apply codePoints_no_whitespace in H.
  eapply Forall_impl; [|exact H]. cbv beta. intros c Hc.
  change {| negated := true;
            atoms := [esc_w; esc_s; esc_p gc_P; esc_p gc_S; lit 0xCE; lit 0x17E];
            unicode := true |} with SpamFilter.nonStandardCharsRegex.
  rewrite test_nonStandardCharsRegex, Hc. cbn [negb]. rewrite andb_true_r.
  reflexivity.
Qed.

End Steps.

(** ASCII text *)

Lemma isAsciiText_isAscii (u : N) : Spec.isAsciiText u = true -> UCD.isAscii u = true.
Proof.
  unfold Spec.isAsciiText, UCD.isAscii. intros H. apply N.ltb_lt. bool_to_prop; lia.
Qed.

Lemma forallb_impl {A} (p q : A -> bool) (l : list A) :
  (forall a, p a = true -> q a = true) -> forallb p l = true -> forallb q l = true.
Proof.
  intros Hpq. rewrite !forallb_forall. auto.
Qed.

Lemma codePoints_ascii (s : jsstring) :
  forallb UCD.isAscii s = true -> codePoints s = map Unit s.
Proof.
  induction s as [| u | hi lo t E IH | hi lo t E IH] using codePoints_ind; intros H.
  - reflexivity.
  - reflexivity.
  - exfalso. cbn [forallb] in H. unfold UCD.isAscii, isHighSurrogate in *.
    bool_to_prop; lia.
  - rewrite codePoints_unit by assumption. cbn [forallb] in H.
    apply andb_true_iff in H. destruct H as [_ H]. rewrite IH by assumption.
    reflexivity.
Qed.

Lemma replace_ascii (U : Unicode) (re : RegExp) (f : jsstring -> jsstring) (s : jsstring) :
  forallb UCD.isAscii s = true ->
  replace U re f s = flat_map (fun u => if test U re u then f [u] else [u]) s.
Proof.
  intros H. unfold replace. destruct (unicode re); [|reflexivity].
  rewrite codePoints_ascii by assumption. rewrite flat_map_concat_map, map_map.
  rewrite <- flat_map_concat_map. reflexivity.
Qed.

Lemma flat_map_keep (p : N -> bool) (f : jsstring -> jsstring) (s : jsstring) :
  forallb (fun u => negb (p u)) s = true ->
  flat_map (fun u => if p u then f [u] else [u]) s = s.
Proof.
  induction s as [|u s IH]; cbn [forallb flat_map]; [reflexivity|].
  intros H. apply andb_true_iff in H. destruct H as [Hu Hs].
  apply negb_true_iff in Hu. rewrite Hu, IH by assumption. reflexivity.
Qed.

Lemma asciiText_not_space (u : N) :
  Spec.isAsciiText u = true -> isWhiteSpace u = false -> 0x21 <= u <= 0x7E.
Proof.
  unfold Spec.isAsciiText, isWhiteSpace. intros H1 H2.
  repeat (apply orb_false_iff in H2; destruct H2 as [H2 ?]).
  apply andb_false_iff in H2.
  assert (u <> 0x20) by (apply N.eqb_neq; assumption).
  bool_to_prop; destruct H2; bool_to_prop; lia.
Qed.

Section OnAscii.
Variable U : Unicode.
Hypothesis HU : UnicodeOnAscii U.
Variable Confusables : jsstring -> option jsstring.

Lemma test_nonStandard_graphic (u : N) :
  0x21 <= u <= 0x7E -> test U SpamFilter.nonStandardCharsRegex u = false.
Proof.
  intros Hu. rewrite test_nonStandardCharsRegex.
  destruct (isWordChar u) eqn:Ew; [reflexivity|].
  unfold Spec.isPunctuationOrSymbol.
  rewrite (graphic_ascii U HU u Hu Ew). cbn. rewrite andb_false_r. reflexivity.
Qed.

(** On ASCII text the normalizer drops the white space and lower-cases. *)
Lemma sanitizeUsername_ascii (s : jsstring) :
  forallb Spec.isAsciiText s = true ->
  SpamFilter.sanitizeUsername U Confusables s
  = map UCD.asciiLower (filter (fun u => negb (isWhiteSpace u)) s).
Proof.
  intros Hs.
  assert (Ha : forallb UCD.isAscii s = true)
    by (eapply forallb_impl; [apply isAsciiText_isAscii | exact Hs]).
  unfold SpamFilter.sanitizeUsername.
  rewrite (NFKC_ascii U HU s Ha).
  rewrite (replace_ascii U SpamFilter.emojiRegex) by assumption.
  rewrite (flat_map_keep (test U SpamFilter.emojiRegex) (fun _ => [])).
  2:{ apply forallb_forall. intros u Hu. apply negb_true_iff.
      unfold test. cbn. rewrite orb_false_r.
      apply (So_ascii U HU). rewrite forallb_forall in Ha. auto. }
  rewrite replace_whitespaceRegex_filter.
  set (t := filter (fun u => negb (isWhiteSpace u)) s).
  assert (Ht : forall u, In u t -> Spec.isAsciiText u = true /\ isWhiteSpace u = false).
  { intros u Hu. apply filter_In in Hu. destruct Hu as [Hin Hw].
    rewrite forallb_forall in Hs. split; [auto | apply negb_true_iff; assumption]. }
  assert (Hta : forallb UCD.isAscii t = true).
  { apply forallb_forall. intros u Hu. apply isAsciiText_isAscii, Ht, Hu. }
  rewrite replace_ascii by assumption.
  rewrite (flat_map_keep (test U SpamFilter.nonStandardCharsRegex)
             (fun char => orElse (Confusables char) char)).
  2:{ apply forallb_forall. intros u Hu. apply negb_true_iff.
      apply test_nonStandard_graphic. destruct (Ht u Hu).
      apply asciiText_not_space; assumption. }
  apply (toLowerCase_ascii U HU). assumption.
Qed.

End OnAscii.

Lemma asciiLower_text (u : N) :
  Spec.isAsciiText u = true -> Spec.isAsciiText (UCD.asciiLower u) = true.
Proof.
  unfold Spec.isAsciiText, UCD.asciiLower. intros H.
  destruct ((0x41 <=? u) && (u <=? 0x5A)) eqn:E; [|assumption].
  apply orb_true_iff. left. apply andb_true_iff.
  rewrite !N.leb_le. bool_to_prop; lia.
Qed.

Lemma asciiLower_space (u : N) :
  isWhiteSpace u = false -> isWhiteSpace (UCD.asciiLower u) = false.
Proof.
  unfold UCD.asciiLower. intros H.
  destruct ((0x41 <=? u) && (u <=? 0x5A)) eqn:E; [|assumption].
  destruct (isWhiteSpace (u + 0x20)) eqn:W; [|reflexivity].
  unfold isWhiteSpace in W. bool_to_prop; lia.
Qed.

Lemma asciiLower_idem (u : N) : UCD.asciiLower (UCD.asciiLower u) = UCD.asciiLower u.
Proof.
  unfold UCD.asciiLower.
  destruct ((0x41 <=? u) && (u <=? 0x5A)) eqn:E; [|rewrite E; reflexivity].
  destruct ((0x41 <=? u + 0x20) && (u + 0x20 <=? 0x5A)) eqn:E'; [|reflexivity].
  bool_to_prop; lia.
Qed.

(** The fragment satisfies what is used of the Unicode data on ASCII. *)
Lemma graphic_range (c : N) :
  0x21 <= c <= 0x7E -> In c (map N.of_nat (seq 33 94)).
Proof.
  intros H. rewrite <- (N2Nat.id c). apply in_map, in_seq. lia.
Qed.

Lemma UCD_NFKC_ascii (s : jsstring) :
  forallb UCD.isAscii s = true -> UCD.NFKC s = s.
Proof.
  induction s as [|u s IH]; [reflexivity|].
  intros H. cbn [forallb] in H. apply andb_true_iff in H. destruct H as [Hu Hs].
  specialize (IH Hs). destruct s as [|m t]; [reflexivity|].
  cbn [UCD.NFKC] in *.
  assert (E : (m =? 0x301) = false).
  { apply N.eqb_neq. cbn [forallb] in Hs. unfold UCD.isAscii in Hs. bool_to_prop; lia. }
  rewrite E, andb_false_r. f_equal. exact IH.
Qed.

Lemma UCD_unicode_on_ascii : UnicodeOnAscii UCD.unicode.
Proof.
  constructor; cbn [NFKC toLowerCase hasProperty UCD.unicode].
  - apply UCD_NFKC_ascii.
  - intros s H. unfold UCD.toLowerCase. apply map_ext_in. intros u Hu.
    rewrite forallb_forall in H. specialize (H u Hu).
    unfold UCD.lowerUnit, UCD.isAscii in *.
    assert (E1 : (u =? 0xCE) = false) by (apply N.eqb_neq; bool_to_prop; lia).
    assert (E2 : (u =? 0x39E) = false) by (apply N.eqb_neq; bool_to_prop; lia).
    rewrite E1, E2. reflexivity.
  - intros c H. unfold UCD.hasProperty, UCD.isOtherSymbol, UCD.isAscii in *.
    destruct (c =? 0x2605) eqn:E1; [bool_to_prop; lia|].
    destruct (c =? 0x1F525) eqn:E2; [bool_to_prop; lia|].
    destruct ((0x1F600 <=? c) && (c <=? 0x1F64F)) eqn:E3; [bool_to_prop; lia|].
    reflexivity.
  - intros c Hc. apply graphic_range in Hc. revert c Hc.
    assert (G : forallb (fun c => implb (negb (isWordChar c))
                          (UCD.hasProperty gc_P c || UCD.hasProperty gc_S c))
                        (map N.of_nat (seq 33 94)) = true) by (vm_compute; reflexivity).
    rewrite forallb_forall in G. intros c Hc Hw.
    specialize (G c Hc). rewrite Hw in G. exact G.
Qed.

End NormalizerFacts.

(* ================================================================== *)
(** * The decision engine *)

Module EngineFacts.
Import JS JSFacts.

Lemma type_eqb_eq (a b : SpamFilterConfigType) :
  SpamFilterConfigType_eqb a b = true <-> a = b.
Proof. destruct a, b; simpl; split; congruence. Qed.

Lemma find_existsb {A} (p : A -> bool) (l : list A) :
  match find p l with Some _ => true | None => false end = existsb p l.
Proof.
  induction l as [|a l IH]; simpl; [reflexivity|].
  destruct (p a); [reflexivity | exact IH].
Qed.

Lemma existsb_ext_in {A} (p q : A -> bool) (l : list A) :
  (forall a, In a l -> p a = q a) -> existsb p l = existsb q l.
Proof.
  induction l as [|a l IH]; simpl; intros H; [reflexivity|].
  rewrite (H a) by auto. rewrite IH by auto. reflexivity.
Qed.

Lemma bool_eq_iff (a b : bool) : (a = true <-> b = true) -> a = b.
Proof.
  destruct a, b; intros [H1 H2]; try reflexivity.
  - symmetry. apply H1. reflexivity.
  - apply H2. reflexivity.
Qed.

Section Engine.
Variable U : Unicode.
Variable Confusables : jsstring -> option jsstring.
Variable w : World.

Lemma matchesQuery_allowlistUser (m : Discord.GuildMember) (c : SpamFilterConfig) :
  Mongo.matchesQuery (Spec.allowlistUserQuery w m) c
  = Spec.isRecordOf w ALLOWLIST_USER c
    && String.eqb (discordObjectId c) (Discord.id (Discord.user m)).
Proof.
  unfold Mongo.matchesQuery, Spec.allowlistUserQuery, Spec.isRecordOf. cbn.
  rewrite <- !andb_assoc. f_equal. apply andb_comm.
Qed.

Lemma matchesQuery_role (t : SpamFilterConfigType) (c : SpamFilterConfig) :
  Mongo.matchesQuery (Spec.roleQuery w t) c = Spec.isRecordOf w t c.
Proof.
  unfold Mongo.matchesQuery, Spec.roleQuery, Spec.isRecordOf. cbn.
  rewrite andb_true_r. reflexivity.
Qed.

Lemma memberOnAllowlist_eval (m : Discord.GuildMember) :
  SpamFilter.memberOnAllowlist w m
  = ([DbFindOne (Spec.allowlistUserQuery w m)], Returned (Spec.onAllowlistUser w m)).
Proof.
  unfold SpamFilter.memberOnAllowlist, Mongo.findOne, Spec.onAllowlistUser.
  fold (Spec.allowlistUserQuery w m).
  rewrite <- (existsb_ext_in _ _ _ (fun c _ => matchesQuery_allowlistUser m c)).
  rewrite <- find_existsb.
  destruct (find _ _); reflexivity.
Qed.

(** A member holds a role of the listed ids exactly when some record
    lists a role the member holds. *)
Lemma hasSomeRole_holdsRoleOf (t : SpamFilterConfigType) (m : Discord.GuildMember) :
  ServiceUtils.hasSomeRole m
    (map discordObjectId (filter (Spec.isRecordOf w t) (usernameSpamFilterDb w)))
  = Spec.holdsRoleOf w t m.
Proof.
  apply bool_eq_iff. unfold ServiceUtils.hasSomeRole, Spec.holdsRoleOf.
  rewrite !existsb_exists. split.
  - intros (r & Hr & H). apply existsb_exists in H. destruct H as (i & Hi & E).
    apply String.eqb_eq in E. subst i.
    apply in_map_iff in Hi. destruct Hi as (c & Ec & Hc).
    apply filter_In in Hc. destruct Hc as [Hin Hrec].
    exists c. split; [assumption|]. rewrite Hrec. cbn.
    apply existsb_exists. exists r. split; [assumption|].
    apply String.eqb_eq. assumption.
  - intros (c & Hin & H). apply andb_true_iff in H. destruct H as [Hrec H].
    apply existsb_exists in H. destruct H as (r & Hr & E).
    apply String.eqb_eq in E.
    exists r. split; [assumption|]. apply existsb_exists.
    exists (discordObjectId c). split.
    + apply in_map, filter_In. split; assumption.
    + apply String.eqb_eq. congruence.
Qed.

Lemma filter_roleQuery (t : SpamFilterConfigType) :
  filter (Mongo.matchesQuery (Spec.roleQuery w t)) (usernameSpamFilterDb w)
  = filter (Spec.isRecordOf w t) (usernameSpamFilterDb w).
Proof. apply filter_ext. intros c. apply matchesQuery_role. Qed.

Lemma roleOnAllowlist_eval (m : Discord.GuildMember) :
  SpamFilter.roleOnAllowlist w m
  = ([DbFind (Spec.roleQuery w ALLOWLIST_ROLE)], Returned (Spec.holdsAllowlistRole w m)).
Proof.
  unfold SpamFilter.roleOnAllowlist, Mongo.find, Spec.holdsAllowlistRole.
  fold (Spec.roleQuery w ALLOWLIST_ROLE). cbn.
  rewrite filter_roleQuery, hasSomeRole_holdsRoleOf.
  destruct (Spec.holdsRoleOf w ALLOWLIST_ROLE m); reflexivity.
Qed.

Lemma skipUsernameSpamFilter_eval (m : Discord.GuildMember) :
  SpamFilter.skipUsernameSpamFilter w m
  = if negb (Discord.bannable m)
    then ([Log (SkipNotBannable m)], Returned true)
    else if Spec.onAllowlistUser w m
    then ([DbFindOne (Spec.allowlistUserQuery w m); Log (SkipOnAllowlist m)],
          Returned true)
    else if Spec.holdsAllowlistRole w m
    then ([DbFindOne (Spec.allowlistUserQuery w m);
           DbFind (Spec.roleQuery w ALLOWLIST_ROLE);
           Log (SkipRoleOnAllowlist m)], Returned true)
    else ([DbFindOne (Spec.allowlistUserQuery w m);
           DbFind (Spec.roleQuery w ALLOWLIST_ROLE)], Returned false).
Proof.
  unfold SpamFilter.skipUsernameSpamFilter.
  destruct (negb (Discord.bannable m)); [reflexivity|].
  rewrite memberOnAllowlist_eval. unfold bind at 1. cbn [fst snd].
  destruct (Spec.onAllowlistUser w m); [reflexivity|].
  rewrite roleOnAllowlist_eval. unfold bind at 1. cbn [fst snd].
  destruct (Spec.holdsAllowlistRole w m); reflexivity.
Qed.

Lemma getProtectedRolesForServer_eval :
  SpamFilter.getProtectedRolesForServer w
  = ([DbFind (Spec.roleQuery w PROTECTED_ROLE)], Returned (Spec.protectedRoleIds w)).
Proof.
  unfold SpamFilter.getProtectedRolesForServer, Mongo.find.
  fold (Spec.roleQuery w PROTECTED_ROLE). cbn. rewrite filter_roleQuery. reflexivity.
Qed.

Lemma getMembersWithRoles_eval :
  ServiceUtils.getMembersWithRoles (guild w) (Spec.protectedRoleIds w)
  = ([GetMembersWithRoles (Spec.protectedRoleIds w)], Returned (Spec.protectedMembers w)).
Proof.
  unfold ServiceUtils.getMembersWithRoles, Spec.protectedMembers. cbn.
  do 2 f_equal. apply filter_ext. intros m.
  apply (hasSomeRole_holdsRoleOf PROTECTED_ROLE).
Qed.

Lemma protectedName_displayName (p : Discord.GuildMember) :
  SpamFilter.protectedName U Confusables p
  = SpamFilter.sanitizeUsername U Confusables (Spec.displayName p).
Proof.
  unfold SpamFilter.protectedName, Spec.displayName.
  destruct (Discord.nickname p) as [[|u r]|]; reflexivity.
Qed.

Lemma protectedNames_set :
  map (SpamFilter.protectedName U Confusables) (Spec.protectedMembers w)
  = Spec.protectedNameSet U Confusables w.
Proof.
  unfold Spec.protectedNameSet. apply map_ext. apply protectedName_displayName.
Qed.

Lemma membersFetch_eval (userId : string) :
  ServiceUtils.membersFetch (guild w) userId
  = match Spec.findMember w userId with
    | Some m => ([MembersFetch userId], Returned m)
    | None => ([MembersFetch userId], Rejected "DiscordAPIError: Unknown Member")
    end.
Proof.
  unfold ServiceUtils.membersFetch, Spec.findMember.
  destruct (find _ _); reflexivity.
Qed.

Lemma sendWarning_eval (m a f : Discord.GuildMember) :
  SpamFilter.sendWarning w m a f
  = (MemberSend m (Discord.id (Discord.user a)) (Discord.id (Discord.user f))
       :: Spec.sendLog w m, Returned tt).
Proof.
  unfold SpamFilter.sendWarning, Spec.sendLog.
  destruct (Discord.sendRejects (guild w) m); reflexivity.
Qed.

Lemma banMember_eval (m : Discord.GuildMember) :
  SpamFilter.banMember w m = (MemberBan m :: Spec.banLog w m, Returned tt).
Proof.
  unfold SpamFilter.banMember, Spec.banLog.
  destruct (Discord.banRejects (guild w) m); reflexivity.
Qed.

Lemma length_zero {A} (l : list A) :
  (N.of_nat (List.length l) =? 0)%N = match l with [] => true | _ => false end.
Proof. destruct l; [reflexivity|]. simpl. reflexivity. Qed.

(** The source is the state machine of the specification. *)
Lemma runUsernameSpamFilter_evaluation (m : Discord.GuildMember) :
  SpamFilter.runUsernameSpamFilter U Confusables w m
  = Spec.evaluation U Confusables w m.
Proof.
  unfold SpamFilter.runUsernameSpamFilter, Spec.evaluation.
  rewrite skipUsernameSpamFilter_eval.
  destruct (negb (Discord.bannable m)); [reflexivity|].
  destruct (Spec.onAllowlistUser w m); [reflexivity|].
  destruct (Spec.holdsAllowlistRole w m); [reflexivity|].
  unfold bind. cbn [fst snd].
  rewrite getProtectedRolesForServer_eval. cbn [fst snd].
  rewrite length_zero.
  destruct (Spec.protectedRoleIds w) as [|i ids] eqn:Eids;
    unfold Spec.protectedRoleIds in Eids;
    destruct (Spec.protectedRoleRecords w) as [|c0 recs] eqn:Erec;
    try discriminate Eids; [reflexivity|].
  rewrite <- Erec in Eids. fold (Spec.protectedRoleIds w) in Eids.
  rewrite <- Eids. clear Eids Erec.
  rewrite getMembersWithRoles_eval. cbn [fst snd].
  rewrite protectedNames_set.
  assert (Em : (match match Discord.nickname m with
                      | Some (u :: r) =>
                          Some (SpamFilter.sanitizeUsername U Confusables (u :: r))
                      | _ => None
                      end with
                | Some (u :: r) => includes (Spec.protectedNameSet U Confusables w) (u :: r)
                | _ => false
                end
                || includes (Spec.protectedNameSet U Confusables w)
                     (SpamFilter.sanitizeUsername U Confusables
                        (Discord.username (Discord.user m))))
               = Spec.matchOccurs U Confusables w m).
  { unfold Spec.matchOccurs, Spec.sanitizedNickname, Spec.inProtectedNameSet,
      Spec.sanitizedUsername, includes.
    destruct (Discord.nickname m) as [[|u r]|]; cbn [truthy]; try reflexivity.
    destruct (SpamFilter.sanitizeUsername U Confusables (u :: r)); reflexivity. }
  rewrite Em. clear Em.
  destruct (Spec.matchOccurs U Confusables w m); [|reflexivity].
  rewrite !membersFetch_eval.
  destruct (Spec.findMember w SpamFilter.aboveAverageJoeId) as [a|]; [|reflexivity].
  cbn [fst snd].
  destruct (Spec.findMember w SpamFilter.frogmonkeeId) as [f|]; [|reflexivity].
  cbn [fst snd].
  rewrite sendWarning_eval, banMember_eval. cbn [fst snd ret].
  unfold Spec.evaluationTrace. cbn [app]. rewrite app_nil_r. reflexivity.
Qed.

(** The lists the engine reads, in the words of the claims. *)
Lemma isRecordOf_spec (t : SpamFilterConfigType) (c : SpamFilterConfig) :
  Spec.isRecordOf w t c = true
  <-> objectType c = t /\ discordServerId c = Discord.guild_id (guild w).
Proof.
  unfold Spec.isRecordOf. rewrite andb_true_iff, type_eqb_eq, String.eqb_eq.
  reflexivity.
Qed.

Lemma onAllowlistUser_spec (m : Discord.GuildMember) :
  Spec.onAllowlistUser w m = true
  <-> exists c, In c (usernameSpamFilterDb w)
                /\ objectType c = ALLOWLIST_USER
                /\ discordObjectId c = Discord.id (Discord.user m)
                /\ discordServerId c = Discord.guild_id (guild w).
Proof.
  unfold Spec.onAllowlistUser. rewrite existsb_exists.
  split; intros (c & Hin & H); exists c; (split; [assumption|]).
  - apply andb_true_iff in H. destruct H as [Hr He].
    apply isRecordOf_spec in Hr. apply String.eqb_eq in He. tauto.
  - apply andb_true_iff. rewrite isRecordOf_spec, String.eqb_eq. tauto.
Qed.

Lemma holdsRoleOf_spec (t : SpamFilterConfigType) (m : Discord.GuildMember) :
  Spec.holdsRoleOf w t m = true
  <-> exists c, In c (usernameSpamFilterDb w)
                /\ objectType c = t
                /\ discordServerId c = Discord.guild_id (guild w)
                /\ In (discordObjectId c) (Discord.roles m).
Proof.
  unfold Spec.holdsRoleOf. rewrite existsb_exists.
  split; intros (c & Hin & H); exists c; (split; [assumption|]).
  - apply andb_true_iff in H. destruct H as [Hr He].
    apply isRecordOf_spec in Hr. apply existsb_exists in He.
    destruct He as (r & Hr' & E). apply String.eqb_eq in E. subst r. tauto.
  - destruct H as (Ht & Hs & Hr). apply andb_true_iff. split.
    + apply isRecordOf_spec. tauto.
    + apply existsb_exists. exists (discordObjectId c).
      split; [assumption | apply String.eqb_refl].
Qed.

Lemma passesSkipCheck_inv (m : Discord.GuildMember) :
  Spec.passesSkipCheck w m = true ->
  Discord.bannable m = true
  /\ Spec.onAllowlistUser w m = false
  /\ Spec.holdsAllowlistRole w m = false.
Proof.
  unfold Spec.passesSkipCheck. rewrite !andb_true_iff, !negb_true_iff. tauto.
Qed.

Lemma contactsPresent_find :
  Spec.contactsPresent w = true
  <-> (exists a, Spec.findMember w SpamFilter.aboveAverageJoeId = Some a)
      /\ (exists f, Spec.findMember w SpamFilter.frogmonkeeId = Some f).
Proof.
  unfold Spec.contactsPresent, Spec.isGuildMember, Spec.findMember.
  rewrite andb_true_iff, <- !find_existsb.
  split; intros [H1 H2]; split.
  - destruct (find _ _) as [a|]; [exists a; reflexivity | discriminate].
  - clear H1. destruct (find _ _) as [f|]; [exists f; reflexivity | discriminate].
  - destruct H1 as [a ->]. reflexivity.
  - destruct H2 as [f ->]. reflexivity.
Qed.

Lemma matchOccurs_eitherForm (m : Discord.GuildMember) :
  Spec.matchOccurs U Confusables w m = true ->
  Spec.eitherFormProtected U Confusables w m = true.
Proof.
  unfold Spec.matchOccurs, Spec.eitherFormProtected.
  destruct (Spec.sanitizedNickname U Confusables m) as [n|]; [|auto].
  rewrite !orb_true_iff, andb_true_iff. tauto.
Qed.

(** The two notions of a match differ only on a nickname that
    sanitizes to the empty string. *)
Lemma matchOccurs_nickname (m : Discord.GuildMember) :
  Spec.sanitizedNickname U Confusables m <> Some [] ->
  Spec.matchOccurs U Confusables w m = Spec.eitherFormProtected U Confusables w m.
Proof.
  unfold Spec.matchOccurs, Spec.eitherFormProtected.
  destruct (Spec.sanitizedNickname U Confusables m) as [[|u r]|]; intros H;
    [exfalso; apply H; reflexivity | reflexivity | reflexivity].
Qed.

Lemma protectedMembers_records (p : Discord.GuildMember) :
  In p (Spec.protectedMembers w) -> Spec.protectedRoleRecords w <> [].
Proof.
  unfold Spec.protectedMembers, Spec.protectedRoleRecords. intros H.
  apply filter_In in H. destruct H as [_ H].
  unfold Spec.holdsRoleOf in H. apply existsb_exists in H.
  destruct H as (c & Hin & H). apply andb_true_iff in H. destruct H as [Hr _].
  intros E. assert (Hc : In c (filter (Spec.isRecordOf w PROTECTED_ROLE)
                                 (usernameSpamFilterDb w)))
    by (apply filter_In; split; assumption).
  rewrite E in Hc. exact Hc.
Qed.

Lemma inProtectedNameSet_member (p : Discord.GuildMember) :
  In p (Spec.protectedMembers w) ->
  Spec.inProtectedNameSet U Confusables w
    (SpamFilter.sanitizeUsername U Confusables (Spec.displayName p)) = true.
Proof.
  intros H. unfold Spec.inProtectedNameSet, Spec.protectedNameSet.
  apply existsb_exists. eexists. split.
  - apply in_map. exact H.
  - apply str_eqb_refl.
Qed.

End Engine.

End EngineFacts.

(* ================================================================== *)
(** * Properties of the decision engine *)

Module EngineProperties.
Import JS EngineFacts.

Section Engine.
Variable U : Unicode.
Variable Confusables : jsstring -> option jsstring.
Variable w : World.

Local Abbreviation run := (SpamFilter.runUsernameSpamFilter U Confusables w).

(** C2.  When the member is not bannable, or an AllowlistUser record
    with the member's user id and the guild's server id exists, or the
    member holds a role listed as an AllowlistRole record of the guild,
    [runUsernameSpamFilter] returns [false]; it neither queries the
    protected roles, nor resolves their members, nor sends or bans.  The
    three conditions are checked in this order and the first that holds
    ends the check: a member that is not bannable costs no query, an
    allowlisted user costs the one [findOne].  Nothing is assumed of the
    member's names, so an allowlisted user whose name is a protected
    name is not banned. *)
Theorem runUsernameSpamFilter_skipped (m : Discord.GuildMember) :
  Discord.bannable m = false
  \/ Spec.onAllowlistUser w m = true
  \/ Spec.holdsAllowlistRole w m = true ->
  Async.outcome (run m) = Returned false
  /\ forallb (fun ev => negb (Spec.evaluatesProtectedNames ev || Spec.isSideEffect ev))
             (Async.trace (run m)) = true
  /\ (Discord.bannable m = false ->
      Async.trace (run m) = [Log (SkipNotBannable m)])
  /\ (Discord.bannable m = true -> Spec.onAllowlistUser w m = true ->
      Async.trace (run m)
      = [DbFindOne (Spec.allowlistUserQuery w m); Log (SkipOnAllowlist m)])
  /\ (Discord.bannable m = true -> Spec.onAllowlistUser w m = false ->
      Async.trace (run m)
      = [DbFindOne (Spec.allowlistUserQuery w m);
         DbFind (Spec.roleQuery w ALLOWLIST_ROLE);
         Log (SkipRoleOnAllowlist m)]).
Proof.
  intros H. rewrite runUsernameSpamFilter_evaluation. unfold Spec.evaluation.
  destruct (Discord.bannable m) eqn:Eb; cbn [negb].
  - destruct (Spec.onAllowlistUser w m) eqn:Eu.
    + repeat split; try reflexivity; intros; discriminate.
    + destruct (Spec.holdsAllowlistRole w m) eqn:Er.
      * repeat split; try reflexivity; intros; discriminate.
      * destruct H as [H | [H | H]]; discriminate.
  - repeat split; try reflexivity; intros; discriminate.
Qed.

(** C3.  For a member that passes the skip check in a guild without
    ProtectedRole records, [runUsernameSpamFilter] returns [false]
    without resolving role members and without a warning message or a
    ban, whatever the member's names are. *)
Theorem runUsernameSpamFilter_unconfigured (m : Discord.GuildMember) :
  Spec.passesSkipCheck w m = true ->
  Spec.protectedRoleRecords w = [] ->
  Async.outcome (run m) = Returned false
  /\ forallb (fun ev => negb (Spec.isDirectoryRead ev || Spec.isSideEffect ev))
             (Async.trace (run m)) = true.
Proof.
  intros Hs Hr. apply passesSkipCheck_inv in Hs. destruct Hs as (Eb & Eu & Er).
  rewrite runUsernameSpamFilter_evaluation. unfold Spec.evaluation.
  rewrite Eb, Eu, Er, Hr. split; reflexivity.
Qed.


(** Without a match the verdict is [false] and nothing is sent or
    banned, whether the contacts are in the guild or not. *)
Lemma runUsernameSpamFilter_no_match (m : Discord.GuildMember) :
  Spec.passesSkipCheck w m = true ->
  Spec.matchOccurs U Confusables w m = false ->
  Async.outcome (run m) = Returned false
  /\ forallb (fun ev => negb (Spec.isSideEffect ev)) (Async.trace (run m)) = true.
Proof.
  intros Hs Hm. apply passesSkipCheck_inv in Hs. destruct Hs as (Eb & Eu & Er).
  rewrite runUsernameSpamFilter_evaluation. unfold Spec.evaluation.
  rewrite Eb, Eu, Er, Hm. cbn [negb].
  destruct (Spec.protectedRoleRecords w); split; reflexivity.
Qed.

(** With a match and a contact missing the evaluation is rejected, and
    nothing is sent or banned. *)
Lemma runUsernameSpamFilter_contact_missing (m : Discord.GuildMember) :
  Spec.passesSkipCheck w m = true ->
  Spec.protectedRoleRecords w <> [] ->
  Spec.matchOccurs U Confusables w m = true ->
  Spec.contactsPresent w = false ->
  (exists e, Async.outcome (run m) = Rejected e)
  /\ forallb (fun ev => negb (Spec.isSideEffect ev)) (Async.trace (run m)) = true.
Proof.
  intros Hs Hr Hm Hc. apply passesSkipCheck_inv in Hs. destruct Hs as (Eb & Eu & Er).
  rewrite runUsernameSpamFilter_evaluation. unfold Spec.evaluation.
  rewrite Eb, Eu, Er, Hm. cbn [negb].
  destruct (Spec.protectedRoleRecords w) as [|c0 recs]; [contradiction|].
  assert (Hn : ~ (Spec.contactsPresent w = true)) by congruence.
  rewrite contactsPresent_find in Hn.
  destruct (Spec.findMember w SpamFilter.aboveAverageJoeId) as [a|].
  - destruct (Spec.findMember w SpamFilter.frogmonkeeId) as [f|].
    + exfalso. apply Hn. split; eexists; reflexivity.
    + split; [eexists; reflexivity | reflexivity].
  - split; [eexists; reflexivity | reflexivity].
Qed.


(** C10 (amended).  If a current member of a protected role has a
    display name that sanitizes to the empty string, the candidate's
    username sanitizes to the empty string as well, the candidate
    passes the skip check and both administrator contacts are members
    of the guild, then [runUsernameSpamFilter] treats this as a match:
    it attempts the ban and returns [true]. *)
Theorem runUsernameSpamFilter_empty_forms (m p : Discord.GuildMember) :
  Spec.passesSkipCheck w m = true ->
  In p (Spec.protectedMembers w) ->
  SpamFilter.sanitizeUsername U Confusables (Spec.displayName p) = [] ->
  Spec.sanitizedUsername U Confusables m = [] ->
  Spec.contactsPresent w = true ->
  Async.outcome (run m) = Returned true /\ In (MemberBan m) (Async.trace (run m)).
Proof.
  intros Hs Hp Ep Em Hc.
  assert (Hr := protectedMembers_records w p Hp).
  assert (Hm : Spec.matchOccurs U Confusables w m = true).
  { unfold Spec.matchOccurs. apply orb_true_iff. right.
    rewrite Em, <- Ep. apply inProtectedNameSet_member. exact Hp. }
  apply contactsPresent_find in Hc. destruct Hc as [[a Ha] [f Hf]].
  apply passesSkipCheck_inv in Hs. destruct Hs as (Eb & Eu & Er).
  rewrite runUsernameSpamFilter_evaluation. unfold Spec.evaluation.
  rewrite Eb, Eu, Er, Hm, Ha, Hf. cbn [negb].
  destruct (Spec.protectedRoleRecords w) as [|c0 recs]; [contradiction|].
  split; [reflexivity|]. unfold Async.trace. cbn [fst].
  rewrite !in_app_iff. right. right. right. left. left. reflexivity.
Qed.

End Engine.

(** ** Evaluations in the example guild *)

Local Abbreviation run :=
  (SpamFilter.runUsernameSpamFilter UCD.unicode UCD.sampleConfusables).

(** The allowlisted user [vip] bears the name of a protected member and
    is not banned. *)
Lemma runUsernameSpamFilter_skipped_vip :
  Spec.onAllowlistUser Examples.bankless Examples.vip = true
  /\ Spec.eitherFormProtected UCD.unicode UCD.sampleConfusables
       Examples.bankless Examples.vip = true
  /\ Async.outcome (run Examples.bankless Examples.vip) = Returned false.
Proof.
  split; [reflexivity|]. split; [reflexivity|].
  apply (runUsernameSpamFilter_skipped UCD.unicode UCD.sampleConfusables
           Examples.bankless Examples.vip).
  right. left. reflexivity.
Defined.

Lemma runUsernameSpamFilter_unconfigured_impostor :
  Async.outcome (run Examples.unconfigured Examples.impostor) = Returned false.
Proof.
  apply (runUsernameSpamFilter_unconfigured UCD.unicode UCD.sampleConfusables
           Examples.unconfigured Examples.impostor); reflexivity.
Defined.


(** In the guild that both contacts left, the match of [blank] with the
    protected member [flame] ends in a rejected evaluation. *)
Lemma runUsernameSpamFilter_contactsGone :
  Spec.matchOccurs UCD.unicode UCD.sampleConfusables
    Examples.contactsGone Examples.blank = true
  /\ Async.outcome (run Examples.contactsGone Examples.blank)
     = Rejected "DiscordAPIError: Unknown Member".
Proof. split; reflexivity. Qed.


(** The nickname of [smiley] sanitizes to the empty string, which is the
    sanitized display name of the protected member [flame]: the source
    tests [nickname &&] before it compares, which the username does not
    get, and [smiley] is not banned. *)
Lemma verdictIsEitherForm_smiley :
  ~ Spec.verdictIsEitherForm UCD.unicode UCD.sampleConfusables
      Examples.bankless Examples.smiley.
Proof.
  intros H. destruct (H eq_refl) as [_ H'].
  - discriminate.
  - specialize (H' eq_refl). discriminate H'.
Qed.



Lemma runUsernameSpamFilter_empty_forms_blank :
  Async.outcome (run Examples.bankless Examples.blank) = Returned true
  /\ In (MemberBan Examples.blank) (Async.trace (run Examples.bankless Examples.blank)).
Proof.
  apply (runUsernameSpamFilter_empty_forms UCD.unicode UCD.sampleConfusables
           Examples.bankless Examples.blank Examples.flame); try reflexivity.
  cbn. tauto.
Defined.

(** C10 fails as stated: the two empty forms collide in the guild that
    both contacts left and the engine does not return [true]. *)
Lemma emptyFormsCollide_contactsGone :
  ~ Spec.emptyFormsCollide UCD.unicode UCD.sampleConfusables
      Examples.contactsGone Examples.blank.
Proof.
  intros H. unfold Spec.emptyFormsCollide in H.
  assert (E := H eq_refl). clear H.
  assert (E' : Async.outcome (run Examples.contactsGone Examples.blank) = Returned true).
  { apply E; [|reflexivity]. exists Examples.flame. split; [|reflexivity].
    cbn. tauto. }
  discriminate E'.
Qed.

End EngineProperties.

(* ================================================================== *)
(** * Properties of the name normalizer *)

Module NormalizerProperties.
Import JS NormalizerFacts.

(** The steps of the source: those of the specification, with the two
    letters that end the character class of [nonStandardCharsRegex] left
    as they are, and an empty mapping taken for no mapping. *)
Lemma sanitizeUsername_source_steps (U : Unicode)
    (Confusables : jsstring -> option jsstring) (s : jsstring) :
  SpamFilter.sanitizeUsername U Confusables s
  = Spec.normalizeExempting U Confusables s.
Proof.
  unfold SpamFilter.sanitizeUsername, Spec.normalizeExempting.
  rewrite replace_emojiRegex.
  rewrite replace_nonStandardCharsRegex.
  - rewrite replace_whitespaceRegex. reflexivity.
  - rewrite replace_whitespaceRegex_filter. apply JSFacts.filter_no_whitespace.
Qed.

(** A code point whose value is below U+10000 is one code unit. *)
Lemma units_bmp (c : CodePoint) (u : N) :
  value c = u -> u < 0x10000 -> units c = [u].
Proof.
  destruct c as [v | hi lo]; cbn [value units].
  - intros ->. reflexivity.
  - intros <- H. lia.
Qed.



(** The hypothesis on the two letters is needed: with a table that maps
    U+017E to [z], the source keeps the letter where step (4) replaces
    it. *)
Lemma sanitizeUsername_keeps_exempt_letter :
  SpamFilter.sanitizeUsername UCD.unicode UCD.sampleConfusables [0x17E]
  <> Spec.normalize UCD.unicode UCD.sampleConfusables [0x17E].
Proof. vm_compute. discriminate. Qed.

(** C5 (amended).  On ASCII text, that is on every string of printable
    ASCII characters and ASCII white space, normalization is idempotent:
    [sanitizeUsername (sanitizeUsername s) = sanitizeUsername s]. *)
Theorem sanitizeUsername_idempotent_ascii (U : Unicode)
    (Confusables : jsstring -> option jsstring) (s : jsstring) :
  UnicodeOnAscii U ->
  forallb Spec.isAsciiText s = true ->
  SpamFilter.sanitizeUsername U Confusables (SpamFilter.sanitizeUsername U Confusables s)
  = SpamFilter.sanitizeUsername U Confusables s.
Proof.
  intros HU Hs.
  rewrite (sanitizeUsername_ascii U HU Confusables s Hs).
  set (t := filter (fun u => negb (isWhiteSpace u)) s).
  assert (Ht : forall u, In u t -> Spec.isAsciiText u = true /\ isWhiteSpace u = false).
  { intros u Hu. apply filter_In in Hu. destruct Hu as [Hin Hw].
    rewrite forallb_forall in Hs. split; [auto | apply negb_true_iff; assumption]. }
  rewrite (sanitizeUsername_ascii U HU).
  - clearbody t. induction t as [|u t IH]; [reflexivity|].
    cbn [map filter]. destruct (Ht u (or_introl eq_refl)) as [_ Hw].
    rewrite (asciiLower_space u Hw). cbn [negb map].
    rewrite asciiLower_idem. f_equal. apply IH. intros v Hv. apply Ht. right. exact Hv.
  - apply forallb_forall. intros v Hv. apply in_map_iff in Hv.
    destruct Hv as (u & <- & Hu). apply asciiLower_text, Ht, Hu.
Qed.

Lemma sanitizeUsername_idempotent_Joe :
  SpamFilter.sanitizeUsername UCD.unicode UCD.sampleConfusables
    (SpamFilter.sanitizeUsername UCD.unicode UCD.sampleConfusables (Examples.str "J o e"))
  = SpamFilter.sanitizeUsername UCD.unicode UCD.sampleConfusables (Examples.str "J o e").
Proof.
  apply (sanitizeUsername_idempotent_ascii UCD.unicode UCD.sampleConfusables
           (Examples.str "J o e") UCD_unicode_on_ascii).
  reflexivity.
Defined.

(** C5 fails as stated: white space between the two halves of a
    surrogate pair is removed after the symbols were, so the first pass
    yields U+1F600 and the second pass removes it; no entry of the
    Confusables table is consulted on the way. *)
Lemma sanitizeUsername_not_idempotent :
  exists s, s = Examples.splitPair
    /\ forall Confusables,
         SpamFilter.sanitizeUsername UCD.unicode Confusables
           (SpamFilter.sanitizeUsername UCD.unicode Confusables s)
         <> SpamFilter.sanitizeUsername UCD.unicode Confusables s.
Proof.
  exists Examples.splitPair. split; [reflexivity|].
  intros Confusables. vm_compute. discriminate.
Qed.

(** The same on a name of assigned characters: [e], a space and the
    combining acute accent.  The first pass yields [e] with the accent,
    which the second pass composes into U+00E9. *)
Lemma sanitizeUsername_not_idempotent_accent :
  SpamFilter.sanitizeUsername UCD.unicode UCD.sampleConfusables [0x65; 0x20; 0x301]
  = [0x65; 0x301]
  /\ SpamFilter.sanitizeUsername UCD.unicode UCD.sampleConfusables [0x65; 0x301]
     = [0x65].
Proof. split; reflexivity. Qed.

(** C6.  Normalization is insensitive to case and to white space: the
    names "J o e", "JOE" and "joe" have the same canonical form. *)
Theorem sanitizeUsername_case_whitespace (U : Unicode)
    (Confusables : jsstring -> option jsstring) :
  UnicodeOnAscii U ->
  SpamFilter.sanitizeUsername U Confusables (Examples.str "J o e")
  = SpamFilter.sanitizeUsername U Confusables (Examples.str "joe")
  /\ SpamFilter.sanitizeUsername U Confusables (Examples.str "JOE")
     = SpamFilter.sanitizeUsername U Confusables (Examples.str "joe").
Proof.
  intros HU.
  rewrite !(sanitizeUsername_ascii U HU Confusables) by reflexivity.
  split; reflexivity.
Qed.

Lemma sanitizeUsername_case_whitespace_UCD :
  SpamFilter.sanitizeUsername UCD.unicode UCD.sampleConfusables (Examples.str "J o e")
  = SpamFilter.sanitizeUsername UCD.unicode UCD.sampleConfusables (Examples.str "joe")
  /\ SpamFilter.sanitizeUsername UCD.unicode UCD.sampleConfusables (Examples.str "JOE")
     = SpamFilter.sanitizeUsername UCD.unicode UCD.sampleConfusables (Examples.str "joe").
Proof.
  exact (sanitizeUsername_case_whitespace UCD.unicode UCD.sampleConfusables
           UCD_unicode_on_ascii).
Defined.

End NormalizerProperties.

(* ================================================================== *)
(** * The config store *)

Module StoreFacts.

Lemma sameKey_spec (a b : SpamFilterConfig) :
  Mongo.sameKey a b = true
  <-> objectType a = objectType b
      /\ discordObjectId a = discordObjectId b
      /\ discordServerId a = discordServerId b.
Proof.
  unfold Mongo.sameKey.
  rewrite !andb_true_iff, EngineFacts.type_eqb_eq, !String.eqb_eq. tauto.
Qed.

Lemma sameKey_sym (a b : SpamFilterConfig) : Mongo.sameKey a b = Mongo.sameKey b a.
Proof.
  apply EngineFacts.bool_eq_iff. rewrite !sameKey_spec.
  split; intros (H1 & H2 & H3); auto.
Qed.

Lemma sameKey_trans (a b c : SpamFilterConfig) :
  Mongo.sameKey a b = true -> Mongo.sameKey b c = true -> Mongo.sameKey a c = true.
Proof.
  rewrite !sameKey_spec. intros (H1 & H2 & H3) (H4 & H5 & H6).
  repeat split; congruence.
Qed.

Lemma hasKey_sameKey (d c : SpamFilterConfig) :
  Spec.hasKey (objectType d) (discordObjectId d) (discordServerId d) c
  = Mongo.sameKey d c.
Proof. rewrite sameKey_sym. reflexivity. Qed.

Lemma uniqueKeys_snoc (db : list SpamFilterConfig) (d : SpamFilterConfig) :
  Spec.uniqueKeys db = true ->
  existsb (Mongo.sameKey d) db = false ->
  Spec.uniqueKeys (db ++ [d]) = true.
Proof.
  induction db as [|c db IH]; intros Hu Hd; [reflexivity|].
  cbn [Spec.uniqueKeys app existsb] in *.
  apply andb_true_iff in Hu. destruct Hu as [Hc Hu].
  apply orb_false_iff in Hd. destruct Hd as [Hdc Hd].
  rewrite existsb_app. cbn [existsb].
  apply negb_true_iff in Hc. rewrite Hc, (sameKey_sym c d), Hdc. cbn.
  apply IH; assumption.
Qed.

(** In a store with unique keys a key is listed at most once. *)
Lemma uniqueKeys_listed_once (db : list SpamFilterConfig) (d : SpamFilterConfig) :
  Spec.uniqueKeys db = true ->
  (List.length (filter (Mongo.sameKey d) db) <= 1)%nat.
Proof.
  induction db as [|c db IH]; intros Hu; cbn [filter]; [cbn; lia|].
  cbn [Spec.uniqueKeys] in Hu. apply andb_true_iff in Hu. destruct Hu as [Hc Hu].
  destruct (Mongo.sameKey d c) eqn:E; [|auto].
  assert (Hnone : filter (Mongo.sameKey d) db = []).
  { apply negb_true_iff in Hc.
    destruct (filter (Mongo.sameKey d) db) as [|c' l] eqn:F; [reflexivity|].
    assert (Hin : In c' (filter (Mongo.sameKey d) db)) by (rewrite F; left; reflexivity).
    apply filter_In in Hin. destruct Hin as [Hin Hk].
    assert (Hx : existsb (Mongo.sameKey c) db = true).
    { apply existsb_exists. exists c'. split; [assumption|].
      rewrite sameKey_sym in E. eapply sameKey_trans; eassumption. }
    congruence. }
  rewrite Hnone. cbn. lia.
Qed.

Lemma listed_positive (db : list SpamFilterConfig) (d : SpamFilterConfig) :
  existsb (Mongo.sameKey d) db = true <->
  (0 < List.length (filter (Mongo.sameKey d) db))%nat.
Proof.
  induction db as [|c db IH]; cbn [existsb filter].
  - cbn. split; [discriminate | lia].
  - destruct (Mongo.sameKey d c); cbn; [split; [lia | reflexivity] | exact IH].
Qed.

Section Insert.
(** What [insertUnordered] leaves in the store. *)

Lemma insertUnordered_keeps (docs db : list SpamFilterConfig) (c : SpamFilterConfig) :
  In c db -> In c (fst (Mongo.insertUnordered db docs)).
Proof.
  revert db. induction docs as [|d docs IH]; intros db H; cbn; [assumption|].
  destruct (existsb (Mongo.sameKey d) db); cbn [fst].
  - apply IH. assumption.
  - apply IH. apply in_or_app. left. assumption.
Qed.

Lemma insertUnordered_unique (docs db : list SpamFilterConfig) :
  Spec.uniqueKeys db = true ->
  Spec.uniqueKeys (fst (Mongo.insertUnordered db docs)) = true.
Proof.
  revert db. induction docs as [|d docs IH]; intros db H; cbn; [assumption|].
  destruct (existsb (Mongo.sameKey d) db) eqn:E; cbn [fst].
  - apply IH. assumption.
  - apply IH. apply uniqueKeys_snoc; assumption.
Qed.

Lemma existsb_keeps (docs db : list SpamFilterConfig) (d : SpamFilterConfig) :
  existsb (Mongo.sameKey d) db = true ->
  existsb (Mongo.sameKey d) (fst (Mongo.insertUnordered db docs)) = true.
Proof.
  intros H. apply existsb_exists in H. destruct H as (c & Hin & Hk).
  apply existsb_exists. exists c. split; [|assumption].
  apply insertUnordered_keeps. assumption.
Qed.

(** Every document of the batch is in the store afterwards, whatever
    was rejected before it. *)
Lemma insertUnordered_all (docs db : list SpamFilterConfig) (d : SpamFilterConfig) :
  In d docs ->
  existsb (Mongo.sameKey d) (fst (Mongo.insertUnordered db docs)) = true.
Proof.
  revert db. induction docs as [|d' docs IH]; intros db H; [contradiction|].
  cbn. destruct H as [-> | H].
  - destruct (existsb (Mongo.sameKey d) db) eqn:E; cbn [fst].
    + apply existsb_keeps. assumption.
    + apply existsb_keeps. rewrite existsb_app. cbn.
      rewrite (proj2 (sameKey_spec d d)) by auto. apply orb_true_r.
  - destruct (existsb (Mongo.sameKey d') db); cbn [fst]; apply IH; assumption.
Qed.

(** Nothing but documents of the batch is added. *)
Lemma insertUnordered_from (docs db : list SpamFilterConfig) (c : SpamFilterConfig) :
  In c (fst (Mongo.insertUnordered db docs)) -> In c db \/ In c docs.
Proof.
  revert db. induction docs as [|d docs IH]; intros db H; cbn in H; [left; assumption|].
  destruct (existsb (Mongo.sameKey d) db); cbn [fst] in H.
  - destruct (IH _ H); [left | right; right]; assumption.
  - destruct (IH _ H) as [H' | H']; [|right; right; assumption].
    apply in_app_or in H'. destruct H' as [H' | [<- | []]];
      [left; assumption | right; left; reflexivity].
Qed.

(** A document that collides with the store is reported. *)
Lemma insertUnordered_reports (docs db : list SpamFilterConfig) (d : SpamFilterConfig) :
  In d docs ->
  existsb (Mongo.sameKey d) db = true ->
  snd (Mongo.insertUnordered db docs) <> [].
Proof.
  revert db. induction docs as [|d' docs IH]; intros db H Hd; [contradiction|].
  cbn. destruct H as [-> | H].
  - rewrite Hd. cbn. discriminate.
  - destruct (existsb (Mongo.sameKey d') db) eqn:E; cbn [snd]; [discriminate|].
    apply IH; [assumption|]. rewrite existsb_app, Hd. reflexivity.
Qed.
End Insert.

End StoreFacts.

Module StoreProperties.
Import StoreFacts.

(** C8.  On a store with unique keys, [addRolesToUsernameSpamFilter]
    inserts one record per given role, unordered and best effort: no
    exception reaches the caller, also when a record is rejected as a
    duplicate; what was stored stays stored and what is added is the
    record of a given role; afterwards the store lists
    the (objectType, role, server) tuple of every given role exactly
    once, whether it was inserted or rejected, so a rejection does not
    keep the other records out; and the rejection of a role that was
    already configured is logged as a duplicate key. *)
Theorem addRolesToUsernameSpamFilter_best_effort (g : Discord.Guild)
    (db : list SpamFilterConfig) (roles : list Discord.Role)
    (t : SpamFilterConfigType) :
  Spec.uniqueKeys db = true ->
  Async.outcome (snd (ConfigSpamFilter.addRolesToUsernameSpamFilter g db roles t))
  = Returned tt
  /\ (forall c, In c db ->
        In c (fst (ConfigSpamFilter.addRolesToUsernameSpamFilter g db roles t)))
  /\ (forall c,
        In c (fst (ConfigSpamFilter.addRolesToUsernameSpamFilter g db roles t)) ->
        In c db
        \/ exists role, In role roles
                        /\ c = {| objectType := t;
                                  discordObjectId := Discord.role_id role;
                                  discordObjectName := Discord.role_name role;
                                  discordServerId := Discord.guild_id g;
                                  discordServerName := Discord.guild_name g |})
  /\ Spec.uniqueKeys (fst (ConfigSpamFilter.addRolesToUsernameSpamFilter g db roles t))
     = true
  /\ (forall role, In role roles ->
        Spec.timesListed (fst (ConfigSpamFilter.addRolesToUsernameSpamFilter g db roles t))
          t (Discord.role_id role) (Discord.guild_id g) = 1%nat)
  /\ (forall role, In role roles ->
        (0 < Spec.timesListed db t (Discord.role_id role) (Discord.guild_id g))%nat ->
        In (Log (DupKeyFound "BulkWriteError"))
           (Async.trace
              (snd (ConfigSpamFilter.addRolesToUsernameSpamFilter g db roles t)))).
Proof.
  intros Hu. unfold ConfigSpamFilter.addRolesToUsernameSpamFilter. cbn [fst snd].
  set (doc := fun role : Discord.Role =>
                {| objectType := t;
                   discordObjectId := Discord.role_id role;
                   discordObjectName := Discord.role_name role;
                   discordServerId := Discord.guild_id g;
                   discordServerName := Discord.guild_name g |}).
  set (docs := map doc roles).
  assert (Hkey : forall role db',
             Spec.timesListed db' t (Discord.role_id role) (Discord.guild_id g)
             = List.length (filter (Mongo.sameKey (doc role)) db')).
  { intros role db'. unfold Spec.timesListed. f_equal. apply filter_ext.
    intros c. apply (hasKey_sameKey (doc role) c). }
  destruct roles as [|r0 roles].
  - cbn. repeat split; intros; try reflexivity; try assumption;
      try contradiction. left. assumption.
  - assert (Hins : Mongo.insertMany db docs
                   = (fst (Mongo.insertUnordered db docs),
                      match snd (Mongo.insertUnordered db docs) with
                      | [] => inl (Some {| Mongo.insertedCount :=
                                             N.of_nat (List.length docs) |})
                      | errs => inr (Mongo.BulkWriteError 11000 errs)
                      end)).
    { unfold docs. cbn [map Mongo.insertMany].
      destruct (snd (Mongo.insertUnordered db (doc r0 :: map doc roles))); reflexivity. }
    rewrite Hins. cbn [fst snd]. clear Hins.
    split; [|split; [|split; [|split; [|split]]]].
    + destruct (snd (Mongo.insertUnordered db docs)); reflexivity.
    + intros c Hc. apply insertUnordered_keeps. assumption.
    + intros c Hc. apply insertUnordered_from in Hc. destruct Hc as [Hc | Hc].
      * left. assumption.
      * right. apply in_map_iff in Hc. destruct Hc as (role & <- & Hr).
        exists role. split; [assumption | reflexivity].
    + apply insertUnordered_unique. assumption.
    + intros role Hr. rewrite Hkey.
      assert (Hin : In (doc role) docs) by (apply in_map; assumption).
      pose proof (insertUnordered_all docs db (doc role) Hin) as Hex.
      apply listed_positive in Hex.
      pose proof (uniqueKeys_listed_once _ (doc role)
                    (insertUnordered_unique docs db Hu)) as Hle.
      lia.
    + intros role Hr Hpos. rewrite Hkey in Hpos. apply listed_positive in Hpos.
      assert (Hin : In (doc role) docs) by (apply in_map; assumption).
      pose proof (insertUnordered_reports docs db (doc role) Hin Hpos) as Herr.
      destruct (snd (Mongo.insertUnordered db docs)); [contradiction|].
      cbn. tauto.
Qed.

(** The role [core] is configured already; it is listed once afterwards,
    and [guest], given twice after it, is listed once as well. *)
Lemma addRolesToUsernameSpamFilter_core_guest :
  Async.outcome
    (snd (ConfigSpamFilter.addRolesToUsernameSpamFilter (guild Examples.bankless)
            Examples.configured [Examples.core; Examples.guest; Examples.guest]
            PROTECTED_ROLE))
  = Returned tt.
Proof.
  apply (addRolesToUsernameSpamFilter_best_effort (guild Examples.bankless)
           Examples.configured [Examples.core; Examples.guest; Examples.guest]
           PROTECTED_ROLE).
  reflexivity.
Defined.

End StoreProperties.

(* ================================================================== *)
(** * The [userUpdate] handler *)

Module HandlerProperties.
Import JS JSFacts EngineFacts.

Section Handler.
Variable U : Unicode.
Variable Confusables : jsstring -> option jsstring.
Variable c : UserUpdate.Client.

Local Abbreviation run :=
  (SpamFilter.runUsernameSpamFilter U Confusables (UserUpdate.world c)).

Lemma str_eqb_neq (a b : jsstring) : a <> b -> str_eqb a b = false.
Proof.
  intros H. destruct (str_eqb a b) eqn:E; [|reflexivity].
  apply str_eqb_eq in E. contradiction.
Qed.

Lemma getGuildMemberFromUser_found (u : Discord.User) (m : Discord.GuildMember) :
  Spec.findMember (UserUpdate.world c) (Discord.id u) = Some m ->
  ServiceUtils.getGuildMemberFromUser (guild (UserUpdate.world c)) u
  = ([MembersFetch (Discord.id u)], Returned m).
Proof.
  intros H. unfold ServiceUtils.getGuildMemberFromUser.
  rewrite membersFetch_eval, H. reflexivity.
Qed.

(** C9 (amended).  Once the old and the new user of a [userUpdate]
    event are fetched: when the username changed, the new user is a
    member of the configured guild and [isBanklessDAO] accepts that
    guild, the handler runs [runUsernameSpamFilter] for that member, a
    rejected evaluation being logged; when the username did not change
    the handler calls nothing, so a change of nickname alone does not
    run the engine; and when [isBanklessDAO] refuses the guild the
    handler stops after it has fetched the member. *)
Theorem execute_runs_filter (oldUser newUser : UserUpdate.UserOrPartial)
    (o n : Discord.User) (fetchedOld fetchedNew : list Event) :
  UserUpdate.fetchIfPartial c oldUser = (fetchedOld, Returned o) ->
  UserUpdate.fetchIfPartial c newUser = (fetchedNew, Returned n) ->
  (forall m,
      Discord.username o <> Discord.username n ->
      Spec.findMember (UserUpdate.world c) (Discord.id n) = Some m ->
      UserUpdate.isBanklessDAO c (guild (UserUpdate.world c)) = true ->
      UserUpdate.execute U Confusables c oldUser newUser
      = (fetchedOld ++ fetchedNew ++ [MembersFetch (Discord.id n)]
           ++ Async.trace (run m) ++ Spec.failureLog (run m),
         Returned tt))
  /\ (Discord.username o = Discord.username n ->
      UserUpdate.execute U Confusables c oldUser newUser
      = (fetchedOld ++ fetchedNew, Returned tt))
  /\ (forall m,
      Discord.username o <> Discord.username n ->
      Spec.findMember (UserUpdate.world c) (Discord.id n) = Some m ->
      UserUpdate.isBanklessDAO c (guild (UserUpdate.world c)) = false ->
      UserUpdate.execute U Confusables c oldUser newUser
      = (fetchedOld ++ fetchedNew ++ [MembersFetch (Discord.id n)], Returned tt)).
Proof.
  intros Ho Hn. unfold UserUpdate.execute. rewrite Ho, Hn.
  unfold bind, catch. cbn [fst snd].
  split; [|split].
  - intros m Hneq Hm Hb. rewrite (str_eqb_neq _ _ Hneq). cbn [negb].
    rewrite (getGuildMemberFromUser_found n m Hm), Hb. cbn [fst snd].
    unfold Spec.failureLog, Async.trace, Async.outcome.
    destruct (run m) as [tr [b|e]]; cbn [fst snd].
    + destruct b; cbn; rewrite !app_nil_r; reflexivity.
    + cbn. rewrite <- !app_assoc. reflexivity.
  - intros Heq. rewrite Heq, str_eqb_refl. cbn. rewrite !app_nil_r. reflexivity.
  - intros m Hneq Hm Hb. rewrite (str_eqb_neq _ _ Hneq). cbn [negb].
    rewrite (getGuildMemberFromUser_found n m Hm), Hb.
    cbn. reflexivity.
Qed.

(** An evaluation always makes a call. *)
Lemma runUsernameSpamFilter_calls (m : Discord.GuildMember) :
  Async.trace (run m) <> [].
Proof.
  rewrite runUsernameSpamFilter_evaluation. unfold Spec.evaluation.
  destruct (negb (Discord.bannable m)); [discriminate|].
  destruct (Spec.onAllowlistUser _ m); [discriminate|].
  destruct (Spec.holdsAllowlistRole _ m); [discriminate|].
  destruct (Spec.protectedRoleRecords _); [discriminate|].
  destruct (Spec.matchOccurs _ _ _ m); [|discriminate].
  destruct (Spec.findMember _ SpamFilter.aboveAverageJoeId); [|discriminate].
  destruct (Spec.findMember _ SpamFilter.frogmonkeeId); discriminate.
Qed.

End Handler.

(** The username of the user of [impostor] changes from [alice] in the
    guild that [isBanklessDAO] accepts, and the engine bans. *)
Lemma execute_runs_filter_impostor :
  In (MemberBan Examples.impostor)
     (Async.trace
        (UserUpdate.execute UCD.unicode UCD.sampleConfusables Examples.banklessClient
           (UserUpdate.FullUser
              {| Discord.id := "101"; Discord.username := Examples.str "alice" |})
           (UserUpdate.FullUser (Discord.user Examples.impostor)))).
Proof.
  destruct (execute_runs_filter UCD.unicode UCD.sampleConfusables Examples.banklessClient
              (UserUpdate.FullUser
                 {| Discord.id := "101"; Discord.username := Examples.str "alice" |})
              (UserUpdate.FullUser (Discord.user Examples.impostor))
              _ _ [] [] eq_refl eq_refl) as [H _].
  rewrite (H Examples.impostor); [| discriminate | reflexivity | reflexivity].
  vm_compute. repeat (first [left; reflexivity | right]).
Defined.

(** C9 fails as stated: where [isBanklessDAO] refuses the guild, a change
    of username does not run the engine. *)
Lemma runsOnEveryChange_otherClient :
  ~ Spec.runsOnEveryChange UCD.unicode UCD.sampleConfusables Examples.otherClient.
Proof.
  intros H.
  destruct (H {| Discord.id := "101"; Discord.username := Examples.str "alice" |}
              (Discord.user Examples.impostor) Examples.impostor)
    as (before & after & E); [discriminate | reflexivity |].
  apply (f_equal (@List.length Event)) in E.
  rewrite !length_app in E.
  assert (L : (1 < List.length
                     (Async.trace
                        (SpamFilter.runUsernameSpamFilter UCD.unicode UCD.sampleConfusables
                           (UserUpdate.world Examples.otherClient) Examples.impostor)))%nat)
    by (vm_compute; lia).
  assert (R : List.length
                (Async.trace
                   (UserUpdate.execute UCD.unicode UCD.sampleConfusables
                      Examples.otherClient
                      (UserUpdate.FullUser
                         {| Discord.id := "101";
                            Discord.username := Examples.str "alice" |})
                      (UserUpdate.FullUser (Discord.user Examples.impostor))))
              = 1%nat) by reflexivity.
  rewrite R in E. lia.
Qed.

End HandlerProperties.

(* ================================================================== *)
(** * Further properties of the decision engine *)

Module EngineLawsFacts.
Import JS JSFacts EngineFacts.

Lemma existsb_filter_implied {A} (p q : A -> bool) (l : list A) :
  (forall a, p a = true -> q a = true) ->
  existsb p (filter q l) = existsb p l.
Proof.
  intros H. induction l as [|a l IH]; [reflexivity|].
  cbn [filter existsb]. destruct (q a) eqn:Eq; cbn [existsb]; rewrite IH.
  - reflexivity.
  - destruct (p a) eqn:Ep; [|reflexivity]. apply H in Ep. congruence.
Qed.

Lemma filter_filter_implied {A} (p q : A -> bool) (l : list A) :
  (forall a, p a = true -> q a = true) ->
  filter p (filter q l) = filter p l.
Proof.
  intros H. induction l as [|a l IH]; [reflexivity|].
  cbn [filter]. destruct (q a) eqn:Eq; cbn [filter]; rewrite IH.
  - reflexivity.
  - destruct (p a) eqn:Ep; [|reflexivity]. apply H in Ep. congruence.
Qed.

Lemma existsb_Permutation {A} (p : A -> bool) (l l' : list A) :
  Permutation l l' -> existsb p l = existsb p l'.
Proof.
  induction 1 as [| a l l' _ IH | a b l | l l' l'' _ IH1 _ IH2]; cbn [existsb].
  - reflexivity.
  - rewrite IH. reflexivity.
  - destruct (p a), (p b); reflexivity.
  - congruence.
Qed.

Lemma filter_Permutation {A} (p : A -> bool) (l l' : list A) :
  Permutation l l' -> Permutation (filter p l) (filter p l').
Proof.
  induction 1 as [| a l l' _ IH | a b l | l l' l'' _ IH1 _ IH2]; cbn [filter].
  - constructor.
  - destruct (p a); [constructor|]; assumption.
  - destruct (p a), (p b); try apply Permutation_refl. constructor.
  - eapply Permutation_trans; eassumption.
Qed.

Section Agreement.
Variable U : Unicode.
Variable Confusables : jsstring -> option jsstring.
Variables w1 w2 : World.
Hypothesis Hguild : guild w1 = guild w2.
Hypothesis Huser : forall m, Spec.onAllowlistUser w1 m = Spec.onAllowlistUser w2 m.
Hypothesis Hrole : forall t m, Spec.holdsRoleOf w1 t m = Spec.holdsRoleOf w2 t m.
Hypothesis Hrecords : Spec.protectedRoleRecords w1 = Spec.protectedRoleRecords w2.

Lemma protectedMembers_agree : Spec.protectedMembers w1 = Spec.protectedMembers w2.
Proof.
  unfold Spec.protectedMembers. rewrite Hguild. apply filter_ext. intros m. apply Hrole.
Qed.

Lemma matchOccurs_agree (m : Discord.GuildMember) :
  Spec.matchOccurs U Confusables w1 m = Spec.matchOccurs U Confusables w2 m.
Proof.
  unfold Spec.matchOccurs, Spec.inProtectedNameSet, Spec.protectedNameSet.
  rewrite protectedMembers_agree. reflexivity.
Qed.

(** Two worlds with the same guild that agree on what the engine reads
    of the collection give the same evaluation. *)
Lemma evaluation_agree (m : Discord.GuildMember) :
  Spec.evaluation U Confusables w1 m = Spec.evaluation U Confusables w2 m.
Proof.
  unfold Spec.evaluation, Spec.holdsAllowlistRole, Spec.evaluationTrace,
    Spec.protectedRoleIds, Spec.allowlistUserQuery, Spec.roleQuery, Spec.findMember,
    Spec.sendLog, Spec.banLog.
  rewrite (matchOccurs_agree m), Huser, Hrole, Hrecords, Hguild. reflexivity.
Qed.
End Agreement.

Section Outcome.
Variable U : Unicode.
Variable Confusables : jsstring -> option jsstring.
Variable w : World.

Local Abbreviation run := (SpamFilter.runUsernameSpamFilter U Confusables w).

Lemma findMember_id (userId : string) (a : Discord.GuildMember) :
  Spec.findMember w userId = Some a -> Discord.id (Discord.user a) = userId.
Proof.
  unfold Spec.findMember. intros H. apply find_some in H. destruct H as [_ H].
  apply String.eqb_eq. assumption.
Qed.

Lemma isGuildMember_find (userId : string) :
  Spec.isGuildMember w userId
  = match Spec.findMember w userId with Some _ => true | None => false end.
Proof. unfold Spec.isGuildMember, Spec.findMember. symmetry. apply find_existsb. Qed.

(** The result of an evaluation, from the facts it reads. *)
Lemma outcome_evaluation (m : Discord.GuildMember) :
  Async.outcome (run m)
  = if negb (Spec.passesSkipCheck w m) then Returned false
    else match Spec.protectedRoleRecords w with
         | [] => Returned false
         | _ :: _ =>
             if Spec.matchOccurs U Confusables w m
             then if Spec.contactsPresent w then Returned true
                  else Rejected "DiscordAPIError: Unknown Member"
             else Returned false
         end.
Proof.
  rewrite runUsernameSpamFilter_evaluation.
  unfold Spec.evaluation, Spec.passesSkipCheck, Spec.contactsPresent.
  rewrite !isGuildMember_find.
  destruct (Discord.bannable m); [|reflexivity].
  destruct (Spec.onAllowlistUser w m); [reflexivity|].
  destruct (Spec.holdsAllowlistRole w m); [reflexivity|]. cbn [negb andb].
  destruct (Spec.protectedRoleRecords w); [reflexivity|].
  destruct (Spec.matchOccurs U Confusables w m); [|reflexivity].
  destruct (Spec.findMember w SpamFilter.aboveAverageJoeId); [|reflexivity].
  destruct (Spec.findMember w SpamFilter.frogmonkeeId); reflexivity.
Qed.

(** When the ban is attempted. *)
Lemma ban_attempted (m m' : Discord.GuildMember) :
  In (MemberBan m') (Async.trace (run m))
  <-> m' = m /\ Async.outcome (run m) = Returned true.
Proof.
  rewrite runUsernameSpamFilter_evaluation. unfold Spec.evaluation, Spec.evaluationTrace.
  destruct (negb (Discord.bannable m));
    [cbn; split; [intros [H|[]]; discriminate | intros [_ H]; discriminate]|].
  destruct (Spec.onAllowlistUser w m);
    [cbn; split; [intros [H|[H|[]]]; discriminate | intros [_ H]; discriminate]|].
  destruct (Spec.holdsAllowlistRole w m);
    [cbn; split; [intros [H|[H|[H|[]]]]; discriminate | intros [_ H]; discriminate]|].
  destruct (Spec.protectedRoleRecords w);
    [cbn; split; [intros [H|[H|[H|[]]]]; discriminate | intros [_ H]; discriminate]|].
  destruct (Spec.matchOccurs U Confusables w m);
    [|cbn; split; [intros [H|[H|[H|[H|[]]]]]; discriminate | intros [_ H]; discriminate]].
  destruct (Spec.findMember w SpamFilter.aboveAverageJoeId) as [a|];
    [|cbn; split; [intros [H|[H|[H|[H|[H|[]]]]]]; discriminate
                  | intros [_ H]; discriminate]].
  destruct (Spec.findMember w SpamFilter.frogmonkeeId) as [f|];
    [|cbn; split; [intros [H|[H|[H|[H|[H|[H|[]]]]]]]; discriminate
                  | intros [_ H]; discriminate]].
  unfold Async.trace, Async.outcome, Spec.sendLog, Spec.banLog. cbn [fst snd].
  split.
  - intros H. split; [|reflexivity].
    destruct (Discord.sendRejects (guild w) m), (Discord.banRejects (guild w) m);
      cbn in H; repeat (destruct H as [H|H]; try discriminate H; try contradiction);
      inversion H; reflexivity.
  - intros [-> _]. rewrite !in_app_iff. right. right. right. left. left. reflexivity.
Qed.

End Outcome.

End EngineLawsFacts.

Module EngineLaws.
Import JS JSFacts EngineFacts EngineLawsFacts.

Section Engine.
Variable U : Unicode.
Variable Confusables : jsstring -> option jsstring.
Variable w : World.

Local Abbreviation run := (SpamFilter.runUsernameSpamFilter U Confusables w).

(** Where the reads of the collection resolve, as they do here,
    [skipUsernameSpamFilter] returns [true] exactly when the member is
    not bannable, or the collection holds an AllowlistUser record with
    the member's user id and the guild's id, or an AllowlistRole record
    of the guild for a role the member holds; it makes at most two
    queries. *)
Theorem skipUsernameSpamFilter_verdict (m : Discord.GuildMember) :
  (Async.outcome (SpamFilter.skipUsernameSpamFilter w m) = Returned true
   <-> Discord.bannable m = false
       \/ (exists c, In c (usernameSpamFilterDb w)
                     /\ objectType c = ALLOWLIST_USER
                     /\ discordObjectId c = Discord.id (Discord.user m)
                     /\ discordServerId c = Discord.guild_id (guild w))
       \/ (exists c, In c (usernameSpamFilterDb w)
                     /\ objectType c = ALLOWLIST_ROLE
                     /\ discordServerId c = Discord.guild_id (guild w)
                     /\ In (discordObjectId c) (Discord.roles m)))
  /\ (List.length (filter Derived.isDbQuery
                     (Async.trace (SpamFilter.skipUsernameSpamFilter w m))) <= 2)%nat.
Proof.
  rewrite skipUsernameSpamFilter_eval.
  rewrite <- onAllowlistUser_spec, <- (holdsRoleOf_spec w ALLOWLIST_ROLE).
  fold (Spec.holdsAllowlistRole w m).
  destruct (Discord.bannable m); cbn [negb];
    [destruct (Spec.onAllowlistUser w m);
     [|destruct (Spec.holdsAllowlistRole w m)]|];
    repeat split; cbn; try lia; intuition (try discriminate; try congruence).
Qed.

(** The records of other servers do not count: the calls and the result
    of [runUsernameSpamFilter] are those it has on the collection
    restricted to the records of the member's server. *)
Theorem runUsernameSpamFilter_scoped (m : Discord.GuildMember) :
  SpamFilter.runUsernameSpamFilter U Confusables (Derived.scoped w) m = run m.
Proof.
  rewrite !runUsernameSpamFilter_evaluation.
  assert (Hrec : forall t c, Spec.isRecordOf w t c = true ->
                             Derived.inServer (guild w) c = true).
  { intros t c H. unfold Spec.isRecordOf in H. apply andb_true_iff in H. apply H. }
  apply evaluation_agree.
  - reflexivity.
  - intros m'. unfold Spec.onAllowlistUser. cbn [usernameSpamFilterDb Derived.scoped].
    apply existsb_filter_implied. intros c H. apply andb_true_iff in H.
    destruct H as [H _]. eapply Hrec. exact H.
  - intros t m'. unfold Spec.holdsRoleOf. cbn [usernameSpamFilterDb Derived.scoped].
    apply existsb_filter_implied. intros c H. apply andb_true_iff in H.
    destruct H as [H _]. eapply Hrec. exact H.
  - unfold Spec.protectedRoleRecords. cbn [usernameSpamFilterDb Derived.scoped].
    apply filter_filter_implied. apply Hrec.
Qed.

(** [runUsernameSpamFilter] acts on nobody but the candidate, and only
    with the verdict [true]: a ban in its calls is the ban of the
    candidate and is there exactly when it returns [true]; the only
    other side effect is the warning to the candidate, which names the
    two fixed contacts and comes before the ban. *)
Theorem runUsernameSpamFilter_acts_on_candidate (m : Discord.GuildMember) :
  (forall m', In (MemberBan m') (Async.trace (run m))
              <-> m' = m /\ Async.outcome (run m) = Returned true)
  /\ (forall ev, In ev (Async.trace (run m)) -> Spec.isSideEffect ev = true ->
                 ev = MemberBan m
                 \/ ev = MemberSend m SpamFilter.aboveAverageJoeId SpamFilter.frogmonkeeId)
  /\ (Async.outcome (run m) = Returned true ->
      exists before after,
        Async.trace (run m)
        = before
          ++ MemberSend m SpamFilter.aboveAverageJoeId SpamFilter.frogmonkeeId :: after
        /\ forallb (fun ev => negb (Spec.isSideEffect ev)) before = true
        /\ In (MemberBan m) after).
Proof.
  split; [intros m'; apply ban_attempted|].
  rewrite runUsernameSpamFilter_evaluation. unfold Spec.evaluation, Spec.evaluationTrace.
  destruct (negb (Discord.bannable m));
    [split; [intros ev H; cbn in H; intuition (subst; discriminate) | discriminate]|].
  destruct (Spec.onAllowlistUser w m);
    [split; [intros ev H; cbn in H; intuition (subst; discriminate) | discriminate]|].
  destruct (Spec.holdsAllowlistRole w m);
    [split; [intros ev H; cbn in H; intuition (subst; discriminate) | discriminate]|].
  destruct (Spec.protectedRoleRecords w);
    [split; [intros ev H; cbn in H; intuition (subst; discriminate) | discriminate]|].
  destruct (Spec.matchOccurs U Confusables w m);
    [|split; [intros ev H; cbn in H; intuition (subst; discriminate) | discriminate]].
  destruct (Spec.findMember w SpamFilter.aboveAverageJoeId) as [a|] eqn:Ea;
    [|split; [intros ev H; cbn in H; intuition (subst; discriminate) | discriminate]].
  destruct (Spec.findMember w SpamFilter.frogmonkeeId) as [f|] eqn:Ef;
    [|split; [intros ev H; cbn in H; intuition (subst; discriminate) | discriminate]].
  rewrite (findMember_id w _ _ Ea), (findMember_id w _ _ Ef).
  unfold Async.trace, Async.outcome, Spec.sendLog, Spec.banLog. cbn [fst snd].
  split.
  - intros ev H Hs.
    destruct (Discord.sendRejects (guild w) m), (Discord.banRejects (guild w) m);
      cbn in H; repeat (destruct H as [H|H]; try contradiction);
      subst ev; try discriminate Hs; auto.
  - intros _.
    exists [DbFindOne (Spec.allowlistUserQuery w m);
            DbFind (Spec.roleQuery w ALLOWLIST_ROLE);
            DbFind (Spec.roleQuery w PROTECTED_ROLE);
            GetMembersWithRoles (Spec.protectedRoleIds w);
            MembersFetch SpamFilter.aboveAverageJoeId;
            MembersFetch SpamFilter.frogmonkeeId].
    eexists. split; [reflexivity|]. split; [reflexivity|].
    rewrite !in_app_iff. right. left. left. reflexivity.
Qed.

(** Records that are not of a protected role, added to the collection,
    never bring a ban about: if the candidate is banned with them, the
    candidate is banned without them. *)
Theorem runUsernameSpamFilter_more_allowlist (m : Discord.GuildMember)
    (more : list SpamFilterConfig) :
  (forall c, In c more -> objectType c <> PROTECTED_ROLE) ->
  In (MemberBan m)
     (Async.trace (SpamFilter.runUsernameSpamFilter U Confusables
                     (Derived.withRecords w more) m)) ->
  In (MemberBan m) (Async.trace (run m)).
Proof.
  intros Hmore H. apply ban_attempted in H. apply ban_attempted.
  destruct H as [_ H]. split; [reflexivity|].
  rewrite outcome_evaluation in *.
  set (w' := Derived.withRecords w more) in *.
  assert (Hnot : forall c, In c more -> Spec.isRecordOf w PROTECTED_ROLE c = false).
  { intros c Hc. unfold Spec.isRecordOf. apply andb_false_iff. left.
    destruct (SpamFilterConfigType_eqb (objectType c) PROTECTED_ROLE) eqn:E;
      [|reflexivity]. apply type_eqb_eq in E. exfalso. eapply Hmore; eassumption. }
  assert (Hrec : Spec.protectedRoleRecords w' = Spec.protectedRoleRecords w).
  { unfold Spec.protectedRoleRecords. cbn [usernameSpamFilterDb w' Derived.withRecords].
    rewrite filter_app.
    assert (E : filter (Spec.isRecordOf w PROTECTED_ROLE) more = []).
    { clear - Hnot. induction more as [|c l IH]; [reflexivity|]. cbn [filter].
      rewrite (Hnot c) by (left; reflexivity). apply IH. intros c' Hc'.
      apply Hnot. right. assumption. }
    change (Spec.isRecordOf w') with (Spec.isRecordOf w). rewrite E. apply app_nil_r. }
  assert (Hprot : forall m', Spec.holdsRoleOf w' PROTECTED_ROLE m'
                             = Spec.holdsRoleOf w PROTECTED_ROLE m').
  { intros m'. unfold Spec.holdsRoleOf. cbn [usernameSpamFilterDb w' Derived.withRecords].
    rewrite existsb_app. change (Spec.isRecordOf w') with (Spec.isRecordOf w).
    assert (E : existsb (fun c => Spec.isRecordOf w PROTECTED_ROLE c
                                  && existsb (String.eqb (discordObjectId c))
                                       (Discord.roles m')) more = false).
    { clear - Hnot. induction more as [|c l IH]; [reflexivity|]. cbn [existsb].
      rewrite (Hnot c) by (left; reflexivity). apply IH. intros c' Hc'.
      apply Hnot. right. assumption. }
    rewrite E. apply orb_false_r. }
  assert (Hmatch : Spec.matchOccurs U Confusables w' m = Spec.matchOccurs U Confusables w m).
  { unfold Spec.matchOccurs, Spec.inProtectedNameSet, Spec.protectedNameSet,
      Spec.protectedMembers.
    cbn [guild w' Derived.withRecords].
    rewrite (filter_ext _ _ Hprot). reflexivity. }
  assert (Hskip : Spec.passesSkipCheck w' m = true -> Spec.passesSkipCheck w m = true).
  { unfold Spec.passesSkipCheck, Spec.onAllowlistUser, Spec.holdsAllowlistRole,
      Spec.holdsRoleOf.
    cbn [usernameSpamFilterDb w' Derived.withRecords].
    rewrite !existsb_app. change (Spec.isRecordOf w') with (Spec.isRecordOf w).
    rewrite !andb_true_iff, !negb_true_iff, !orb_false_iff. tauto. }
  rewrite Hrec, Hmatch in H. change (Spec.contactsPresent w') with (Spec.contactsPresent w) in H.
  destruct (Spec.passesSkipCheck w' m) eqn:Es; [|discriminate H].
  rewrite (Hskip eq_refl). exact H.
Qed.

(** A member of a protected role who passes the skip check matches the
    own display name: unless the nickname is set and sanitizes to the
    empty string, [runUsernameSpamFilter] bans that member whenever the
    contacts are in the guild. *)
Theorem runUsernameSpamFilter_protected_candidate (m : Discord.GuildMember) :
  Spec.passesSkipCheck w m = true ->
  In m (Spec.protectedMembers w) ->
  Spec.sanitizedNickname U Confusables m <> Some [] ->
  Spec.contactsPresent w = true ->
  Async.outcome (run m) = Returned true.
Proof.
  intros Hs Hp Hn Hc. rewrite outcome_evaluation, Hs, Hc. cbn [negb].
  pose proof (protectedMembers_records w m Hp) as Hr.
  destruct (Spec.protectedRoleRecords w); [contradiction|].
  assert (Hm : Spec.matchOccurs U Confusables w m = true).
  { pose proof (inProtectedNameSet_member U Confusables w m Hp) as Hin.
    unfold Spec.matchOccurs, Spec.sanitizedUsername.
    unfold Spec.sanitizedNickname in *. unfold Spec.displayName in Hin.
    revert Hn Hin.
    destruct (Discord.nickname m) as [n|];
      [|intros _ Hin; rewrite Hin; apply orb_true_r].
    destruct (truthy (Some n)); [|intros _ Hin; rewrite Hin; apply orb_true_r].
    destruct (SpamFilter.sanitizeUsername U Confusables n) as [|u r];
      intros Hn Hin; [exfalso; apply Hn; reflexivity|].
    cbn [truthy andb]. rewrite Hin. reflexivity. }
  rewrite Hm. reflexivity.
Qed.

End Engine.

(** The verdict does not depend on the order in which the directory
    lists the members, nor on the order of the records in the
    collection. *)
Theorem runUsernameSpamFilter_order (U : Unicode)
    (Confusables : jsstring -> option jsstring) (w : World)
    (members : list Discord.GuildMember) (records : list SpamFilterConfig)
    (m : Discord.GuildMember) :
  Permutation (Discord.members (guild w)) members ->
  Permutation (usernameSpamFilterDb w) records ->
  Async.outcome
    (SpamFilter.runUsernameSpamFilter U Confusables
       {| guild := Derived.withMembers (guild w) members;
          usernameSpamFilterDb := records |} m)
  = Async.outcome (SpamFilter.runUsernameSpamFilter U Confusables w m).
Proof.
  intros Hm Hd. rewrite !outcome_evaluation.
  set (w' := {| guild := Derived.withMembers (guild w) members;
                usernameSpamFilterDb := records |}).
  assert (Hrole : forall t m', Spec.holdsRoleOf w' t m' = Spec.holdsRoleOf w t m').
  { intros t m'. unfold Spec.holdsRoleOf. symmetry.
    apply (existsb_Permutation _ _ _ Hd). }
  assert (Hskip : Spec.passesSkipCheck w' m = Spec.passesSkipCheck w m).
  { unfold Spec.passesSkipCheck, Spec.holdsAllowlistRole. rewrite Hrole.
    unfold Spec.onAllowlistUser.
    rewrite (existsb_Permutation _ _ _ Hd). reflexivity. }
  assert (Hrec : Permutation (Spec.protectedRoleRecords w) (Spec.protectedRoleRecords w')).
  { unfold Spec.protectedRoleRecords. apply filter_Permutation. exact Hd. }
  assert (Hmatch : Spec.matchOccurs U Confusables w' m = Spec.matchOccurs U Confusables w m).
  { assert (Hin : forall n, Spec.inProtectedNameSet U Confusables w' n
                            = Spec.inProtectedNameSet U Confusables w n).
    { intros n. unfold Spec.inProtectedNameSet, Spec.protectedNameSet,
        Spec.protectedMembers. symmetry.
      apply existsb_Permutation, Permutation_map.
      rewrite (filter_ext _ _ (Hrole PROTECTED_ROLE)).
      apply filter_Permutation. exact Hm. }
    unfold Spec.matchOccurs. rewrite Hin.
    destruct (Spec.sanitizedNickname U Confusables m); [rewrite Hin|]; reflexivity. }
  assert (Hc : Spec.contactsPresent w' = Spec.contactsPresent w).
  { unfold Spec.contactsPresent, Spec.isGuildMember. cbn [guild w' Derived.withMembers
      Discord.members].
    rewrite <- !(existsb_Permutation _ _ _ Hm). reflexivity. }
  rewrite Hskip, Hmatch, Hc.
  destruct (Spec.protectedRoleRecords w) as [|c l] eqn:E1;
    destruct (Spec.protectedRoleRecords w') as [|c' l'] eqn:E2; try reflexivity.
  - apply Permutation_nil in Hrec. discriminate.
  - apply Permutation_sym, Permutation_nil in Hrec. discriminate.
Qed.

Local Abbreviation run :=
  (SpamFilter.runUsernameSpamFilter UCD.unicode UCD.sampleConfusables).

(** [impostor] is banned in the example guild with one more allowlist
    record, and so without it. *)
Lemma runUsernameSpamFilter_more_allowlist_impostor :
  In (MemberBan Examples.impostor) (Async.trace (run Examples.bankless Examples.impostor)).
Proof.
  apply (runUsernameSpamFilter_more_allowlist UCD.unicode UCD.sampleConfusables
           Examples.bankless Examples.impostor [MoreExamples.allowNewcomer]).
  - intros c [<- | []]. discriminate.
  - vm_compute. repeat (first [left; reflexivity | right]).
Defined.

Lemma runUsernameSpamFilter_protected_moderator :
  Async.outcome (run MoreExamples.moderated MoreExamples.moderator) = Returned true.
Proof.
  apply (runUsernameSpamFilter_protected_candidate UCD.unicode UCD.sampleConfusables
           MoreExamples.moderated MoreExamples.moderator).
  - reflexivity.
  - cbn. tauto.
  - discriminate.
  - reflexivity.
Defined.

Lemma runUsernameSpamFilter_order_reversed :
  Async.outcome
    (run {| guild := Derived.withMembers (guild Examples.bankless)
                       (rev (Discord.members (guild Examples.bankless)));
            usernameSpamFilterDb := rev Examples.configured |} Examples.impostor)
  = Async.outcome (run Examples.bankless Examples.impostor).
Proof.
  apply (runUsernameSpamFilter_order UCD.unicode UCD.sampleConfusables Examples.bankless).
  - apply Permutation_rev.
  - apply Permutation_rev.
Defined.

End EngineLaws.

(* ================================================================== *)
(** * Further properties of the name normalizer *)

Module NormalizerLaws.
Import JS NormalizerFacts.

(** On ASCII text two names have the same canonical form exactly when
    they are equal up to letter case and white space, whatever the
    Confusables tables hold: digits, punctuation and ASCII symbols are
    significant. *)
Theorem sanitizeUsername_ascii_collision (U : Unicode)
    (Confusables Confusables' : jsstring -> option jsstring) (s t : jsstring) :
  UnicodeOnAscii U ->
  forallb Spec.isAsciiText s = true ->
  forallb Spec.isAsciiText t = true ->
  (SpamFilter.sanitizeUsername U Confusables s = SpamFilter.sanitizeUsername U Confusables' t
   <-> Derived.foldAscii s = Derived.foldAscii t).
Proof.
  intros HU Hs Ht.
  rewrite (sanitizeUsername_ascii U HU Confusables s Hs).
  rewrite (sanitizeUsername_ascii U HU Confusables' t Ht).
  reflexivity.
Qed.

Lemma sanitizeUsername_ascii_collision_joe :
  SpamFilter.sanitizeUsername UCD.unicode UCD.sampleConfusables (Examples.str "Joe_1")
  <> SpamFilter.sanitizeUsername UCD.unicode UCD.sampleConfusables (Examples.str "joe 1").
Proof.
  intros H.
  apply (sanitizeUsername_ascii_collision UCD.unicode UCD.sampleConfusables
           UCD.sampleConfusables (Examples.str "Joe_1") (Examples.str "joe 1")
           UCD_unicode_on_ascii eq_refl eq_refl) in H.
  discriminate H.
Defined.

(** The canonical form of ASCII text is no longer than the name, has no
    white space and no upper-case letter. *)
Theorem sanitizeUsername_ascii_shape (U : Unicode)
    (Confusables : jsstring -> option jsstring) (s : jsstring) :
  UnicodeOnAscii U ->
  forallb Spec.isAsciiText s = true ->
  (List.length (SpamFilter.sanitizeUsername U Confusables s) <= List.length s)%nat
  /\ forallb (fun u => negb (isWhiteSpace u)
                       && negb ((0x41 <=? u) && (u <=? 0x5A))
                       && Spec.isAsciiText u)
             (SpamFilter.sanitizeUsername U Confusables s) = true.
Proof.
  intros HU Hs. rewrite (sanitizeUsername_ascii U HU Confusables s Hs). split.
  - rewrite length_map. apply filter_length_le.
  - apply forallb_forall. intros v Hv. apply in_map_iff in Hv.
    destruct Hv as (u & <- & Hu). apply filter_In in Hu. destruct Hu as [Hin Hw].
    rewrite forallb_forall in Hs. specialize (Hs u Hin).
    apply negb_true_iff in Hw.
    rewrite (asciiLower_space u Hw), (asciiLower_text u Hs). cbn [negb andb].
    rewrite andb_true_r. apply negb_true_iff.
    unfold UCD.asciiLower.
    destruct ((0x41 <=? u) && (u <=? 0x5A)) eqn:E; [|exact E].
    apply andb_false_iff. apply andb_true_iff in E. destruct E as [E1 E2].
    apply N.leb_le in E1, E2. right. apply N.leb_gt. lia.
Qed.

Lemma sanitizeUsername_ascii_shape_frog :
  (List.length (SpamFilter.sanitizeUsername UCD.unicode UCD.sampleConfusables
                  (Examples.str "FROG MONKEE")) <= 11)%nat.
Proof.
  apply (sanitizeUsername_ascii_shape UCD.unicode UCD.sampleConfusables
           (Examples.str "FROG MONKEE") UCD_unicode_on_ascii eq_refl).
Defined.

End NormalizerLaws.

(* ================================================================== *)
(** * Further properties of the config store *)

Module StoreLawsFacts.
Import StoreFacts EngineFacts EngineLawsFacts Task.

Lemma roleFilter_hasKey (g : Discord.Guild) (t : SpamFilterConfigType)
    (role : Discord.Role) (c : SpamFilterConfig) :
  Mongo.matchesQuery (ConfigWizard.roleFilter g t role) c
  = Spec.hasKey t (Discord.role_id role) (Discord.guild_id g) c.
Proof. reflexivity. Qed.

Lemma roleFilter_sameKey (g : Discord.Guild) (t : SpamFilterConfigType)
    (role : Discord.Role) (c : SpamFilterConfig) :
  Mongo.matchesQuery (ConfigWizard.roleFilter g t role) c
  = Mongo.sameKey (Derived.configOf g t role) c.
Proof. rewrite roleFilter_hasKey. apply (hasKey_sameKey (Derived.configOf g t role)). Qed.

Lemma hasKey_inScope (g : Discord.Guild) (t : SpamFilterConfigType) (i : string)
    (c : SpamFilterConfig) :
  Spec.hasKey t i (Discord.guild_id g) c = true -> Derived.inScope g t c = true.
Proof.
  unfold Spec.hasKey, Derived.inScope, Derived.inServer.
  rewrite !andb_true_iff. tauto.
Qed.

(** [deleteOne] *)

Lemma deleteOne_none (db : Store) (q : Query) :
  existsb (Mongo.matchesQuery q) db = false -> ConfigWizard.deleteOne db q = db.
Proof.
  induction db as [|c db IH]; [reflexivity|]. cbn [existsb ConfigWizard.deleteOne].
  intros H. apply orb_false_iff in H. destruct H as [Hc H].
  rewrite Hc, IH by assumption. reflexivity.
Qed.

Lemma deleteOne_incl (db : Store) (q : Query) (c : SpamFilterConfig) :
  In c (ConfigWizard.deleteOne db q) -> In c db.
Proof.
  induction db as [|d db IH]; [auto|]. cbn [ConfigWizard.deleteOne].
  destruct (Mongo.matchesQuery q d).
  - intros H. right. assumption.
  - intros [H | H]; [left; assumption | right; apply IH; assumption].
Qed.

Lemma deleteOne_length (db : Store) (q : Query) :
  (List.length db <= S (List.length (ConfigWizard.deleteOne db q)))%nat.
Proof.
  induction db as [|d db IH]; [cbn; lia|]. cbn [ConfigWizard.deleteOne].
  destruct (Mongo.matchesQuery q d); cbn [List.length]; lia.
Qed.

(** What a filter does not match is left as it is. *)
Lemma deleteOne_frame (db : Store) (q : Query) (keep : SpamFilterConfig -> bool) :
  (forall c, Mongo.matchesQuery q c = true -> keep c = false) ->
  filter keep (ConfigWizard.deleteOne db q) = filter keep db.
Proof.
  intros H. induction db as [|d db IH]; [reflexivity|]. cbn [ConfigWizard.deleteOne].
  destruct (Mongo.matchesQuery q d) eqn:E.
  - cbn [filter]. rewrite (H d E). reflexivity.
  - cbn [filter]. rewrite IH. reflexivity.
Qed.

Lemma filter_unique (db : Store) (p : SpamFilterConfig -> bool) :
  Spec.uniqueKeys db = true -> Spec.uniqueKeys (filter p db) = true.
Proof.
  induction db as [|c db IH]; [reflexivity|]. cbn [Spec.uniqueKeys filter].
  intros H. apply andb_true_iff in H. destruct H as [Hc H].
  destruct (p c); [|apply IH; assumption].
  cbn [Spec.uniqueKeys]. apply andb_true_iff. split; [|apply IH; assumption].
  apply negb_true_iff in Hc. apply negb_true_iff.
  destruct (existsb (Mongo.sameKey c) (filter p db)) eqn:E; [|reflexivity].
  apply existsb_exists in E. destruct E as (d & Hd & Hk). apply filter_In in Hd.
  assert (existsb (Mongo.sameKey c) db = true)
    by (apply existsb_exists; exists d; tauto).
  congruence.
Qed.

(** In a store with unique keys [deleteOne] removes every record of the
    key. *)
Lemma deleteOne_unique (g : Discord.Guild) (t : SpamFilterConfigType)
    (role : Discord.Role) (db : Store) :
  Spec.uniqueKeys db = true ->
  ConfigWizard.deleteOne db (ConfigWizard.roleFilter g t role)
  = filter (fun c => negb (Spec.hasKey t (Discord.role_id role) (Discord.guild_id g) c)) db.
Proof.
  induction db as [|c db IH]; [reflexivity|]. cbn [Spec.uniqueKeys].
  intros H. apply andb_true_iff in H. destruct H as [Hc H].
  cbn [ConfigWizard.deleteOne filter]. rewrite roleFilter_hasKey.
  destruct (Spec.hasKey t (Discord.role_id role) (Discord.guild_id g) c) eqn:E; cbn [negb].
  - symmetry. rewrite <- (deleteOne_none db (ConfigWizard.roleFilter g t role)) at 2.
    + rewrite IH by assumption. reflexivity.
    + apply negb_true_iff in Hc.
      destruct (existsb (Mongo.matchesQuery (ConfigWizard.roleFilter g t role)) db) eqn:X;
        [|reflexivity].
      apply existsb_exists in X. destruct X as (d & Hd & Hk).
      rewrite roleFilter_sameKey in Hk.
      assert (K : Mongo.sameKey (Derived.configOf g t role) c = true)
        by (rewrite <- hasKey_sameKey; exact E).
      assert (existsb (Mongo.sameKey c) db = true).
      { apply existsb_exists. exists d. split; [assumption|].
        rewrite sameKey_sym in K. eapply sameKey_trans; eassumption. }
      congruence.
  - rewrite IH by assumption. reflexivity.
Qed.

Section Remove.
Variable A : Admin.
Variable g : Discord.Guild.
Variable t : SpamFilterConfigType.

(** The loop when no [deleteOne] is rejected. *)
Lemma deleteEach_all (roles : list Discord.Role) (db : Store) :
  (forall role, In role roles ->
                deleteRejects A (ConfigWizard.roleFilter g t role) = None) ->
  ConfigWizard.deleteEach A g roles t db
  = (fold_left (fun d role => ConfigWizard.deleteOne d (ConfigWizard.roleFilter g t role))
               roles db,
     (map (fun role => DbDeleteOne (ConfigWizard.roleFilter g t role)) roles,
      Resolved tt)).
Proof.
  revert db. induction roles as [|role roles IH]; intros db H; [reflexivity|].
  cbn [ConfigWizard.deleteEach fold_left map].
  rewrite (H role) by (left; reflexivity).
  unfold bind, emit, update. cbn [fst snd].
  rewrite IH by (intros r Hr; apply H; right; assumption). reflexivity.
Qed.

(** The loop when the [deleteOne] of [role] is the first that is
    rejected. *)
Lemma deleteEach_rejected (before after : list Discord.Role) (role : Discord.Role)
    (e : string) (db : Store) :
  (forall r, In r before -> deleteRejects A (ConfigWizard.roleFilter g t r) = None) ->
  deleteRejects A (ConfigWizard.roleFilter g t role) = Some e ->
  ConfigWizard.deleteEach A g (before ++ role :: after) t db
  = (fold_left (fun d r => ConfigWizard.deleteOne d (ConfigWizard.roleFilter g t r))
               before db,
     (map (fun r => DbDeleteOne (ConfigWizard.roleFilter g t r)) (before ++ [role]),
      Threw (Failure e))).
Proof.
  revert db. induction before as [|r before IH]; intros db H He.
  - cbn [app ConfigWizard.deleteEach fold_left map]. rewrite He. reflexivity.
  - cbn [app ConfigWizard.deleteEach fold_left map].
    rewrite (H r) by (left; reflexivity).
    unfold bind, emit, update. cbn [fst snd].
    rewrite IH by (try assumption; intros r' Hr'; apply H; right; assumption).
    reflexivity.
Qed.

(** Whatever is rejected, the loop only removes, and only records of
    the type and the server it is called for, one per role at most. *)
Lemma deleteEach_frame (roles : list Discord.Role) (db : Store) :
  (forall c, In c (store (ConfigWizard.deleteEach A g roles t db)) -> In c db)
  /\ filter (fun c => negb (Derived.inScope g t c))
            (store (ConfigWizard.deleteEach A g roles t db))
     = filter (fun c => negb (Derived.inScope g t c)) db
  /\ (List.length db
      <= List.length (store (ConfigWizard.deleteEach A g roles t db))
         + List.length roles)%nat.
Proof.
  revert db. induction roles as [|role roles IH]; intros db.
  - cbn. repeat split; auto. lia.
  - cbn [ConfigWizard.deleteEach].
    destruct (deleteRejects A (ConfigWizard.roleFilter g t role)).
    + cbn. repeat split; auto. lia.
    + unfold bind, emit, update, store. cbn [fst snd].
      destruct (IH (ConfigWizard.deleteOne db (ConfigWizard.roleFilter g t role)))
        as (H1 & H2 & H3). unfold store in *.
      split; [|split].
      * intros c Hc. eapply deleteOne_incl. apply H1. exact Hc.
      * rewrite H2. apply deleteOne_frame. intros c Hc.
        rewrite roleFilter_hasKey in Hc. apply hasKey_inScope in Hc.
        rewrite Hc. reflexivity.
      * pose proof (deleteOne_length db (ConfigWizard.roleFilter g t role)).
        cbn [List.length]. lia.
Qed.

Lemma fold_deleteOne_unique (roles : list Discord.Role) (db : Store) :
  Spec.uniqueKeys db = true ->
  fold_left (fun d role => ConfigWizard.deleteOne d (ConfigWizard.roleFilter g t role))
            roles db
  = filter (fun c => negb (Derived.configuresOneOf g t roles c)) db.
Proof.
  revert db. induction roles as [|role roles IH]; intros db Hu.
  - cbn. symmetry. clear Hu. induction db as [|c db IHdb]; [reflexivity|].
    cbn. f_equal. exact IHdb.
  - cbn [fold_left]. rewrite deleteOne_unique by assumption.
    rewrite IH by (apply filter_unique; assumption).
    clear. induction db as [|c db IHdb]; [reflexivity|].
    cbn [filter Derived.configuresOneOf existsb].
    destruct (Spec.hasKey t (Discord.role_id role) (Discord.guild_id g) c);
      cbn [negb orb filter].
    + exact IHdb.
    + fold (Derived.configuresOneOf g t roles c).
      destruct (Derived.configuresOneOf g t roles c); cbn [negb];
        rewrite IHdb; reflexivity.
Qed.

End Remove.

(** What [insertUnordered] adds comes after what was stored. *)
Lemma insertUnordered_appends (docs db : Store) :
  exists added,
    fst (Mongo.insertUnordered db docs) = db ++ added
    /\ forall c, In c added -> In c docs.
Proof.
  revert db. induction docs as [|d docs IH]; intros db.
  - exists []. cbn. rewrite app_nil_r. auto.
  - cbn. destruct (existsb (Mongo.sameKey d) db); cbn [fst].
    + destruct (IH db) as (added & E & H). exists added. split; [assumption|].
      intros c Hc. right. apply H. assumption.
    + destruct (IH (db ++ [d])) as (added & E & H). exists (d :: added).
      rewrite E, <- app_assoc. split; [reflexivity|].
      intros c [<- | Hc]; [left; reflexivity | right; apply H; assumption].
Qed.

Lemma insertUnordered_all_present (docs db : Store) :
  (forall d, In d docs -> existsb (Mongo.sameKey d) db = true) ->
  fst (Mongo.insertUnordered db docs) = db.
Proof.
  induction docs as [|d docs IH]; intros H; [reflexivity|].
  cbn. rewrite (H d) by (left; reflexivity). cbn [fst].
  apply IH. intros d' Hd'. apply H. right. assumption.
Qed.

(** The store after [addRolesToUsernameSpamFilter]. *)
Lemma addRoles_store (g : Discord.Guild) (db : Store) (roles : list Discord.Role)
    (t : SpamFilterConfigType) :
  fst (ConfigSpamFilter.addRolesToUsernameSpamFilter g db roles t)
  = fst (Mongo.insertUnordered db (map (Derived.configOf g t) roles)).
Proof.
  unfold ConfigSpamFilter.addRolesToUsernameSpamFilter. cbn [fst].
  fold (Derived.configOf g t).
  destruct roles as [|r roles]; [reflexivity|].
  cbn [map Mongo.insertMany].
  destruct (snd (Mongo.insertUnordered db (Derived.configOf g t r
                                            :: map (Derived.configOf g t) roles)));
    reflexivity.
Qed.

(** [addRolesToUsernameSpamFilter] does not throw. *)
Lemma addRoles_outcome (g : Discord.Guild) (db : Store) (roles : list Discord.Role)
    (t : SpamFilterConfigType) :
  Async.outcome (snd (ConfigSpamFilter.addRolesToUsernameSpamFilter g db roles t))
  = Returned tt.
Proof.
  unfold ConfigSpamFilter.addRolesToUsernameSpamFilter. cbn [snd].
  fold (Derived.configOf g t).
  destruct roles as [|r roles]; [reflexivity|].
  cbn [map Mongo.insertMany].
  destruct (snd (Mongo.insertUnordered db (Derived.configOf g t r
                                            :: map (Derived.configOf g t) roles)));
    reflexivity.
Qed.

(** What it logs when every record is stored already. *)
Lemma addRoles_present (g : Discord.Guild) (db : Store) (roles : list Discord.Role)
    (t : SpamFilterConfigType) :
  roles <> [] ->
  (forall d, In d (map (Derived.configOf g t) roles) ->
             existsb (Mongo.sameKey d) db = true) ->
  Async.trace (snd (ConfigSpamFilter.addRolesToUsernameSpamFilter g db roles t))
  = [DbInsertMany (map (Derived.configOf g t) roles);
     Log (DupKeyFound "BulkWriteError");
     Log (FailedToStoreRoles "BulkWriteError")].
Proof.
  intros Hne Hall.
  unfold ConfigSpamFilter.addRolesToUsernameSpamFilter. cbn [snd].
  fold (Derived.configOf g t).
  destruct roles as [|r roles]; [congruence|].
  cbn [map Mongo.insertMany].
  pose proof (insertUnordered_reports
                (Derived.configOf g t r :: map (Derived.configOf g t) roles) db
                (Derived.configOf g t r) (or_introl eq_refl)
                (Hall _ (or_introl eq_refl))) as Hrep.
  destruct (snd (Mongo.insertUnordered db (Derived.configOf g t r
                                            :: map (Derived.configOf g t) roles)));
    [congruence | reflexivity].
Qed.

Lemma configOf_configures (g : Discord.Guild) (t : SpamFilterConfigType)
    (roles : list Discord.Role) (c : SpamFilterConfig) :
  In c (map (Derived.configOf g t) roles) -> Derived.configuresOneOf g t roles c = true.
Proof.
  intros H. apply in_map_iff in H. destruct H as (role & <- & Hr).
  unfold Derived.configuresOneOf. apply existsb_exists. exists role.
  split; [assumption|]. unfold Spec.hasKey, Derived.configOf. cbn.
  rewrite !String.eqb_refl. destruct t; reflexivity.
Qed.

Lemma configuresOneOf_listed (g : Discord.Guild) (t : SpamFilterConfigType)
    (roles : list Discord.Role) (db : Store) :
  (forall role, In role roles ->
                Spec.timesListed db t (Discord.role_id role) (Discord.guild_id g) = 0%nat) ->
  filter (fun c => negb (Derived.configuresOneOf g t roles c)) db = db.
Proof.
  intros H. induction db as [|c db IH]; [reflexivity|].
  assert (Hc : Derived.configuresOneOf g t roles c = false).
  { destruct (Derived.configuresOneOf g t roles c) eqn:E; [|reflexivity].
    unfold Derived.configuresOneOf in E. apply existsb_exists in E.
    destruct E as (role & Hr & Hk). specialize (H role Hr).
    unfold Spec.timesListed in H. cbn [filter] in H. rewrite Hk in H. discriminate H. }
  cbn [filter]. rewrite Hc. cbn [negb]. f_equal. apply IH.
  intros role Hr. specialize (H role Hr). unfold Spec.timesListed in *.
  cbn [filter] in H.
  destruct (Spec.hasKey t (Discord.role_id role) (Discord.guild_id g) c);
    [discriminate H | exact H].
Qed.

End StoreLawsFacts.

Module StoreLaws.
Import StoreFacts StoreLawsFacts Task.

Local Abbreviation remove := ConfigWizard.removeRolesFromUsernameSpamFilter.
Local Abbreviation add := ConfigSpamFilter.addRolesToUsernameSpamFilter.

(** [removeRolesFromUsernameSpamFilter] on a store with unique keys, when
    no [deleteOne] is rejected: one [deleteOne] per given role, in their
    order; what is left are the records that configure none of the roles
    for the object type and the guild, in the order they had; no given
    role is listed any more, and the keys of the store stay unique. *)
Theorem removeRolesFromUsernameSpamFilter_removes (A : Admin) (g : Discord.Guild)
    (roles : list Discord.Role) (t : SpamFilterConfigType) (db : Store) :
  Spec.uniqueKeys db = true ->
  (forall role, In role roles ->
                deleteRejects A (ConfigWizard.roleFilter g t role) = None) ->
  store (remove A g roles t db)
  = filter (fun c => negb (Derived.configuresOneOf g t roles c)) db
  /\ calls (remove A g roles t db)
     = map (fun role => DbDeleteOne (ConfigWizard.roleFilter g t role)) roles
  /\ result (remove A g roles t db) = Resolved tt
  /\ (forall role, In role roles ->
        Spec.timesListed (store (remove A g roles t db)) t
          (Discord.role_id role) (Discord.guild_id g) = 0%nat)
  /\ Spec.uniqueKeys (store (remove A g roles t db)) = true.
Proof.
  intros Hu Hok.
  assert (E : remove A g roles t db
              = (filter (fun c => negb (Derived.configuresOneOf g t roles c)) db,
                 (map (fun role => DbDeleteOne (ConfigWizard.roleFilter g t role)) roles,
                  Resolved tt))).
  { unfold ConfigWizard.removeRolesFromUsernameSpamFilter, catch.
    rewrite deleteEach_all by assumption. cbn [fst snd].
    rewrite fold_deleteOne_unique by assumption. reflexivity. }
  rewrite E. unfold store, calls, result. cbn [fst snd].
  repeat split.
  - intros role Hr. unfold Spec.timesListed.
    rewrite (proj2 (List.length_zero_iff_nil _)); [reflexivity|].
    destruct (filter _ (filter _ db)) as [|c l] eqn:F; [reflexivity|].
    assert (Hc : In c (c :: l)) by (left; reflexivity).
    rewrite <- F in Hc. apply filter_In in Hc. destruct Hc as [Hc Hk].
    apply filter_In in Hc. destruct Hc as [_ Hn].
    apply negb_true_iff in Hn.
    assert (Derived.configuresOneOf g t roles c = true)
      by (apply existsb_exists; exists role; split; assumption).
    congruence.
  - apply filter_unique. assumption.
Qed.

(** Both [core] and [guest] are removed from the protected roles of the
    example guild; [guest] was not configured. *)
Lemma removeRolesFromUsernameSpamFilter_removes_core :
  store (remove MoreExamples.discord (guild Examples.bankless)
           [Examples.core; Examples.guest] PROTECTED_ROLE Examples.configured)
  = [Examples.mkConfig ALLOWLIST_ROLE "verified" "Verified";
     Examples.mkConfig ALLOWLIST_USER "104" "vip"].
Proof.
  refine (eq_trans
            (proj1 (removeRolesFromUsernameSpamFilter_removes MoreExamples.discord
                      (guild Examples.bankless) [Examples.core; Examples.guest]
                      PROTECTED_ROLE Examples.configured _ _)) _).
  - reflexivity.
  - intros role _. reflexivity.
  - reflexivity.
Defined.

(** Whatever the driver rejects, [removeRolesFromUsernameSpamFilter]
    does not throw; it adds nothing to the store, removes one record per
    given role at most, and leaves every record of another object type
    or another server where it was. *)
Theorem removeRolesFromUsernameSpamFilter_only_removes (A : Admin) (g : Discord.Guild)
    (roles : list Discord.Role) (t : SpamFilterConfigType) (db : Store) :
  result (remove A g roles t db) = Resolved tt
  /\ (forall c, In c (store (remove A g roles t db)) -> In c db)
  /\ filter (fun c => negb (Derived.inScope g t c)) (store (remove A g roles t db))
     = filter (fun c => negb (Derived.inScope g t c)) db
  /\ (List.length db
      <= List.length (store (remove A g roles t db)) + List.length roles)%nat.
Proof.
  pose proof (deleteEach_frame A g t roles db) as H.
  unfold ConfigWizard.removeRolesFromUsernameSpamFilter, catch, store, calls, result in *.
  destruct (snd (snd (ConfigWizard.deleteEach A g roles t db))) as [[]|e] eqn:E;
    cbn [fst snd emit]; (split; [first [exact E | reflexivity] | exact H]).
Qed.

(** A rejected [deleteOne] ends the loop: the roles before it are
    removed, the roles after it are not tried and stay configured, the
    error is logged, and the caller is not told. *)
Theorem removeRolesFromUsernameSpamFilter_rejected (A : Admin) (g : Discord.Guild)
    (before after : list Discord.Role) (role : Discord.Role) (e : string)
    (t : SpamFilterConfigType) (db : Store) :
  (forall r, In r before -> deleteRejects A (ConfigWizard.roleFilter g t r) = None) ->
  deleteRejects A (ConfigWizard.roleFilter g t role) = Some e ->
  store (remove A g (before ++ role :: after) t db) = store (remove A g before t db)
  /\ calls (remove A g (before ++ role :: after) t db)
     = map (fun r => DbDeleteOne (ConfigWizard.roleFilter g t r)) (before ++ [role])
       ++ [LogError "failed to remove username spam filter roles from db" (Failure e)]
  /\ result (remove A g (before ++ role :: after) t db) = Resolved tt.
Proof.
  intros Hok He.
  unfold ConfigWizard.removeRolesFromUsernameSpamFilter, catch.
  rewrite (deleteEach_rejected A g t before after role e db Hok He).
  rewrite (deleteEach_all A g t before db Hok).
  unfold store, calls, result. cbn [fst snd emit]. repeat split.
Qed.

(** The driver rejects the [deleteOne] of [guest]: [core], given after
    it, stays protected. *)
Lemma removeRolesFromUsernameSpamFilter_rejected_guest :
  store (remove MoreExamples.flaky (guild Examples.bankless)
           ([] ++ Examples.guest :: [Examples.core]) PROTECTED_ROLE Examples.configured)
  = Examples.configured.
Proof.
  refine (proj1 (removeRolesFromUsernameSpamFilter_rejected MoreExamples.flaky
                   (guild Examples.bankless) [] [Examples.core] Examples.guest
                   "MongoNetworkError" PROTECTED_ROLE Examples.configured _ _)).
  - intros r [].
  - reflexivity.
Defined.

(** Removing roles undoes adding them: on a store with unique keys that
    configures none of the roles, [removeRolesFromUsernameSpamFilter]
    after [addRolesToUsernameSpamFilter] gives the store back as it was,
    when no [deleteOne] is rejected. *)
Theorem removeRoles_after_addRoles (A : Admin) (g : Discord.Guild)
    (roles : list Discord.Role) (t : SpamFilterConfigType) (db : Store) :
  Spec.uniqueKeys db = true ->
  (forall role, In role roles ->
                Spec.timesListed db t (Discord.role_id role) (Discord.guild_id g) = 0%nat) ->
  (forall role, In role roles ->
                deleteRejects A (ConfigWizard.roleFilter g t role) = None) ->
  store (remove A g roles t (fst (add g db roles t))) = db.
Proof.
  intros Hu Hnew Hok.
  unfold ConfigWizard.removeRolesFromUsernameSpamFilter, catch.
  rewrite deleteEach_all by assumption. unfold store. cbn [fst snd].
  rewrite addRoles_store.
  rewrite fold_deleteOne_unique by (apply insertUnordered_unique; assumption).
  destruct (insertUnordered_appends (map (Derived.configOf g t) roles) db)
    as (added & -> & Hadded).
  rewrite filter_app, configuresOneOf_listed by assumption.
  rewrite <- (app_nil_r db) at 2. f_equal.
  induction added as [|c added IH]; [reflexivity|].
  cbn [filter]. rewrite (configOf_configures g t roles c) by (apply Hadded; left; reflexivity).
  cbn [negb]. apply IH. intros c' Hc'. apply Hadded. right. assumption.
Qed.

(** [guest] and [verified] are protected and unprotected again. *)
Lemma removeRoles_after_addRoles_guest :
  store (remove MoreExamples.discord (guild Examples.bankless)
           [Examples.guest; MoreExamples.verified] PROTECTED_ROLE
           (fst (add (guild Examples.bankless) Examples.configured
                   [Examples.guest; MoreExamples.verified] PROTECTED_ROLE)))
  = Examples.configured.
Proof.
  apply (removeRoles_after_addRoles MoreExamples.discord (guild Examples.bankless)
           [Examples.guest; MoreExamples.verified] PROTECTED_ROLE Examples.configured).
  - reflexivity.
  - intros role [<- | [<- | []]]; reflexivity.
  - intros role _. reflexivity.
Defined.

(** [addRolesToUsernameSpamFilter] is idempotent on the store: a second
    call with the same roles changes nothing; it does not throw, and
    unless no role is given every record is rejected as a duplicate,
    which is logged. *)
Theorem addRolesToUsernameSpamFilter_again (g : Discord.Guild)
    (roles : list Discord.Role) (t : SpamFilterConfigType) (db : Store) :
  fst (add g (fst (add g db roles t)) roles t) = fst (add g db roles t)
  /\ Async.outcome (snd (add g (fst (add g db roles t)) roles t)) = Returned tt
  /\ (roles <> [] ->
      Async.trace (snd (add g (fst (add g db roles t)) roles t))
      = [DbInsertMany (map (Derived.configOf g t) roles);
         Log (DupKeyFound "BulkWriteError");
         Log (FailedToStoreRoles "BulkWriteError")]).
Proof.
  assert (Hall : forall d, In d (map (Derived.configOf g t) roles) ->
                 existsb (Mongo.sameKey d) (fst (add g db roles t)) = true).
  { intros d Hd. rewrite addRoles_store. apply insertUnordered_all. assumption. }
  split; [|split].
  - rewrite (addRoles_store g (fst (add g db roles t))).
    apply insertUnordered_all_present. assumption.
  - apply addRoles_outcome.
  - intros Hne. apply addRoles_present; assumption.
Qed.

End StoreLaws.

(* ================================================================== *)
(** * The config store and the engine together *)

Module StoreEngineFacts.
Import JS EngineFacts EngineLawsFacts StoreFacts StoreLawsFacts.

Lemma hasKey_spec (t : SpamFilterConfigType) (i s : string) (c : SpamFilterConfig) :
  Spec.hasKey t i s c = true
  <-> objectType c = t /\ discordObjectId c = i /\ discordServerId c = s.
Proof.
  unfold Spec.hasKey. rewrite !andb_true_iff, type_eqb_eq, !String.eqb_eq. tauto.
Qed.

Section Protect.
Variable w : World.
Variable roles : list Discord.Role.

Local Abbreviation db' :=
  (fst (ConfigSpamFilter.addRolesToUsernameSpamFilter (guild w) (usernameSpamFilterDb w)
          roles PROTECTED_ROLE)).
Local Abbreviation w' := (Derived.withStore w db').

(** Every given role has a record afterwards. *)
Lemma addRoles_record (role : Discord.Role) :
  In role roles ->
  exists c, In c db' /\ objectType c = PROTECTED_ROLE
            /\ discordObjectId c = Discord.role_id role
            /\ discordServerId c = Discord.guild_id (guild w).
Proof.
  intros Hr.
  assert (H : existsb (Mongo.sameKey (Derived.configOf (guild w) PROTECTED_ROLE role)) db'
              = true).
  { rewrite addRoles_store. apply insertUnordered_all. apply in_map. assumption. }
  apply existsb_exists in H. destruct H as (c & Hc & Hk).
  apply sameKey_spec in Hk. cbn in Hk. destruct Hk as (H1 & H2 & H3).
  exists c. repeat split; auto.
Qed.

(** Protecting roles leaves the skip check as it was. *)
Lemma addRoles_skip (m : Discord.GuildMember) :
  Spec.passesSkipCheck w' m = Spec.passesSkipCheck w m.
Proof.
  destruct (insertUnordered_appends
              (map (Derived.configOf (guild w) PROTECTED_ROLE) roles)
              (usernameSpamFilterDb w)) as (added & E & Hadded).
  assert (Hno : forall (f : SpamFilterConfig -> bool) t,
             t <> PROTECTED_ROLE ->
             existsb (fun c => Spec.isRecordOf w t c && f c) added = false).
  { intros f t Ht. clear E. induction added as [|c l IH]; [reflexivity|].
    cbn [existsb].
    assert (Hc : Spec.isRecordOf w t c = false).
    { destruct (Spec.isRecordOf w t c) eqn:X; [|reflexivity].
      apply isRecordOf_spec in X. destruct X as [X _].
      specialize (Hadded c (or_introl eq_refl)). apply in_map_iff in Hadded.
      destruct Hadded as (role & <- & _). cbn in X. congruence. }
    rewrite Hc. cbn [andb orb]. apply IH. intros c' Hc'. apply Hadded.
    right. assumption. }
  unfold Spec.passesSkipCheck, Spec.onAllowlistUser, Spec.holdsAllowlistRole,
    Spec.holdsRoleOf.
  cbn [usernameSpamFilterDb Derived.withStore]. rewrite addRoles_store, E.
  rewrite !existsb_app. change (Spec.isRecordOf (Derived.withStore w _))
    with (Spec.isRecordOf w).
  rewrite !Hno by discriminate. rewrite !orb_false_r. reflexivity.
Qed.

(** A member who holds a given role is a protected member afterwards. *)
Lemma addRoles_member (role : Discord.Role) (p : Discord.GuildMember) :
  In role roles ->
  In p (Discord.members (guild w)) ->
  In (Discord.role_id role) (Discord.roles p) ->
  In p (Spec.protectedMembers w').
Proof.
  intros Hr Hp Hh. unfold Spec.protectedMembers. apply filter_In.
  split; [exact Hp|]. apply holdsRoleOf_spec.
  destruct (addRoles_record role Hr) as (c & Hc & H1 & H2 & H3).
  exists c. cbn [usernameSpamFilterDb guild Derived.withStore].
  rewrite H2. repeat split; assumption.
Qed.

End Protect.

End StoreEngineFacts.

Module StoreEngineLaws.
Import JS EngineFacts EngineLawsFacts StoreFacts StoreLawsFacts StoreEngineFacts Task.

Section Engine.
Variable U : Unicode.
Variable Confusables : jsstring -> option jsstring.

Local Abbreviation run := (SpamFilter.runUsernameSpamFilter U Confusables).
Local Abbreviation add := ConfigSpamFilter.addRolesToUsernameSpamFilter.
Local Abbreviation remove := ConfigWizard.removeRolesFromUsernameSpamFilter.

(** Protecting roles takes effect: after
    [addRolesToUsernameSpamFilter] with [PROTECTED_ROLE],
    [getProtectedRolesForServer] returns the id of every given role, and
    a candidate who passed the skip check before, and whose sanitized
    username is the sanitized display name of a guild member holding one
    of the roles, is banned when the contacts are in the guild. *)
Theorem addRolesToUsernameSpamFilter_protects (w : World) (roles : list Discord.Role)
    (role : Discord.Role) (p m : Discord.GuildMember) :
  In role roles ->
  In p (Discord.members (guild w)) ->
  In (Discord.role_id role) (Discord.roles p) ->
  Spec.passesSkipCheck w m = true ->
  Spec.contactsPresent w = true ->
  Spec.sanitizedUsername U Confusables m
  = SpamFilter.sanitizeUsername U Confusables (Spec.displayName p) ->
  (exists ids,
      Async.outcome
        (SpamFilter.getProtectedRolesForServer
           (Derived.withStore w (fst (add (guild w) (usernameSpamFilterDb w) roles
                                        PROTECTED_ROLE))))
      = Returned ids
      /\ In (Discord.role_id role) ids)
  /\ Async.outcome
       (run (Derived.withStore w (fst (add (guild w) (usernameSpamFilterDb w) roles
                                         PROTECTED_ROLE))) m)
     = Returned true
  /\ In (MemberBan m)
       (Async.trace
          (run (Derived.withStore w (fst (add (guild w) (usernameSpamFilterDb w) roles
                                            PROTECTED_ROLE))) m)).
Proof.
  intros Hr Hp Hh Hs Hc Hname.
  set (w' := Derived.withStore w _).
  assert (Hout : Async.outcome (run w' m) = Returned true).
  { rewrite outcome_evaluation. unfold w'. rewrite addRoles_skip, Hs. cbn [negb].
    fold w'. change (Spec.contactsPresent w') with (Spec.contactsPresent w). rewrite Hc.
    pose proof (addRoles_member w roles role p Hr Hp Hh) as Hmem. fold w' in Hmem.
    pose proof (protectedMembers_records w' p Hmem) as Hrec.
    destruct (Spec.protectedRoleRecords w'); [contradiction|].
    assert (Hm : Spec.matchOccurs U Confusables w' m = true).
    { unfold Spec.matchOccurs. apply orb_true_iff. right.
      rewrite Hname. apply inProtectedNameSet_member. exact Hmem. }
    rewrite Hm. reflexivity. }
  split; [|split].
  - rewrite getProtectedRolesForServer_eval. eexists. split; [reflexivity|].
    unfold Spec.protectedRoleIds, Spec.protectedRoleRecords.
    destruct (addRoles_record w roles role Hr) as (c & Hin & H1 & H2 & H3).
    rewrite <- H2. apply in_map. apply filter_In. split; [exact Hin|].
    apply isRecordOf_spec. split; assumption.
  - exact Hout.
  - apply ban_attempted. split; [reflexivity | exact Hout].
Qed.

(** Unprotecting roles takes effect: after
    [removeRolesFromUsernameSpamFilter] with [PROTECTED_ROLE] on a store
    with unique keys, no [deleteOne] rejected,
    [getProtectedRolesForServer] returns the id of no given role; and
    when the given roles were all the protected roles of the guild, the
    engine returns [false] for every member and bans nobody. *)
Theorem removeRolesFromUsernameSpamFilter_unprotects (A : Admin) (w : World)
    (roles : list Discord.Role) :
  Spec.uniqueKeys (usernameSpamFilterDb w) = true ->
  (forall role, In role roles ->
     deleteRejects A (ConfigWizard.roleFilter (guild w) PROTECTED_ROLE role) = None) ->
  (exists ids,
      Async.outcome
        (SpamFilter.getProtectedRolesForServer
           (Derived.withStore w (store (remove A (guild w) roles PROTECTED_ROLE
                                          (usernameSpamFilterDb w)))))
      = Returned ids
      /\ forall role, In role roles -> ~ In (Discord.role_id role) ids)
  /\ ((forall c, In c (Spec.protectedRoleRecords w) ->
                 Derived.configuresOneOf (guild w) PROTECTED_ROLE roles c = true) ->
      forall m m',
        Async.outcome
          (run (Derived.withStore w (store (remove A (guild w) roles PROTECTED_ROLE
                                              (usernameSpamFilterDb w)))) m)
        = Returned false
        /\ ~ In (MemberBan m')
             (Async.trace
                (run (Derived.withStore w (store (remove A (guild w) roles PROTECTED_ROLE
                                                    (usernameSpamFilterDb w)))) m))).
Proof.
  intros Hu Hok.
  assert (E : store (remove A (guild w) roles PROTECTED_ROLE (usernameSpamFilterDb w))
              = filter (fun c => negb (Derived.configuresOneOf (guild w) PROTECTED_ROLE
                                         roles c))
                       (usernameSpamFilterDb w)).
  { unfold ConfigWizard.removeRolesFromUsernameSpamFilter, catch.
    rewrite deleteEach_all by assumption. unfold store. cbn [fst snd].
    apply fold_deleteOne_unique. assumption. }
  rewrite E. set (w' := Derived.withStore w _).
  split.
  - rewrite getProtectedRolesForServer_eval. eexists. split; [reflexivity|].
    intros role Hr Hin. unfold Spec.protectedRoleIds, Spec.protectedRoleRecords in Hin.
    apply in_map_iff in Hin. destruct Hin as (c & Hid & Hc).
    apply filter_In in Hc. destruct Hc as [Hc Hrec].
    cbn [usernameSpamFilterDb w' Derived.withStore] in Hc.
    apply filter_In in Hc. destruct Hc as [_ Hn]. apply negb_true_iff in Hn.
    apply isRecordOf_spec in Hrec. destruct Hrec as [H1 H2].
    assert (Derived.configuresOneOf (guild w) PROTECTED_ROLE roles c = true).
    { apply existsb_exists. exists role. split; [assumption|].
      apply hasKey_spec. repeat split; assumption. }
    congruence.
  - intros Hall m m'.
    assert (Hrec : Spec.protectedRoleRecords w' = []).
    { unfold Spec.protectedRoleRecords. cbn [usernameSpamFilterDb w' Derived.withStore].
      change (Spec.isRecordOf w') with (Spec.isRecordOf w).
      destruct (filter (Spec.isRecordOf w PROTECTED_ROLE) (filter _ _)) as [|c l] eqn:F;
        [reflexivity|].
      assert (Hc : In c (c :: l)) by (left; reflexivity).
      rewrite <- F in Hc. apply filter_In in Hc. destruct Hc as [Hc Hr].
      apply filter_In in Hc. destruct Hc as [Hc Hn]. apply negb_true_iff in Hn.
      rewrite Hall in Hn; [discriminate|].
      unfold Spec.protectedRoleRecords. apply filter_In. split; assumption. }
    assert (Hout : Async.outcome (run w' m) = Returned false).
    { rewrite outcome_evaluation, Hrec. destruct (negb _); reflexivity. }
    split; [exact Hout|].
    intros Hban. apply ban_attempted in Hban. destruct Hban as [_ Hban].
    rewrite Hout in Hban. discriminate.
Qed.

End Engine.

Local Abbreviation run' :=
  (SpamFilter.runUsernameSpamFilter UCD.unicode UCD.sampleConfusables).

(** Before any role is protected [impostor] passes; after [core] is
    protected, [impostor], whose username sanitizes to the nickname of
    [frogmonkee], is banned. *)
Lemma addRolesToUsernameSpamFilter_protects_core :
  Async.outcome
    (run' (Derived.withStore Examples.unconfigured
             (fst (ConfigSpamFilter.addRolesToUsernameSpamFilter
                     (guild Examples.unconfigured)
                     (usernameSpamFilterDb Examples.unconfigured)
                     [Examples.core] PROTECTED_ROLE))) Examples.impostor)
  = Returned true.
Proof.
  refine (proj1 (proj2 (addRolesToUsernameSpamFilter_protects UCD.unicode
                          UCD.sampleConfusables Examples.unconfigured [Examples.core]
                          Examples.core Examples.frogmonkee Examples.impostor
                          _ _ _ _ _ _))).
  - left. reflexivity.
  - left. reflexivity.
  - left. reflexivity.
  - reflexivity.
  - reflexivity.
  - reflexivity.
Defined.

(** After [core], the one protected role of the example guild, is
    unprotected, [impostor] is not banned any more. *)
Lemma removeRolesFromUsernameSpamFilter_unprotects_core :
  Async.outcome
    (run' (Derived.withStore Examples.bankless
             (Task.store (ConfigWizard.removeRolesFromUsernameSpamFilter
                            MoreExamples.discord (guild Examples.bankless)
                            [Examples.core] PROTECTED_ROLE
                            (usernameSpamFilterDb Examples.bankless))))
          Examples.impostor)
  = Returned false.
Proof.
  refine (proj1 (proj2 (removeRolesFromUsernameSpamFilter_unprotects UCD.unicode
                          UCD.sampleConfusables MoreExamples.discord Examples.bankless
                          [Examples.core] _ _) _ Examples.impostor Examples.impostor)).
  - reflexivity.
  - intros role _. reflexivity.
  - intros c [<- | []]. reflexivity.
Defined.

End StoreEngineLaws.

(* ================================================================== *)
(** * Tasks *)

Module TaskFacts.
Import Task.

Section Ensures.
Variable I : Store -> Store -> Prop.
Variable C : Call -> bool.
Hypothesis I_refl : forall db, I db db.
Hypothesis I_trans : forall a b c, I a b -> I b c -> I a c.

Lemma ensures_ret {A} (E : Thrown -> Prop) (Q : A -> Prop) (a : A) :
  Q a -> Derived.ensures I C E Q (ret a).
Proof. intros H db. cbn. auto. Qed.

Lemma ensures_throw {A} (E : Thrown -> Prop) (Q : A -> Prop) (e : Thrown) :
  E e -> Derived.ensures I C E Q (throw e).
Proof. intros H db. cbn. auto. Qed.

Lemma ensures_emit (E : Thrown -> Prop) (Q : unit -> Prop) (c : Call) :
  C c = true -> Q tt -> Derived.ensures I C E Q (emit c).
Proof. intros Hc H db. cbn. rewrite Hc. auto. Qed.

Lemma ensures_read (E : Thrown -> Prop) (Q : Store -> Prop) :
  (forall db, Q db) -> Derived.ensures I C E Q read.
Proof. intros H db. cbn. auto. Qed.

Lemma ensures_update (E : Thrown -> Prop) (Q : unit -> Prop) (f : Store -> Store) :
  (forall db, I db (f db)) -> Q tt -> Derived.ensures I C E Q (update f).
Proof. intros Hf H db. cbn. auto. Qed.

Lemma ensures_bind {A B} (E : Thrown -> Prop) (P : A -> Prop) (Q : B -> Prop)
    (m : t A) (f : A -> t B) :
  Derived.ensures I C E P m ->
  (forall a, P a -> Derived.ensures I C E Q (f a)) ->
  Derived.ensures I C E Q (bind m f).
Proof.
  intros Hm Hf db. destruct (Hm db) as (H1 & H2 & H3).
  unfold bind, store, calls, result in *.
  destruct (snd (snd (m db))) as [a|e]; cbn [fst snd].
  - destruct (Hf a H3 (fst (m db))) as (K1 & K2 & K3).
    unfold store, calls, result in *.
    split; [eapply I_trans; eassumption|]. split; [|exact K3].
    rewrite forallb_app, H2, K2. reflexivity.
  - auto.
Qed.

Lemma ensures_seq {A B} (E : Thrown -> Prop) (Q : B -> Prop) (m : t A) (f : A -> t B) :
  Derived.ensures I C E (fun _ => True) m ->
  (forall a, Derived.ensures I C E Q (f a)) ->
  Derived.ensures I C E Q (bind m f).
Proof. intros Hm Hf. apply (ensures_bind E (fun _ => True)); auto. Qed.

Lemma ensures_catch {A} (E E' : Thrown -> Prop) (Q : A -> Prop)
    (m : t A) (h : Thrown -> t A) :
  Derived.ensures I C E' Q m ->
  (forall e, E' e -> Derived.ensures I C E Q (h e)) ->
  Derived.ensures I C E Q (catch m h).
Proof.
  intros Hm Hh db. destruct (Hm db) as (H1 & H2 & H3).
  unfold catch, store, calls, result in *.
  destruct (snd (snd (m db))) as [a|e] eqn:R; cbn [fst snd].
  - rewrite R. auto.
  - destruct (Hh e H3 (fst (m db))) as (K1 & K2 & K3).
    unfold store, calls, result in *.
    split; [eapply I_trans; eassumption|]. split; [|exact K3].
    rewrite forallb_app, H2, K2. reflexivity.
Qed.

Lemma ensures_weaken {A} (E E' : Thrown -> Prop) (Q Q' : A -> Prop) (m : t A) :
  (forall e, E e -> E' e) -> (forall a, Q a -> Q' a) ->
  Derived.ensures I C E Q m -> Derived.ensures I C E' Q' m.
Proof.
  intros HE HQ Hm db. destruct (Hm db) as (H1 & H2 & H3).
  split; [exact H1|]. split; [exact H2|].
  destruct (result (m db)); auto.
Qed.

End Ensures.

(** What is known of the calls and the result carries over to another
    relation on the store. *)
Lemma ensures_store {A} (I I' : Store -> Store -> Prop) (C : Call -> bool)
    (E : Thrown -> Prop) (Q : A -> Prop) (m : t A) :
  (forall db, I' db (store (m db))) ->
  Derived.ensures I C E Q m -> Derived.ensures I' C E Q m.
Proof.
  intros HI Hm db. destruct (Hm db) as (_ & H2 & H3). auto.
Qed.

End TaskFacts.

(* ================================================================== *)
(** * The dialogue of [ConfigSpamFilter.ts] *)

Module WizardFacts.
Import StoreFacts StoreLawsFacts Task TaskFacts.

Local Abbreviation anything := (fun _ : Store => fun _ : Store => True).
Local Abbreviation failure := (fun e : Thrown => exists s, e = Failure s).

Lemma collect_fold (found : list SpamFilterConfig) (acc : list string * list string) :
  fold_left ConfigWizard.collect found acc
  = (fst acc ++ map discordObjectName
                  (filter (fun c => SpamFilterConfigType_eqb (objectType c) PROTECTED_ROLE)
                          found),
     snd acc ++ map discordObjectName
                  (filter (fun c => SpamFilterConfigType_eqb (objectType c) ALLOWLIST_ROLE)
                          found)).
Proof.
  revert acc. induction found as [|c found IH]; intros [p a].
  - cbn. rewrite !app_nil_r. reflexivity.
  - cbn [fold_left filter]. rewrite IH. unfold ConfigWizard.collect.
    destruct (objectType c); cbn [SpamFilterConfigType_eqb fst snd map];
      rewrite <- ?app_assoc; reflexivity.
Qed.

Lemma filter_inScope (g : Discord.Guild) (t : SpamFilterConfigType) (db : Store) :
  filter (fun c => SpamFilterConfigType_eqb (objectType c) t)
         (filter (fun c => String.eqb (discordServerId c) (Discord.guild_id g)) db)
  = filter (Derived.inScope g t) db.
Proof.
  induction db as [|c db IH]; [reflexivity|]. cbn [filter].
  unfold Derived.inScope, Derived.inServer in *.
  destruct (String.eqb (discordServerId c) (Discord.guild_id g)); cbn [filter];
    destruct (SpamFilterConfigType_eqb (objectType c) t); cbn [andb];
    rewrite IH; reflexivity.
Qed.

Lemma deleteOne_uniqueKeys (db : Store) (q : Query) :
  Spec.uniqueKeys db = true -> Spec.uniqueKeys (ConfigWizard.deleteOne db q) = true.
Proof.
  induction db as [|c db IH]; [auto|]. cbn [Spec.uniqueKeys ConfigWizard.deleteOne].
  intros H. apply andb_true_iff in H. destruct H as [Hc H].
  destruct (Mongo.matchesQuery q c); [assumption|].
  cbn [Spec.uniqueKeys]. apply andb_true_iff. split; [|apply IH; assumption].
  apply negb_true_iff in Hc. apply negb_true_iff.
  destruct (existsb (Mongo.sameKey c) (ConfigWizard.deleteOne db q)) eqn:X; [|reflexivity].
  apply existsb_exists in X. destruct X as (d & Hd & Hk). apply deleteOne_incl in Hd.
  assert (existsb (Mongo.sameKey c) db = true) by (apply existsb_exists; exists d; tauto).
  congruence.
Qed.

Section Dialogue.
Variable A : Admin.
Variable g : Discord.Guild.
Variable I : Store -> Store -> Prop.
Variable C : Call -> bool.
Variable E : Thrown -> Prop.
Hypothesis I_refl : forall db, I db db.
Hypothesis I_trans : forall a b c, I a b -> I b c -> I a c.
Hypothesis C_quiet :
  forall c, Derived.dialogueCall c = true -> Derived.isCtxSend c = false -> C c = true.
Hypothesis C_notice : C (CtxSend HeyISentYouADM) = true.
Hypothesis E_failure : forall s, E (Failure s).

Lemma tellAboutDM_ensures :
  Derived.ensures I C E (fun _ => True) (ConfigWizard.tellAboutDM A).
Proof.
  unfold ConfigWizard.tellAboutDM.
  apply ensures_catch with (E' := fun _ => True); [exact I_trans | |].
  - apply ensures_seq; auto.
    + apply ensures_emit; auto.
    + intros _. destruct (ctxSendRejects A HeyISentYouADM);
        [apply ensures_throw | apply ensures_ret]; auto.
  - intros e _. apply ensures_emit; auto.
Qed.

Lemma send_ensures (guildMember : Discord.GuildMember) (msg : DirectMessage) :
  Derived.ensures I C E (fun _ => True) (ConfigWizard.send A guildMember msg).
Proof.
  unfold ConfigWizard.send. apply ensures_seq; auto.
  - apply ensures_emit; auto.
  - intros _. destruct (dmRejects A); [apply ensures_throw | apply ensures_ret]; auto.
Qed.

Lemma react_ensures (emoji : string) :
  Derived.ensures I C E (fun _ => True) (ConfigWizard.react A emoji).
Proof.
  unfold ConfigWizard.react. apply ensures_seq; auto.
  - apply ensures_emit; auto.
  - intros _. destruct (reactRejects A emoji); [apply ensures_throw | apply ensures_ret]; auto.
Qed.

Lemma awaitReactions_ensures (arriving : list IncomingReaction) :
  Derived.ensures I C E (fun r => find ConfigWizard.passesFilter arriving = Some r)
    (ConfigWizard.awaitReactions arriving).
Proof.
  unfold ConfigWizard.awaitReactions.
  apply ensures_bind with (P := fun _ => True); [exact I_trans | |].
  - apply ensures_emit; auto.
  - intros _ _. destruct (find ConfigWizard.passesFilter arriving);
      [apply ensures_ret | apply ensures_throw]; auto.
Qed.

Lemma getRoles_ensures :
  Derived.ensures I C E (fun _ => True) (ConfigWizard.getRolesFromUsernameSpamFilter g).
Proof.
  unfold ConfigWizard.getRolesFromUsernameSpamFilter. apply ensures_seq; auto.
  - apply ensures_emit; auto.
  - intros _. apply ensures_seq; auto.
    + apply ensures_read; auto.
    + intros db. apply ensures_ret; auto.
Qed.

End Dialogue.

(** The calls of [addRolesToUsernameSpamFilter]. *)
Lemma addRoles_calls (g : Discord.Guild) (db : Store) (roles : list Discord.Role)
    (t : SpamFilterConfigType) :
  forallb Derived.dialogueCall
    (map Engine (Async.trace (snd (ConfigSpamFilter.addRolesToUsernameSpamFilter
                                     g db roles t)))) = true.
Proof.
  unfold ConfigSpamFilter.addRolesToUsernameSpamFilter. cbn [snd].
  destruct (snd (Mongo.insertMany db _)) as [[res|]|e]; try reflexivity.
  destruct (ConfigSpamFilter.isDupKey e); reflexivity.
Qed.

Section Operations.
Variable A : Admin.
Variable g : Discord.Guild.
Variable I : Store -> Store -> Prop.
Variable C : Call -> bool.
Variable E : Thrown -> Prop.
Hypothesis C_quiet :
  forall c, Derived.dialogueCall c = true -> Derived.isCtxSend c = false -> C c = true.

Lemma addRoles_ensures (roles : list Discord.Role) (t : SpamFilterConfigType) :
  (forall db, I db (fst (ConfigSpamFilter.addRolesToUsernameSpamFilter g db roles t))) ->
  Derived.ensures I C E (fun _ => True)
    (ConfigWizard.addRolesToUsernameSpamFilter g roles t).
Proof.
  intros HI db. unfold ConfigWizard.addRolesToUsernameSpamFilter, call, store, calls, result.
  cbn [fst snd]. split; [apply HI|]. split.
  - pose proof (addRoles_calls g db roles t) as H.
    rewrite forallb_forall in *. intros c Hc. apply C_quiet; [apply H; exact Hc|].
    apply in_map_iff in Hc. destruct Hc as (ev & <- & _). reflexivity.
  - rewrite addRoles_outcome. exact Logic.I.
Qed.

Lemma deleteEach_ensures (roles : list Discord.Role) (t : SpamFilterConfigType) :
  Derived.ensures anything C failure (fun _ => True)
    (ConfigWizard.deleteEach A g roles t).
Proof.
  induction roles as [|role roles IH]; cbn [ConfigWizard.deleteEach].
  - apply ensures_ret; auto.
  - apply ensures_seq; auto.
    + apply ensures_emit; auto.
    + intros _. destruct (deleteRejects A (ConfigWizard.roleFilter g t role)).
      * apply ensures_throw; eauto.
      * apply ensures_seq; auto. apply ensures_update; auto.
Qed.

Lemma removeRoles_ensures (roles : list Discord.Role) (t : SpamFilterConfigType) :
  (forall db, I db (store (ConfigWizard.removeRolesFromUsernameSpamFilter A g roles t db))) ->
  Derived.ensures I C E (fun _ => True)
    (ConfigWizard.removeRolesFromUsernameSpamFilter A g roles t).
Proof.
  intros HI. apply (ensures_store anything); [exact HI|].
  unfold ConfigWizard.removeRolesFromUsernameSpamFilter.
  apply ensures_catch with (E' := failure); [auto | |].
  - apply deleteEach_ensures.
  - intros e _. apply ensures_emit; auto.
Qed.

End Operations.

(** What [removeRolesFromUsernameSpamFilter] leaves of the store. *)
Lemma removeRoles_store (A : Admin) (g : Discord.Guild) (roles : list Discord.Role)
    (t : SpamFilterConfigType) (db : Store) :
  store (ConfigWizard.removeRolesFromUsernameSpamFilter A g roles t db)
  = store (ConfigWizard.deleteEach A g roles t db).
Proof.
  unfold ConfigWizard.removeRolesFromUsernameSpamFilter, catch, store.
  destruct (snd (snd (ConfigWizard.deleteEach A g roles t db))); reflexivity.
Qed.

Lemma removeRoles_result (A : Admin) (g : Discord.Guild) (roles : list Discord.Role)
    (t : SpamFilterConfigType) (db : Store) :
  snd (snd (ConfigWizard.removeRolesFromUsernameSpamFilter A g roles t db)) = Resolved tt.
Proof.
  unfold ConfigWizard.removeRolesFromUsernameSpamFilter, catch.
  destruct (snd (snd (ConfigWizard.deleteEach A g roles t db))) as [[]|e] eqn:E;
    [exact E | reflexivity].
Qed.

Lemma deleteEach_keeps (A : Admin) (g : Discord.Guild) (t : SpamFilterConfigType)
    (keep : SpamFilterConfig -> bool) (roles : list Discord.Role) (db : Store) :
  (forall c, Derived.inScope g t c = true -> keep c = false) ->
  filter keep (store (ConfigWizard.deleteEach A g roles t db)) = filter keep db
  /\ (Spec.uniqueKeys db = true ->
      Spec.uniqueKeys (store (ConfigWizard.deleteEach A g roles t db)) = true).
Proof.
  intros Hk. revert db. induction roles as [|role roles IH]; intros db.
  - cbn. auto.
  - cbn [ConfigWizard.deleteEach].
    destruct (deleteRejects A (ConfigWizard.roleFilter g t role)).
    + cbn. auto.
    + unfold bind, emit, update, store. cbn [fst snd].
      destruct (IH (ConfigWizard.deleteOne db (ConfigWizard.roleFilter g t role)))
        as (H1 & H2). unfold store in *.
      split.
      * rewrite H1. apply deleteOne_frame. intros c Hc.
        rewrite roleFilter_hasKey in Hc. apply hasKey_inScope in Hc. auto.
      * intros Hu. apply H2. apply deleteOne_uniqueKeys. assumption.
Qed.

(** What [addRolesToUsernameSpamFilter] leaves of the store. *)
Lemma addRoles_keeps (g : Discord.Guild) (t : SpamFilterConfigType)
    (keep : SpamFilterConfig -> bool) (roles : list Discord.Role) (db : Store) :
  (forall c, Derived.inScope g t c = true -> keep c = false) ->
  filter keep (fst (ConfigSpamFilter.addRolesToUsernameSpamFilter g db roles t))
  = filter keep db.
Proof.
  intros Hk. rewrite addRoles_store.
  destruct (insertUnordered_appends (map (Derived.configOf g t) roles) db)
    as (added & -> & Hadded).
  rewrite filter_app. rewrite <- (app_nil_r (filter keep db)) at 2. f_equal.
  induction added as [|c added IH]; [reflexivity|]. cbn [filter].
  rewrite Hk.
  - apply IH. intros c' Hc'. apply Hadded. right. assumption.
  - specialize (Hadded c (or_introl eq_refl)). apply in_map_iff in Hadded.
    destruct Hadded as (role & <- & _). unfold Derived.inScope, Derived.inServer.
    cbn. rewrite String.eqb_refl. destruct t; reflexivity.
Qed.

End WizardFacts.

Module DialogueFacts.
Import StoreFacts StoreLawsFacts Task TaskFacts WizardFacts.

Section Configure.
Variable A : Admin.
Variable g : Discord.Guild.
Variable guildMember : Discord.GuildMember.
Variable roles : list (option string).
Variable arriving : list IncomingReaction.
Variable I : Store -> Store -> Prop.
Variable C : Call -> bool.
Variable E : Thrown -> Prop.

Local Abbreviation chose := (Derived.chosen A g guildMember roles arriving).
Local Abbreviation resolved := (retrieveRoles A g roles).

Hypothesis I_refl : forall db, I db db.
Hypothesis I_trans : forall a b c, I a b -> I b c -> I a c.
Hypothesis C_dialogue : forall c, Derived.dialogueCall c = true -> C c = true.
Hypothesis E_failure : forall s, E (Failure s).
Hypothesis E_unauthorized :
  Derived.authorized A guildMember = false ->
  E (ValidationError
       "Sorry, only discord admins and managers can configure spam filter settings.").
Hypothesis E_edit :
  chose ConfigWizard.edit ->
  E (ValidationError "Please re-initiate spam-filter configuration.").
Hypothesis I_protect :
  chose ConfigWizard.protectRoles ->
  forall db, I db (fst (ConfigSpamFilter.addRolesToUsernameSpamFilter g db resolved
                          PROTECTED_ROLE)).
Hypothesis I_unprotect :
  chose ConfigWizard.unprotectRoles ->
  forall db, I db (store (ConfigWizard.removeRolesFromUsernameSpamFilter A g resolved
                            PROTECTED_ROLE db)).
Hypothesis I_allow :
  chose ConfigWizard.addToAllowlist ->
  forall db, I db (fst (ConfigSpamFilter.addRolesToUsernameSpamFilter g db resolved
                          ALLOWLIST_ROLE)).
Hypothesis I_disallow :
  chose ConfigWizard.removeFromAllowlist ->
  forall db, I db (store (ConfigWizard.removeRolesFromUsernameSpamFilter A g resolved
                            ALLOWLIST_ROLE db)).

Ltac seq L := apply ensures_seq; [exact I_trans | L | intros ?].

(** The dialogue, whatever Discord and the driver reject. *)
Lemma configure_ensures :
  Derived.ensures I C E (fun _ => True)
    (ConfigWizard.configure A g guildMember roles arriving).
Proof.
  unfold ConfigWizard.configure. fold (Derived.authorized A guildMember).
  destruct (Derived.authorized A guildMember) eqn:Hauth; cbn [negb];
    [|apply ensures_throw; auto].
  destruct (N.of_nat (List.length resolved) =? 0)%N eqn:Hlen.
  - seq ltac:(apply tellAboutDM_ensures; auto).
    seq ltac:(apply getRoles_ensures; auto).
    apply send_ensures; auto.
  - assert (Hne : resolved <> []) by (intros X; rewrite X in Hlen; discriminate).
    seq ltac:(apply send_ensures; auto).
    seq ltac:(apply tellAboutDM_ensures; auto).
    do 5 (seq ltac:(apply react_ensures; auto)).
    apply ensures_bind
      with (P := fun r => find ConfigWizard.passesFilter arriving = Some r);
      [exact I_trans | apply awaitReactions_ensures; auto | intros r Hr].
    seq idtac; [|apply send_ensures; auto].
    assert (Hch : forall emoji, emoji_name r = emoji -> chose emoji).
    { intros emoji He. split; [exact Hauth|]. split; [exact Hne|]. exists r. auto. }
    destruct (String.eqb (emoji_name r) ConfigWizard.protectRoles) eqn:E1.
    { apply String.eqb_eq in E1. seq ltac:(apply addRoles_ensures; auto).
      apply ensures_ret; auto. }
    destruct (String.eqb (emoji_name r) ConfigWizard.unprotectRoles) eqn:E2.
    { apply String.eqb_eq in E2. seq ltac:(apply removeRoles_ensures; auto).
      apply ensures_ret; auto. }
    destruct (String.eqb (emoji_name r) ConfigWizard.addToAllowlist) eqn:E3.
    { apply String.eqb_eq in E3. seq ltac:(apply addRoles_ensures; auto).
      apply ensures_ret; auto. }
    destruct (String.eqb (emoji_name r) ConfigWizard.removeFromAllowlist) eqn:E4.
    { apply String.eqb_eq in E4. seq ltac:(apply removeRoles_ensures; auto).
      apply ensures_ret; auto. }
    destruct (String.eqb (emoji_name r) ConfigWizard.edit) eqn:E5.
    { apply String.eqb_eq in E5. seq ltac:(apply send_ensures; auto).
      apply ensures_throw; auto. }
    exfalso. apply find_some in Hr. destruct Hr as [_ Hp].
    unfold ConfigWizard.passesFilter in Hp. cbn [existsb] in Hp.
    rewrite E1, E2, E3, E4, E5 in Hp. discriminate.
Qed.

End Configure.

(** Tasks in sequence, by the store and the result of the first. *)
Lemma seq_steady {S T} (m : Task.t S) (f : S -> Task.t T) (a : S) (db X : Store)
    (Y : Result T) :
  store (m db) = db /\ result (m db) = Resolved a ->
  store (f a db) = X /\ result (f a db) = Y ->
  store (bind m f db) = X /\ result (bind m f db) = Y.
Proof.
  unfold bind, store, result. intros [H1 H2] [H3 H4].
  rewrite H2, H1. cbn [fst snd]. auto.
Qed.

Lemma seq_resolved {S T} (m : Task.t S) (f : S -> Task.t T) (a : S) (db db' X : Store)
    (Y : Result T) :
  store (m db) = db' /\ result (m db) = Resolved a ->
  store (f a db') = X /\ result (f a db') = Y ->
  store (bind m f db) = X /\ result (bind m f db) = Y.
Proof.
  unfold bind, store, result. intros [H1 H2] [H3 H4].
  rewrite H2, H1. cbn [fst snd]. auto.
Qed.

Lemma seq_thrown {S T} (m : Task.t S) (f : S -> Task.t T) (e : Thrown) (db X : Store) :
  store (m db) = X /\ result (m db) = Threw e ->
  store (bind m f db) = X /\ result (bind m f db) = Threw e.
Proof.
  unfold bind, store, result. intros [H1 H2]. rewrite H2, H1. cbn [fst snd]. auto.
Qed.

Lemma then_ret {S T} (m : Task.t S) (a : S) (b : T) (db db' : Store) :
  store (m db) = db' /\ result (m db) = Resolved a ->
  store (bind m (fun _ => ret b) db) = db'
  /\ result (bind m (fun _ => ret b) db) = Resolved b.
Proof.
  unfold bind, ret, store, result. intros [H1 H2]. rewrite H2, H1. cbn [fst snd]. auto.
Qed.

Section Steady.
Variable A : Admin.
Variable g : Discord.Guild.

Lemma send_steady (guildMember : Discord.GuildMember) (msg : DirectMessage) (db : Store) :
  dmRejects A = None ->
  store (ConfigWizard.send A guildMember msg db) = db
  /\ result (ConfigWizard.send A guildMember msg db) = Resolved tt.
Proof. intros H. unfold ConfigWizard.send. rewrite H. split; reflexivity. Qed.

Lemma react_steady (emoji : string) (db : Store) :
  reactRejects A emoji = None ->
  store (ConfigWizard.react A emoji db) = db
  /\ result (ConfigWizard.react A emoji db) = Resolved tt.
Proof. intros H. unfold ConfigWizard.react. rewrite H. split; reflexivity. Qed.

Lemma tellAboutDM_steady (db : Store) :
  store (ConfigWizard.tellAboutDM A db) = db
  /\ result (ConfigWizard.tellAboutDM A db) = Resolved tt.
Proof.
  unfold ConfigWizard.tellAboutDM. destruct (ctxSendRejects A HeyISentYouADM);
    split; reflexivity.
Qed.

Lemma awaitReactions_steady (arriving : list IncomingReaction) (r : IncomingReaction)
    (db : Store) :
  find ConfigWizard.passesFilter arriving = Some r ->
  store (ConfigWizard.awaitReactions arriving db) = db
  /\ result (ConfigWizard.awaitReactions arriving db) = Resolved r.
Proof. intros H. unfold ConfigWizard.awaitReactions. rewrite H. split; reflexivity. Qed.

Lemma addRoles_resolved (roles : list Discord.Role) (t : SpamFilterConfigType)
    (db : Store) :
  store (ConfigWizard.addRolesToUsernameSpamFilter g roles t db)
  = fst (ConfigSpamFilter.addRolesToUsernameSpamFilter g db roles t)
  /\ result (ConfigWizard.addRolesToUsernameSpamFilter g roles t db) = Resolved tt.
Proof.
  unfold ConfigWizard.addRolesToUsernameSpamFilter, call, store, result. cbn [fst snd].
  rewrite addRoles_outcome. split; reflexivity.
Qed.

Lemma removeRoles_resolved (roles : list Discord.Role) (t : SpamFilterConfigType)
    (db : Store) :
  store (ConfigWizard.removeRolesFromUsernameSpamFilter A g roles t db)
  = store (ConfigWizard.removeRolesFromUsernameSpamFilter A g roles t db)
  /\ result (ConfigWizard.removeRolesFromUsernameSpamFilter A g roles t db) = Resolved tt.
Proof. split; [reflexivity | apply removeRoles_result]. Qed.

End Steady.

(** The calls of the dialogue and what it throws. *)
Lemma configure_classified (A : Admin) (g : Discord.Guild)
    (guildMember : Discord.GuildMember) (roles : list (option string))
    (arriving : list IncomingReaction) :
  Derived.ensures (fun _ _ => True) Derived.dialogueCall
    (fun e =>
       (e = ValidationError
              "Sorry, only discord admins and managers can configure spam filter settings."
        /\ Derived.authorized A guildMember = false)
       \/ (e = ValidationError "Please re-initiate spam-filter configuration."
           /\ Derived.chosen A g guildMember roles arriving ConfigWizard.edit)
       \/ exists s, e = Failure s)
    (fun _ => True)
    (ConfigWizard.configure A g guildMember roles arriving).
Proof.
  apply configure_ensures; auto.
  intros s. right. right. exists s. reflexivity.
Qed.

(** The calls and the result of tasks in sequence. *)
Lemma calls_bind {S T} (m : Task.t S) (f : S -> Task.t T) (db : Store) :
  calls (bind m f db)
  = calls (m db) ++ match result (m db) with
                    | Resolved a => calls (f a (store (m db)))
                    | Threw _ => []
                    end.
Proof.
  unfold bind, calls, result, store. destruct (snd (snd (m db))); cbn [fst snd];
    [reflexivity | rewrite app_nil_r; reflexivity].
Qed.

Lemma result_bind {S T} (m : Task.t S) (f : S -> Task.t T) (db : Store) :
  result (bind m f db)
  = match result (m db) with
    | Resolved a => result (f a (store (m db)))
    | Threw e => Threw e
    end.
Proof.
  unfold bind, calls, result, store. destruct (snd (snd (m db))); reflexivity.
Qed.

(** A task none of whose calls is a [ctx.send]. *)
Lemma quiet_calls {S} (E : Thrown -> Prop) (Q : S -> Prop) (t : Task.t S) (db : Store) :
  Derived.ensures (fun _ _ => True) (fun c => negb (Derived.isCtxSend c)) E Q t ->
  filter Derived.isCtxSend (calls (t db)) = [].
Proof.
  intros H. destruct (H db) as (_ & Hc & _).
  induction (calls (t db)) as [|c l IH]; [reflexivity|]. cbn [forallb filter] in *.
  apply andb_true_iff in Hc. destruct Hc as [Ha Hl]. apply negb_true_iff in Ha.
  rewrite Ha. auto.
Qed.

Lemma tellAboutDM_notice (A : Admin) (db : Store) :
  filter Derived.isCtxSend (calls (ConfigWizard.tellAboutDM A db))
  = [CtxSend HeyISentYouADM].
Proof.
  unfold ConfigWizard.tellAboutDM. destruct (ctxSendRejects A HeyISentYouADM); reflexivity.
Qed.

Section Notice.
Variable A : Admin.
Variable g : Discord.Guild.
Variable guildMember : Discord.GuildMember.
Variable roles : list (option string).
Variable arriving : list IncomingReaction.

Local Abbreviation quiet := (fun c : Call => negb (Derived.isCtxSend c)).
Local Abbreviation anything := (fun _ : Store => fun _ : Store => True).
Local Abbreviation whatever := (fun _ : Thrown => True).

Ltac quietly L := apply ensures_seq; [auto | L | intros ?].

Lemma quiet_dialogue (c : Call) :
  Derived.dialogueCall c = true -> Derived.isCtxSend c = false -> quiet c = true.
Proof. intros _ H. cbv beta. rewrite H. reflexivity. Qed.

(** Of the messages in the channel the dialogue sends the notice of the
    direct message, once, unless it throws before. *)
Lemma configure_notice (db : Store) :
  filter Derived.isCtxSend
    (calls (ConfigWizard.configure A g guildMember roles arriving db))
  = [CtxSend HeyISentYouADM]
  \/ (filter Derived.isCtxSend
        (calls (ConfigWizard.configure A g guildMember roles arriving db)) = []
      /\ exists e,
           result (ConfigWizard.configure A g guildMember roles arriving db) = Threw e).
Proof.
  pose proof quiet_dialogue as Hq.
  unfold ConfigWizard.configure.
  destruct (negb (isDiscordAdmin A guildMember || isDiscordServerManager A guildMember)).
  { right. split; [reflexivity | eexists; reflexivity]. }
  destruct (N.of_nat (List.length (retrieveRoles A g roles)) =? 0)%N.
  - left. rewrite calls_bind, filter_app, tellAboutDM_notice.
    destruct (tellAboutDM_steady A db) as [Hst Hres]. rewrite Hres, Hst.
    erewrite (quiet_calls whatever (fun _ => True)); [reflexivity|].
    quietly ltac:(apply getRoles_ensures; auto).
    apply send_ensures; auto.
  - rewrite calls_bind, filter_app, result_bind.
    erewrite (quiet_calls whatever (fun _ => True)); [|apply send_ensures; auto].
    destruct (result (ConfigWizard.send A guildMember
                        (Question (retrieveRoles A g roles)) db)) as [u|e];
      [left | right; split; [reflexivity | eexists; reflexivity]].
    cbn [app]. rewrite calls_bind, filter_app, tellAboutDM_notice.
    match goal with
    | |- context [result (ConfigWizard.tellAboutDM A ?d)] =>
        destruct (tellAboutDM_steady A d) as [Hst Hres]; rewrite Hres, Hst
    end.
    erewrite (quiet_calls whatever (fun _ => True)); [reflexivity|].
    do 5 (quietly ltac:(apply react_ensures; auto)).
    apply ensures_bind
      with (P := fun r => find ConfigWizard.passesFilter arriving = Some r);
      [auto | apply awaitReactions_ensures; auto | intros r Hr].
    quietly idtac; [|apply send_ensures; auto].
    destruct (String.eqb (emoji_name r) ConfigWizard.protectRoles) eqn:E1.
    { quietly ltac:(apply addRoles_ensures; auto). apply ensures_ret; auto. }
    destruct (String.eqb (emoji_name r) ConfigWizard.unprotectRoles) eqn:E2.
    { quietly ltac:(apply removeRoles_ensures; auto). apply ensures_ret; auto. }
    destruct (String.eqb (emoji_name r) ConfigWizard.addToAllowlist) eqn:E3.
    { quietly ltac:(apply addRoles_ensures; auto). apply ensures_ret; auto. }
    destruct (String.eqb (emoji_name r) ConfigWizard.removeFromAllowlist) eqn:E4.
    { quietly ltac:(apply removeRoles_ensures; auto). apply ensures_ret; auto. }
    destruct (String.eqb (emoji_name r) ConfigWizard.edit) eqn:E5.
    { quietly ltac:(apply send_ensures; auto). apply ensures_throw; auto. }
    exfalso. apply find_some in Hr. destruct Hr as [_ Hp].
    unfold ConfigWizard.passesFilter in Hp. cbn [existsb] in Hp.
    rewrite E1, E2, E3, E4, E5 in Hp. discriminate.
Qed.

End Notice.

End DialogueFacts.

Module WizardLaws.
Import StoreFacts StoreLawsFacts Task TaskFacts WizardFacts DialogueFacts.

Local Abbreviation configure := ConfigWizard.configure.
Local Abbreviation add := ConfigSpamFilter.addRolesToUsernameSpamFilter.
Local Abbreviation remove := ConfigWizard.removeRolesFromUsernameSpamFilter.

(** [getRolesFromUsernameSpamFilter] reads the collection once and
    leaves it as it is; the embed lists, in the order of the collection,
    the names of the protected-role records of the guild's server and
    then the names of its allowlist-role records, ['None'] standing for
    an empty list; allowlisted users and the records of other servers
    are not shown. *)
Theorem getRolesFromUsernameSpamFilter_lists (g : Discord.Guild) (db : Store) :
  ConfigWizard.getRolesFromUsernameSpamFilter g db
  = (db,
     ([DbFindServer (Discord.guild_id g)],
      Resolved
        {| title := "Username Spam Filter Configuration";
           description :=
             ("**Roles protected by filter:**" ++ ConfigWizard.NL
              ++ ConfigWizard.rolesString
                   (map discordObjectName (filter (Derived.inScope g PROTECTED_ROLE) db))
              ++ ConfigWizard.NL
              ++ "**Roles on allowlist:**" ++ ConfigWizard.NL
              ++ ConfigWizard.rolesString
                   (map discordObjectName (filter (Derived.inScope g ALLOWLIST_ROLE) db)))
               %string |})).
Proof.
  unfold ConfigWizard.getRolesFromUsernameSpamFilter, bind, emit, read, ret.
  cbn [fst snd app]. rewrite collect_fold. cbn [fst snd app].
  rewrite !filter_inScope. reflexivity.
Qed.

Section Dialogue.
Variable A : Admin.
Variable g : Discord.Guild.
Variable guildMember : Discord.GuildMember.
Variable roles : list (option string).
Variable arriving : list IncomingReaction.

Local Abbreviation chose := (Derived.chosen A g guildMember roles arriving).
Local Abbreviation resolved := (retrieveRoles A g roles).

(** Whatever the administrator chooses and whatever Discord or the
    driver reject, the dialogue leaves every record that is not a
    protected role or an allowlist role of the guild's server where it
    was (allowlisted users, other servers), and keeps the keys of the
    store unique. *)
Theorem configure_keeps_other_records (db : Store) :
  filter (fun c => negb (Derived.isRoleRecord g c))
         (store (configure A g guildMember roles arriving db))
  = filter (fun c => negb (Derived.isRoleRecord g c)) db
  /\ (Spec.uniqueKeys db = true ->
      Spec.uniqueKeys (store (configure A g guildMember roles arriving db)) = true).
Proof.
  set (keep := fun c => negb (Derived.isRoleRecord g c)).
  set (I := fun a b : Store =>
              filter keep b = filter keep a
              /\ (Spec.uniqueKeys a = true -> Spec.uniqueKeys b = true)).
  assert (Hk : forall t, t = PROTECTED_ROLE \/ t = ALLOWLIST_ROLE ->
               forall c, Derived.inScope g t c = true -> keep c = false).
  { intros t Ht c Hc. unfold keep, Derived.isRoleRecord.
    destruct Ht as [-> | ->]; rewrite Hc; [reflexivity | apply negb_false_iff, orb_true_r]. }
  assert (Hadd : forall t, t = PROTECTED_ROLE \/ t = ALLOWLIST_ROLE ->
                 forall d, I d (fst (add g d resolved t))).
  { intros t Ht d. split.
    - apply addRoles_keeps. apply Hk. exact Ht.
    - intros Hu. rewrite addRoles_store. apply insertUnordered_unique. exact Hu. }
  assert (Hrem : forall t, t = PROTECTED_ROLE \/ t = ALLOWLIST_ROLE ->
                 forall d, I d (store (remove A g resolved t d))).
  { intros t Ht d. rewrite removeRoles_store.
    apply deleteEach_keeps. apply Hk. exact Ht. }
  refine (proj1 (configure_ensures A g guildMember roles arriving I (fun _ => true)
                   (fun _ => True) _ _ _ _ _ _ _ _ _ _ db)); auto.
  - intros d. split; auto.
  - intros a b c [H1 H2] [H3 H4]. split; [congruence | auto].
Qed.

(** The dialogue makes no call but those of the driver, direct messages
    and reactions, the notice in the channel and the error log.  It
    throws a [ValidationError] in two cases only: the member may not
    configure the filter, or the first accepted reaction is the edit
    emoji; everything else it throws is a rejection of Discord or of the
    driver.  The branch that asks to approve or deny access is never
    taken. *)
Theorem configure_throws (db : Store) :
  forallb Derived.dialogueCall (calls (configure A g guildMember roles arriving db)) = true
  /\ (forall e,
        result (configure A g guildMember roles arriving db) = Threw e ->
        (e = ValidationError
               "Sorry, only discord admins and managers can configure spam filter settings."
         /\ Derived.authorized A guildMember = false)
        \/ (e = ValidationError "Please re-initiate spam-filter configuration."
            /\ chose ConfigWizard.edit)
        \/ exists s, e = Failure s)
  /\ result (configure A g guildMember roles arriving db)
     <> Threw (ValidationError "Please approve or deny access.").
Proof.
  destruct (configure_classified A g guildMember roles arriving db) as (_ & H2 & H3).
  split; [exact H2|].
  destruct (result (configure A g guildMember roles arriving db)) as [u|e'].
  - split; [intros e X; discriminate | discriminate].
  - split.
    + intros e X. injection X as <-. exact H3.
    + intros X. injection X as ->.
      destruct H3 as [[X _] | [[X _] | [s X]]]; discriminate.
Qed.

(** The dialogue changes the store only when the administrator chose
    one of the four operations: when the member may not configure the
    filter, no role was resolved, no accepted reaction arrived in time,
    or the first accepted reaction is the edit emoji, the store is as it
    was. *)
Theorem configure_changes_nothing (db : Store) :
  ~ chose ConfigWizard.protectRoles ->
  ~ chose ConfigWizard.unprotectRoles ->
  ~ chose ConfigWizard.addToAllowlist ->
  ~ chose ConfigWizard.removeFromAllowlist ->
  store (configure A g guildMember roles arriving db) = db.
Proof.
  intros H1 H2 H3 H4.
  refine (proj1 (configure_ensures A g guildMember roles arriving (fun a b => b = a)
                   (fun _ => true) (fun _ => True) _ _ _ _ _ _ _ _ _ _ db));
    auto; try (intros; congruence); intros; contradiction.
Qed.

(** When no direct message and no reaction of the bot is rejected, the
    dialogue applies the operation of the first accepted reaction to
    the resolved roles: the store is the one
    [addRolesToUsernameSpamFilter] or [removeRolesFromUsernameSpamFilter]
    leaves, with the object type of the emoji, and the dialogue
    resolves, also when the driver rejected a record or a [deleteOne];
    on the edit emoji the store is as it was and the dialogue throws the
    [ValidationError] that asks to start again. *)
Theorem configure_applies_choice (db : Store) (reaction : IncomingReaction) :
  Derived.authorized A guildMember = true ->
  resolved <> [] ->
  dmRejects A = None ->
  (forall emoji, reactRejects A emoji = None) ->
  find ConfigWizard.passesFilter arriving = Some reaction ->
  (emoji_name reaction = ConfigWizard.protectRoles ->
   store (configure A g guildMember roles arriving db)
   = fst (add g db resolved PROTECTED_ROLE)
   /\ result (configure A g guildMember roles arriving db) = Resolved tt)
  /\ (emoji_name reaction = ConfigWizard.unprotectRoles ->
      store (configure A g guildMember roles arriving db)
      = store (remove A g resolved PROTECTED_ROLE db)
      /\ result (configure A g guildMember roles arriving db) = Resolved tt)
  /\ (emoji_name reaction = ConfigWizard.addToAllowlist ->
      store (configure A g guildMember roles arriving db)
      = fst (add g db resolved ALLOWLIST_ROLE)
      /\ result (configure A g guildMember roles arriving db) = Resolved tt)
  /\ (emoji_name reaction = ConfigWizard.removeFromAllowlist ->
      store (configure A g guildMember roles arriving db)
      = store (remove A g resolved ALLOWLIST_ROLE db)
      /\ result (configure A g guildMember roles arriving db) = Resolved tt)
  /\ (emoji_name reaction = ConfigWizard.edit ->
      store (configure A g guildMember roles arriving db) = db
      /\ result (configure A g guildMember roles arriving db)
         = Threw (ValidationError "Please re-initiate spam-filter configuration.")).
Proof.
  intros Hauth Hne Hdm Hreact Hfind.
  assert (Hlen : (N.of_nat (List.length resolved) =? 0)%N = false).
  { destruct resolved; [congruence | reflexivity]. }
  unfold ConfigWizard.configure. fold (Derived.authorized A guildMember).
  rewrite Hauth, Hlen. cbv beta iota delta [negb].
  assert (N21 : String.eqb ConfigWizard.unprotectRoles ConfigWizard.protectRoles = false)
    by reflexivity.
  assert (N31 : String.eqb ConfigWizard.addToAllowlist ConfigWizard.protectRoles = false)
    by reflexivity.
  assert (N32 : String.eqb ConfigWizard.addToAllowlist ConfigWizard.unprotectRoles = false)
    by reflexivity.
  assert (N41 : String.eqb ConfigWizard.removeFromAllowlist ConfigWizard.protectRoles
                = false) by reflexivity.
  assert (N42 : String.eqb ConfigWizard.removeFromAllowlist ConfigWizard.unprotectRoles
                = false) by reflexivity.
  assert (N43 : String.eqb ConfigWizard.removeFromAllowlist ConfigWizard.addToAllowlist
                = false) by reflexivity.
  assert (N51 : String.eqb ConfigWizard.edit ConfigWizard.protectRoles = false)
    by reflexivity.
  assert (N52 : String.eqb ConfigWizard.edit ConfigWizard.unprotectRoles = false)
    by reflexivity.
  assert (N53 : String.eqb ConfigWizard.edit ConfigWizard.addToAllowlist = false)
    by reflexivity.
  assert (N54 : String.eqb ConfigWizard.edit ConfigWizard.removeFromAllowlist = false)
    by reflexivity.
  (split; [|split; [|split; [|split]]]); intros He;
    (apply seq_steady with (a := tt); [apply send_steady; exact Hdm|]);
    (apply seq_steady with (a := tt); [apply tellAboutDM_steady|]);
    do 5 (apply seq_steady with (a := tt); [apply react_steady; apply Hreact|]);
    (apply seq_steady with (a := reaction); [apply awaitReactions_steady; exact Hfind|]);
    rewrite He;
    rewrite ?String.eqb_refl, ?N21, ?N31, ?N32, ?N41, ?N42, ?N43, ?N51, ?N52, ?N53, ?N54;
    cbv beta iota.
  - eapply seq_resolved; [apply then_ret with (a := tt); apply addRoles_resolved|].
    apply send_steady. exact Hdm.
  - eapply seq_resolved; [apply then_ret with (a := tt); apply removeRoles_resolved|].
    apply send_steady. exact Hdm.
  - eapply seq_resolved; [apply then_ret with (a := tt); apply addRoles_resolved|].
    apply send_steady. exact Hdm.
  - eapply seq_resolved; [apply then_ret with (a := tt); apply removeRoles_resolved|].
    apply send_steady. exact Hdm.
  - apply seq_thrown. apply seq_steady with (a := tt); [apply send_steady; exact Hdm|].
    split; reflexivity.
Qed.

End Dialogue.

(** A bot reacts with the protect emoji and the administrator with the
    edit emoji: the store stays as it was. *)
Lemma configure_changes_nothing_edit :
  store (configure MoreExamples.discord (guild Examples.bankless) MoreExamples.admin
           [Some "guest"%string]
           [MoreExamples.byBot ConfigWizard.protectRoles;
            MoreExamples.byUser ConfigWizard.edit]
           Examples.configured)
  = Examples.configured.
Proof.
  apply configure_changes_nothing;
    intros (_ & _ & r & Hr & He); vm_compute in Hr; injection Hr as <-;
    vm_compute in He; discriminate He.
Defined.

(** The administrator reacts with the protect emoji after a bot reacted
    with the unprotect emoji: [guest] is protected. *)
Lemma configure_applies_choice_protect :
  store (configure MoreExamples.discord (guild Examples.bankless) MoreExamples.admin
           [Some "guest"%string]
           [MoreExamples.byBot ConfigWizard.unprotectRoles;
            MoreExamples.byUser ConfigWizard.protectRoles]
           Examples.configured)
  = fst (add (guild Examples.bankless) Examples.configured [Examples.guest] PROTECTED_ROLE).
Proof.
  refine (proj1 (proj1 (configure_applies_choice MoreExamples.discord
                          (guild Examples.bankless) MoreExamples.admin
                          [Some "guest"%string]
                          [MoreExamples.byBot ConfigWizard.unprotectRoles;
                           MoreExamples.byUser ConfigWizard.protectRoles]
                          Examples.configured
                          (MoreExamples.byUser ConfigWizard.protectRoles)
                          _ _ _ _ _) _)).
  - reflexivity.
  - discriminate.
  - reflexivity.
  - intros emoji. reflexivity.
  - reflexivity.
  - reflexivity.
Defined.

End WizardLaws.

(* ================================================================== *)
(** * The [/spam-filter] command *)

Module CommandFacts.
Import Task TaskFacts DialogueFacts.

(** What [handleCommandError] chains to the command never throws. *)
Lemma handleCommandError_result (A : Admin) (command : Task.t unit) (db : Store) :
  snd (snd (SpamFilterCommand.handleCommandError A command db)) = Resolved tt.
Proof.
  unfold SpamFilterCommand.handleCommandError.
  match goal with |- snd (snd (catch ?m _ db)) = _ => set (inner := m) end.
  unfold catch at 1.
  destruct (snd (snd (inner db))) as [[]|e] eqn:E; [exact E | reflexivity].
Qed.

Lemma dialogueCall_handled (l : list Call) :
  forallb Derived.dialogueCall l = true ->
  forall e, ~ In (UnhandledRejection e) l.
Proof.
  induction l as [|c l IH]; [cbn; auto|]. cbn [forallb].
  intros H. apply andb_true_iff in H. destruct H as [Hc Hl].
  intros e [X | X]; [subst c; discriminate | exact (IH Hl e X)].
Qed.

(** Tasks in sequence and handlers, by what the first task gave. *)
Lemma bind_resolved_eq {S T} (m : Task.t S) (f : S -> Task.t T) (db d : Store)
    (cs : list Call) (a : S) :
  m db = (d, (cs, Resolved a)) ->
  bind m f db = (store (f a d), (cs ++ calls (f a d), result (f a d))).
Proof. intros H. unfold bind. rewrite H. reflexivity. Qed.

Lemma bind_threw_eq {S T} (m : Task.t S) (f : S -> Task.t T) (db d : Store)
    (cs : list Call) (e : Thrown) :
  m db = (d, (cs, Threw e)) -> bind m f db = (d, (cs, Threw e)).
Proof. intros H. unfold bind. rewrite H. reflexivity. Qed.

Lemma catch_resolved_eq {S} (m : Task.t S) (h : Thrown -> Task.t S) (db d : Store)
    (cs : list Call) (a : S) :
  m db = (d, (cs, Resolved a)) -> catch m h db = (d, (cs, Resolved a)).
Proof. intros H. unfold catch. rewrite H. reflexivity. Qed.

Lemma catch_threw_eq {S} (m : Task.t S) (h : Thrown -> Task.t S) (db d : Store)
    (cs : list Call) (e : Thrown) :
  m db = (d, (cs, Threw e)) ->
  catch m h db = (store (h e d), (cs ++ calls (h e d), result (h e d))).
Proof. intros H. unfold catch. rewrite H. reflexivity. Qed.

Lemma reply_eq (A : Admin) (text : string) (d : Store) :
  SpamFilterCommand.reply A text d
  = (d, ([CtxSend (ReplyText text)],
         match ctxSendRejects A (ReplyText text) with
         | Some e => Threw (Failure e)
         | None => Resolved tt
         end)).
Proof.
  unfold SpamFilterCommand.reply. unfold bind, emit, throw, ret. cbn [fst snd].
  destruct (ctxSendRejects A (ReplyText text)); reflexivity.
Qed.

Section Handled.
Variable A : Admin.
Variable command : Task.t unit.
Variable db : Store.

Local Abbreviation success := "Successfully configured username spam filter."%string.
Local Abbreviation apology :=
  "Sorry something is not working and our devs are looking into it."%string.
Local Abbreviation failed := "failed to handle spam-filter command"%string.

(** The promise chain of [handleCommandError], call by call: the
    answer in [then], what [catch] does with what the command or the
    answer rejected with, and the rejection nothing handles. *)
Lemma handleCommandError_chain :
  SpamFilterCommand.handleCommandError A command db
  = (store (command db),
     (calls (command db)
      ++ match result (command db) with
         | Resolved _ =>
             CtxSend (ReplyText success)
             :: match ctxSendRejects A (ReplyText success) with
                | None => []
                | Some e =>
                    LogError failed (Failure e)
                    :: CtxSend (ReplyText apology)
                    :: match ctxSendRejects A (ReplyText apology) with
                       | None => []
                       | Some e' => [UnhandledRejection (Failure e')]
                       end
                end
         | Threw (ValidationError message) | Threw (EarlyTermination message) =>
             CtxSend (ReplyText message)
             :: match ctxSendRejects A (ReplyText message) with
                | None => []
                | Some e => [UnhandledRejection (Failure e)]
                end
         | Threw (Failure s) =>
             LogError failed (Failure s)
             :: CtxSend (ReplyText apology)
             :: match ctxSendRejects A (ReplyText apology) with
                | None => []
                | Some e => [UnhandledRejection (Failure e)]
                end
         end,
      Resolved tt)).
Proof.
  unfold SpamFilterCommand.handleCommandError.
  destruct (command db) as [d [cs res]] eqn:Ec.
  unfold store at 1, calls at 1, result at 1. cbn [fst snd].
  assert (Hsorry : forall x,
             (bind (emit (LogError failed x))
                   (fun _ => SpamFilterCommand.reply A apology)) d
             = (d, ([LogError failed x; CtxSend (ReplyText apology)],
                    match ctxSendRejects A (ReplyText apology) with
                    | Some e => Threw (Failure e)
                    | None => Resolved tt
                    end))).
  { intros x. erewrite bind_resolved_eq; [|reflexivity]. rewrite reply_eq. reflexivity. }
  destruct res as [[]|[msg|msg|s]].
  - pose proof (bind_resolved_eq command
                  (fun _ => SpamFilterCommand.reply A success) db d cs tt Ec) as H1.
    cbv beta in H1. rewrite reply_eq in H1. cbn [store calls result fst snd] in H1.
    destruct (ctxSendRejects A (ReplyText success)) as [e|].
    + destruct (ctxSendRejects A (ReplyText apology)) as [e'|].
      * erewrite catch_threw_eq;
          [|erewrite catch_threw_eq; [|exact H1]; cbv beta iota; rewrite Hsorry;
            cbn [store calls result fst snd]; reflexivity].
        cbn [store calls result fst snd emit]. rewrite <- !app_assoc. reflexivity.
      * erewrite catch_resolved_eq;
          [|erewrite catch_threw_eq; [|exact H1]; cbv beta iota; rewrite Hsorry;
            cbn [store calls result fst snd]; reflexivity].
        rewrite <- !app_assoc. reflexivity.
    + erewrite catch_resolved_eq; [|erewrite catch_resolved_eq; [reflexivity | exact H1]].
      reflexivity.
  - pose proof (bind_threw_eq command
                  (fun _ => SpamFilterCommand.reply A success) db d cs _ Ec) as H1.
    destruct (ctxSendRejects A (ReplyText msg)) as [e|] eqn:R.
    + erewrite catch_threw_eq;
        [|erewrite catch_threw_eq; [|exact H1]; cbv beta iota; rewrite reply_eq, R;
          cbn [store calls result fst snd]; reflexivity].
      cbn [store calls result fst snd emit]. rewrite <- !app_assoc. reflexivity.
    + erewrite catch_resolved_eq;
        [|erewrite catch_threw_eq; [|exact H1]; cbv beta iota; rewrite reply_eq, R;
          cbn [store calls result fst snd]; reflexivity].
      reflexivity.
  - pose proof (bind_threw_eq command
                  (fun _ => SpamFilterCommand.reply A success) db d cs _ Ec) as H1.
    destruct (ctxSendRejects A (ReplyText msg)) as [e|] eqn:R.
    + erewrite catch_threw_eq;
        [|erewrite catch_threw_eq; [|exact H1]; cbv beta iota; rewrite reply_eq, R;
          cbn [store calls result fst snd]; reflexivity].
      cbn [store calls result fst snd emit]. rewrite <- !app_assoc. reflexivity.
    + erewrite catch_resolved_eq;
        [|erewrite catch_threw_eq; [|exact H1]; cbv beta iota; rewrite reply_eq, R;
          cbn [store calls result fst snd]; reflexivity].
      reflexivity.
  - pose proof (bind_threw_eq command
                  (fun _ => SpamFilterCommand.reply A success) db d cs _ Ec) as H1.
    specialize (Hsorry (Failure s)).
    destruct (ctxSendRejects A (ReplyText apology)) as [e|].
    + erewrite catch_threw_eq;
        [|erewrite catch_threw_eq; [|exact H1]; cbv beta iota; rewrite Hsorry;
          cbn [store calls result fst snd]; reflexivity].
      cbn [store calls result fst snd emit]. rewrite <- !app_assoc. reflexivity.
    + erewrite catch_resolved_eq;
        [|erewrite catch_threw_eq; [|exact H1]; cbv beta iota; rewrite Hsorry;
          cbn [store calls result fst snd]; reflexivity].
      reflexivity.
Qed.

End Handled.

(** [run] for a user in a guild whose member is resolved. *)
Lemma run_member (A : Admin) (g : Discord.Guild) (ctx : SpamFilterCommand.CommandContext)
    (arriving : list IncomingReaction) (gid : string) (m : Discord.GuildMember)
    (db : Store) :
  SpamFilterCommand.user_bot ctx = false ->
  SpamFilterCommand.guildID ctx = Some gid ->
  SpamFilterCommand.guildAndMember ctx = Some m ->
  SpamFilterCommand.run A g ctx arriving db
  = (store (SpamFilterCommand.handleCommandError A
              (ConfigWizard.configure A g m
                 [SpamFilterCommand.role_1 ctx; SpamFilterCommand.role_2 ctx;
                  SpamFilterCommand.role_3 ctx] arriving) db),
     (LogCommandStart
        :: calls (SpamFilterCommand.handleCommandError A
                    (ConfigWizard.configure A g m
                       [SpamFilterCommand.role_1 ctx; SpamFilterCommand.role_2 ctx;
                        SpamFilterCommand.role_3 ctx] arriving) db),
      Resolved None)).
Proof.
  intros Hbot Hgid Hm. unfold SpamFilterCommand.run. rewrite Hbot, Hgid, Hm.
  cbv beta iota delta [orb].
  pose proof (handleCommandError_result A
                (ConfigWizard.configure A g m
                   [SpamFilterCommand.role_1 ctx; SpamFilterCommand.role_2 ctx;
                    SpamFilterCommand.role_3 ctx] arriving) db) as Hr.
  unfold bind, emit, ret, store, calls, result. cbn [fst snd].
  rewrite Hr. cbn [fst snd app]. rewrite app_nil_r. reflexivity.
Qed.

End CommandFacts.

Module CommandLaws.
Import Task TaskFacts DialogueFacts CommandFacts.

Section Command.
Variable A : Admin.
Variable g : Discord.Guild.
Variable ctx : SpamFilterCommand.CommandContext.
Variable arriving : list IncomingReaction.

Local Abbreviation run := (SpamFilterCommand.run A g ctx arriving).
Local Abbreviation options :=
  [SpamFilterCommand.role_1 ctx; SpamFilterCommand.role_2 ctx; SpamFilterCommand.role_3 ctx].
Local Abbreviation success := "Successfully configured username spam filter."%string.
Local Abbreviation apology :=
  "Sorry something is not working and our devs are looking into it."%string.
Local Abbreviation failed := "failed to handle spam-filter command"%string.

(** No failure of the dialogue reaches the caller of [run]: [run] throws
    only when [getGuildAndMember] rejects, and then nothing was changed;
    for a bot or outside a guild it answers with the hint and does
    nothing else; in every other case it resolves with [undefined]. *)
Theorem run_contains_errors (db : Store) :
  match result (run db) with
  | Threw e =>
      SpamFilterCommand.guildAndMember ctx = None
      /\ e = Failure "getGuildAndMember" /\ store (run db) = db
  | Resolved (Some text) =>
      (SpamFilterCommand.user_bot ctx = true \/ SpamFilterCommand.guildID ctx = None)
      /\ text = "Please try /spam-filter within discord channel."%string
      /\ calls (run db) = [LogCommandStart] /\ store (run db) = db
  | Resolved None =>
      SpamFilterCommand.user_bot ctx = false
      /\ SpamFilterCommand.guildID ctx <> None
      /\ SpamFilterCommand.guildAndMember ctx <> None
  end.
Proof.
  unfold SpamFilterCommand.run, bind, emit, ret, throw, store, calls, result.
  cbn [fst snd].
  destruct (SpamFilterCommand.user_bot ctx); cbn [orb fst snd]; [auto 6|].
  destruct (SpamFilterCommand.guildID ctx); cbn [fst snd]; [|auto 6].
  destruct (SpamFilterCommand.guildAndMember ctx) as [m|]; cbn [fst snd]; [|auto].
  rewrite handleCommandError_result. cbn [fst snd].
  repeat split; discriminate.
Qed.


(** A rejected answer is handled only when it is the answer in [then]:
    the rejection of the success text is logged as a failure of the
    command although the dialogue resolved, and the apology is sent; if
    that is delivered nothing is left unhandled.  A rejected answer of
    the [catch] handler, the apology or the text of a
    [ValidationError], is an unhandled rejection, the last call of the
    command. *)
Theorem run_answer_rejected (db : Store) (gid : string) (m : Discord.GuildMember) :
  SpamFilterCommand.user_bot ctx = false ->
  SpamFilterCommand.guildID ctx = Some gid ->
  SpamFilterCommand.guildAndMember ctx = Some m ->
  (forall e,
      result (ConfigWizard.configure A g m options arriving db) = Resolved tt ->
      ctxSendRejects A (ReplyText success) = Some e ->
      (ctxSendRejects A (ReplyText apology) = None ->
       calls (run db)
       = LogCommandStart
           :: calls (ConfigWizard.configure A g m options arriving db)
           ++ [CtxSend (ReplyText success); LogError failed (Failure e);
               CtxSend (ReplyText apology)])
      /\ (forall e',
            ctxSendRejects A (ReplyText apology) = Some e' ->
            calls (run db)
            = LogCommandStart
                :: calls (ConfigWizard.configure A g m options arriving db)
                ++ [CtxSend (ReplyText success); LogError failed (Failure e);
                    CtxSend (ReplyText apology); UnhandledRejection (Failure e')]))
  /\ (forall message e,
        result (ConfigWizard.configure A g m options arriving db)
        = Threw (ValidationError message) ->
        ctxSendRejects A (ReplyText message) = Some e ->
        calls (run db)
        = LogCommandStart
            :: calls (ConfigWizard.configure A g m options arriving db)
            ++ [CtxSend (ReplyText message); UnhandledRejection (Failure e)])
  /\ (forall s e,
        result (ConfigWizard.configure A g m options arriving db) = Threw (Failure s) ->
        ctxSendRejects A (ReplyText apology) = Some e ->
        calls (run db)
        = LogCommandStart
            :: calls (ConfigWizard.configure A g m options arriving db)
            ++ [LogError failed (Failure s); CtxSend (ReplyText apology);
                UnhandledRejection (Failure e)]).
Proof.
  intros Hbot Hgid Hm.
  rewrite (run_member A g ctx arriving gid m db Hbot Hgid Hm).
  rewrite (handleCommandError_chain A _ db).
  set (cfg := ConfigWizard.configure A g m options arriving db) in *.
  unfold calls at 1 3 5 7. cbn [fst snd].
  split; [|split].
  - intros e R He. rewrite R, He. split.
    + intros Ha. rewrite Ha. reflexivity.
    + intros e' Ha. rewrite Ha. reflexivity.
  - intros message e R He. rewrite R, He. reflexivity.
  - intros s e R He. rewrite R, He. reflexivity.
Qed.

End Command.


(** The same command when the success answer is rejected and the
    apology is delivered: the configuration is stored, the failure is
    logged, the apology is the last call; and in a channel the bot
    cannot write to, where the rejected apology is left unhandled. *)
Lemma run_answer_rejected_expiring :
  calls (SpamFilterCommand.run MoreExamples.expiring (guild Examples.bankless)
           (MoreExamples.ctx MoreExamples.admin (Some "guest"%string))
           [MoreExamples.byUser ConfigWizard.protectRoles] Examples.configured)
  = LogCommandStart
      :: calls (ConfigWizard.configure MoreExamples.expiring (guild Examples.bankless)
                  MoreExamples.admin [Some "guest"%string; None; None]
                  [MoreExamples.byUser ConfigWizard.protectRoles] Examples.configured)
      ++ [CtxSend (ReplyText "Successfully configured username spam filter.");
          LogError "failed to handle spam-filter command" (Failure "Unknown interaction");
          CtxSend (ReplyText
                     "Sorry something is not working and our devs are looking into it.")]
  /\ calls (SpamFilterCommand.run MoreExamples.muted (guild Examples.bankless)
              (MoreExamples.ctx MoreExamples.admin (Some "guest"%string))
              [MoreExamples.byUser ConfigWizard.protectRoles] Examples.configured)
     = LogCommandStart
         :: calls (ConfigWizard.configure MoreExamples.muted (guild Examples.bankless)
                     MoreExamples.admin [Some "guest"%string; None; None]
                     [MoreExamples.byUser ConfigWizard.protectRoles] Examples.configured)
         ++ [CtxSend (ReplyText "Successfully configured username spam filter.");
             LogError "failed to handle spam-filter command" (Failure "Missing Access");
             CtxSend (ReplyText
                        "Sorry something is not working and our devs are looking into it.");
             UnhandledRejection (Failure "Missing Access")].
Proof.
  split.
  - refine (proj1 (proj1 (run_answer_rejected MoreExamples.expiring
                            (guild Examples.bankless)
                            (MoreExamples.ctx MoreExamples.admin (Some "guest"%string))
                            [MoreExamples.byUser ConfigWizard.protectRoles]
                            Examples.configured Examples.serverId MoreExamples.admin
                            eq_refl eq_refl eq_refl)
                     "Unknown interaction"%string _ _) _); reflexivity.
  - refine (proj2 (proj1 (run_answer_rejected MoreExamples.muted
                            (guild Examples.bankless)
                            (MoreExamples.ctx MoreExamples.admin (Some "guest"%string))
                            [MoreExamples.byUser ConfigWizard.protectRoles]
                            Examples.configured Examples.serverId MoreExamples.admin
                            eq_refl eq_refl eq_refl)
                     "Missing Access"%string _ _) "Missing Access"%string _);
      reflexivity.
Defined.

End CommandLaws.

(* ================================================================== *)
(** * Further properties of the [userUpdate] handler *)

Module HandlerLaws.
Import JS JSFacts EngineFacts EngineLawsFacts.

Section Handler.
Variable U : Unicode.
Variable Confusables : jsstring -> option jsstring.
Variable c : UserUpdate.Client.

Local Abbreviation run :=
  (SpamFilter.runUsernameSpamFilter U Confusables (UserUpdate.world c)).

Lemma bind_trace {S T} (m : Promise S) (f : S -> Promise T) (ev : Event) :
  In ev (Async.trace (bind m f)) ->
  In ev (Async.trace m)
  \/ exists a, Async.outcome m = Returned a /\ In ev (Async.trace (f a)).
Proof.
  unfold bind, Async.trace, Async.outcome. destruct (snd m) as [a|e]; cbn [fst snd].
  - intros H. apply in_app_iff in H. destruct H; [left | right; exists a]; auto.
  - auto.
Qed.

Lemma catch_trace {S} (m : Promise S) (h : string -> Promise S) (ev : Event) :
  In ev (Async.trace (catch m h)) ->
  In ev (Async.trace m)
  \/ exists e, Async.outcome m = Rejected e /\ In ev (Async.trace (h e)).
Proof.
  unfold catch, Async.trace, Async.outcome. destruct (snd m) as [a|e]; cbn [fst snd].
  - auto.
  - intros H. apply in_app_iff in H. destruct H; [left | right; exists e]; auto.
Qed.

(** A body whose rejections are logged does not reject. *)
Lemma catch_logged (m : Promise unit) (log : string -> Event) :
  Async.outcome (catch m (fun e => emit (log e))) = Returned tt.
Proof.
  unfold catch, Async.outcome. destruct (snd m) as [[]|e] eqn:E; [exact E | reflexivity].
Qed.

Lemma fetchIfPartial_no_ban (u : UserUpdate.UserOrPartial) (m : Discord.GuildMember) :
  ~ In (MemberBan m) (Async.trace (UserUpdate.fetchIfPartial c u)).
Proof.
  destruct u as [u | userId]; cbn; [tauto|].
  destruct (find _ _); cbn; intros [H | []]; discriminate.
Qed.

(** The handler never rejects: an unknown user, a user who is not in
    the guild and a rejected evaluation all end in the log.  And it bans
    nobody but the guild member of the new user, and only when the
    username changed, [isBanklessDAO] accepts the guild and the engine
    returned [true] for that member. *)
Theorem execute_bans_changed_member (oldUser newUser : UserUpdate.UserOrPartial) :
  Async.outcome (UserUpdate.execute U Confusables c oldUser newUser) = Returned tt
  /\ forall m,
       In (MemberBan m)
          (Async.trace (UserUpdate.execute U Confusables c oldUser newUser)) ->
       exists o n,
         Async.outcome (UserUpdate.fetchIfPartial c oldUser) = Returned o
         /\ Async.outcome (UserUpdate.fetchIfPartial c newUser) = Returned n
         /\ Discord.username o <> Discord.username n
         /\ Spec.findMember (UserUpdate.world c) (Discord.id n) = Some m
         /\ UserUpdate.isBanklessDAO c (guild (UserUpdate.world c)) = true
         /\ Async.outcome (run m) = Returned true.
Proof.
  unfold UserUpdate.execute, ServiceUtils.getGuildMemberFromUser.
  split; [apply catch_logged|].
  intros m Hb. apply catch_trace in Hb.
  destruct Hb as [Hb | (e & _ & [Hb | []])]; [|discriminate].
  apply bind_trace in Hb.
  destruct Hb as [Hb | (o & Ho & Hb)]; [elim (fetchIfPartial_no_ban _ _ Hb)|].
  apply bind_trace in Hb.
  destruct Hb as [Hb | (n & Hn & Hb)]; [elim (fetchIfPartial_no_ban _ _ Hb)|].
  destruct (str_eqb (Discord.username o) (Discord.username n)) eqn:Hname;
    cbn [negb] in Hb; [destruct Hb|].
  assert (Hneq : Discord.username o <> Discord.username n).
  { intros X. apply str_eqb_eq in X. congruence. }
  apply bind_trace in Hb. rewrite membersFetch_eval in Hb.
  destruct (Spec.findMember (UserUpdate.world c) (Discord.id n)) as [gm|] eqn:Hgm;
    cbn [fst snd] in Hb.
  2:{ destruct Hb as [[Hb | []] | (a & Ha & _)]; discriminate. }
  destruct Hb as [[Hb | []] | (a & Ha & Hb)]; [discriminate|].
  injection Ha as <-.
  destruct (UserUpdate.isBanklessDAO c (guild (UserUpdate.world c))) eqn:Hdao;
    [|destruct Hb].
  apply bind_trace in Hb.
  destruct Hb as [Hb | (b & _ & Hb)]; [|destruct b; destruct Hb].
  apply (ban_attempted U Confusables (UserUpdate.world c) gm m) in Hb.
  destruct Hb as [-> Hb].
  exists o, n. repeat split; assumption.
Qed.

End Handler.

(** The username of the user of [impostor] changes from [alice]: the
    ban in the trace of the handler is the ban of that member, after a
    change of username. *)
Lemma execute_bans_changed_member_impostor :
  exists o n,
    Async.outcome
      (UserUpdate.fetchIfPartial Examples.banklessClient
         (UserUpdate.FullUser
            {| Discord.id := "101"; Discord.username := Examples.str "alice" |}))
    = Returned o
    /\ Async.outcome
         (UserUpdate.fetchIfPartial Examples.banklessClient
            (UserUpdate.FullUser (Discord.user Examples.impostor)))
       = Returned n
    /\ Discord.username o <> Discord.username n
    /\ Spec.findMember (UserUpdate.world Examples.banklessClient) (Discord.id n)
       = Some Examples.impostor
    /\ UserUpdate.isBanklessDAO Examples.banklessClient
         (guild (UserUpdate.world Examples.banklessClient)) = true
    /\ Async.outcome
         (SpamFilter.runUsernameSpamFilter UCD.unicode UCD.sampleConfusables
            (UserUpdate.world Examples.banklessClient) Examples.impostor)
       = Returned true.
Proof.
  apply (proj2 (execute_bans_changed_member UCD.unicode UCD.sampleConfusables
                  Examples.banklessClient
                  (UserUpdate.FullUser
                     {| Discord.id := "101"; Discord.username := Examples.str "alice" |})
                  (UserUpdate.FullUser (Discord.user Examples.impostor)))
               Examples.impostor).
  vm_compute. repeat (first [left; reflexivity | right]).
Defined.

End HandlerLaws.
